(** * GravityDown backend: job orchestration and progress normalisation

    A shallow embedding of [backend/downloader.py] and [backend/main.py]:
    the three task registries, the progress hook of the download manager,
    the line handlers of the two transcoding runners, their terminal
    writes, the cancellation endpoints, the compress admission endpoint,
    the output-path builders and the event generators.

    Python values are modelled by the Rocq types closest to them:
    [float] is the primitive binary64 type, [int] is [Z], [str] is
    [string] (lines are taken to be ASCII), [dict] is [gmap], [None]able
    values are [option]s, and a raised exception is the left injection
    of a sum.  Mutable objects stored in a registry are records that are
    re-inserted at their key. *)

From Stdlib Require Import ZArith String Ascii List Lia Bool.
From Stdlib Require Import Floats.PrimFloat Floats.SpecFloat Floats.FloatOps.
From Stdlib Require Import Floats.FloatAxioms.
From stdpp Require Import gmap strings list.

Local Open Scope string_scope.
Local Open Scope Z_scope.
Local Open Scope list_scope.

(** ** Python builtins used by the backend *)

Module Py.

(** Exceptions that the modelled code can raise. *)
Inductive exn :=
| ValueError
| IndexError
| KeyError
| OverflowError
| ZeroDivisionError
| OSError
| HTTPException (status_code : Z) (detail : string).

(** What a dictionary holds at a key, where the code tells the two
    apart: no such key, the value [None], or a value. *)
Inductive item (A : Type) :=
| Absent
| Null
| Value (a : A).
Arguments Absent {A}.
Arguments Null {A}.
Arguments Value {A} a.

(** *** Characters and strings *)

(** A [str] is a [string] whose characters are the code points below
    256: [len] counts them and a slice cuts between them.  Text with a
    code point of 256 or more is not represented. *)

(** [str.isspace] on one character, which is the white space that
    [strip] and [split] without argument remove: TAB..CR, FS..US,
    space, NEL (133) and the no-break space (160). *)
Definition is_space (c : ascii) : bool :=
  let n := nat_of_ascii c in
  ((9 <=? n) && (n <=? 13) || (28 <=? n) && (n <=? 32)
   || (n =? 133) || (n =? 160))%nat.

(** The white space that [int] and [float] skip at both ends of a
    string: TAB..CR and space, and the white space above 127, NEL and
    the no-break space, which these conversions first turn into
    spaces.  FS..US are not skipped. *)
Definition is_blank (c : ascii) : bool :=
  let n := nat_of_ascii c in
  ((9 <=? n) && (n <=? 13) || (n =? 32) || (n =? 133) || (n =? 160))%nat.

Definition is_digit (c : ascii) : bool :=
  let n := nat_of_ascii c in ((48 <=? n) && (n <=? 57))%nat.

Definition digit_value (c : ascii) : Z := Z.of_nat (nat_of_ascii c) - 48.

(** [str.lower] on one character: the capital letters are A..Z and
    the code points 192..222, the multiplication sign (215) apart. *)
Definition lower_char (c : ascii) : ascii :=
  let n := nat_of_ascii c in
  if ((65 <=? n) && (n <=? 90)
      || (192 <=? n) && (n <=? 222) && negb (n =? 215))%nat
  then ascii_of_nat (n + 32) else c.

(** [s.lower()] *)
Fixpoint lower (s : string) : string :=
  match s with
  | EmptyString => EmptyString
  | String c s' => String (lower_char c) (lower s')
  end.

(** [s.lstrip()], [s.rstrip()], [s.strip()] *)
Fixpoint lstrip (s : string) : string :=
  match s with
  | EmptyString => EmptyString
  | String c s' => if is_space c then lstrip s' else s
  end.

Fixpoint rstrip (s : string) : string :=
  match s with
  | EmptyString => EmptyString
  | String c s' =>
      match rstrip s' with
      | EmptyString => if is_space c then EmptyString else String c EmptyString
      | r => String c r
      end
  end.

Definition strip (s : string) : string := rstrip (lstrip s).

(** The string between the blanks that [int] and [float] skip. *)
Fixpoint skip_left (s : string) : string :=
  match s with
  | EmptyString => EmptyString
  | String c s' => if is_blank c then skip_left s' else s
  end.

Fixpoint skip_right (s : string) : string :=
  match s with
  | EmptyString => EmptyString
  | String c s' =>
      match skip_right s' with
      | EmptyString => if is_blank c then EmptyString else String c EmptyString
      | r => String c r
      end
  end.

Definition skip_blanks (s : string) : string := skip_right (skip_left s).

(** [sub in s] *)
Fixpoint contains (sub s : string) : bool :=
  String.prefix sub s ||
  match s with
  | EmptyString => false
  | String _ s' => contains sub s'
  end.

(** [s.split(sep)] for a non-empty separator: [skip] counts the
    characters of a separator occurrence still to be dropped, [cur] is
    the part being read. *)
Fixpoint split_go (sep s : string) (skip : nat) (cur : string) : list string :=
  match s with
  | EmptyString => [cur]
  | String c s' =>
      match skip with
      | S k => split_go sep s' k cur
      | O =>
          if String.prefix sep s
          then cur :: split_go sep s' (String.length sep - 1) EmptyString
          else split_go sep s' 0 (cur +:+ String c EmptyString)
      end
  end.

Definition split (sep s : string) : list string := split_go sep s 0 EmptyString.

(** [s.split(c, 1)] for a one-character separator. *)
Fixpoint split1_go (c : ascii) (s cur : string) : list string :=
  match s with
  | EmptyString => [cur]
  | String d s' =>
      if Ascii.eqb d c then [cur; s']
      else split1_go c s' (cur +:+ String d EmptyString)
  end.

Definition split1 (c : ascii) (s : string) : list string := split1_go c s EmptyString.

(** [s.split()]: the maximal runs of non-space characters. *)
Fixpoint split_ws_go (s cur : string) : list string :=
  match s with
  | EmptyString => match cur with EmptyString => [] | _ => [cur] end
  | String c s' =>
      if is_space c
      then match cur with
           | EmptyString => split_ws_go s' EmptyString
           | _ => cur :: split_ws_go s' EmptyString
           end
      else split_ws_go s' (cur +:+ String c EmptyString)
  end.

Definition split_ws (s : string) : list string := split_ws_go s EmptyString.

(** The line feed character, as a string. *)
Definition newline : string := String (ascii_of_nat 10) EmptyString.

(** [sep.join(parts)] *)
Definition join (sep : string) (parts : list string) : string :=
  String.concat sep parts.

(** [xs[-n:]] for a positive [n] *)
Definition last_n {A} (n : nat) (xs : list A) : list A :=
  drop (List.length xs - n) xs.

(** *** Integers *)

(** A [digitpart]: digits, with single underscores allowed between
    two digits.  [acc] is the value read so far, [n] the number of
    digits read, [after_digit] tells whether the previous character
    was a digit.  Returns the value, the digit count and the rest. *)
Fixpoint digitpart_go (s : string) (acc : Z) (n : nat) (after_digit : bool)
  : option (Z * nat * string) :=
  match s with
  | EmptyString => if after_digit then Some (acc, n, s) else None
  | String c s' =>
      if is_digit c then digitpart_go s' (10 * acc + digit_value c) (S n) true
      else if Ascii.eqb c "_" && after_digit then
        match s' with
        | String d _ => if is_digit d then digitpart_go s' acc n false else None
        | EmptyString => None
        end
      else if after_digit then Some (acc, n, s) else None
  end.

Definition digitpart (s : string) : option (Z * nat * string) :=
  digitpart_go s 0 0%nat false.

(** An optional sign: [true] for minus. *)
Definition sign (s : string) : bool * string :=
  match s with
  | String "-" s' => (true, s')
  | String "+" s' => (false, s')
  | _ => (false, s)
  end.

(** [int(s)] on a string, base 10. *)
Definition int (s : string) : exn + Z :=
  let (neg, body) := sign (skip_blanks s) in
  match digitpart body with
  | Some (v, _, EmptyString) => inr (if neg then - v else v)
  | _ => inl ValueError
  end.

Fixpoint digits_of_pos_go (fuel : nat) (n : Z) (acc : string) : string :=
  match fuel with
  | O => acc
  | S fuel' =>
      let acc' := String (ascii_of_nat (Z.to_nat (n mod 10) + 48)) acc in
      if n <? 10 then acc' else digits_of_pos_go fuel' (n / 10) acc'
  end.

(** [str(n)] for an integer. *)
Definition str_int (n : Z) : string :=
  let a := Z.abs n in
  let ds := digits_of_pos_go (S (Z.to_nat (Z.log2 a))) a EmptyString in
  if n <? 0 then String "-" ds else ds.

(** *** Floats *)

(** The correctly rounded (nearest, ties to even) binary64 value of
    the rational [n / d], [0 <= n], [0 < d], with sign [neg]: the
    quotient is taken with at least 64 significant bits and a sticky
    bit, and then rounded once. *)
Definition round_quotient (neg : bool) (n d : Z) : float :=
  if n =? 0 then (if neg then neg_zero else zero)
  else
    let k := Z.max 0 (66 + Z.log2 d - Z.log2 n) in
    let q := (n * 2 ^ k) / d in
    let sticky := if (n * 2 ^ k) mod d =? 0 then 0 else 1 in
    let m := 2 * q + sticky in
    SF2Prim (binary_normalize prec emax (if neg then - m else m) (- k - 1) neg).

(** The least magnitude that rounds beyond the largest float: the
    midpoint between it and [2 ^ 1024], where the tie goes up. *)
Definition float_limit : Z := 2 ^ 1024 - 2 ^ 970.

(** An [int] converted to [float]: the nearest float, and
    [OverflowError] when that is beyond the largest one. *)
Definition float_of_int (z : Z) : exn + float :=
  if float_limit <=? Z.abs z then inl OverflowError
  else inr (round_quotient (z <? 0) (Z.abs z) 1).

(** [a / b] on two [int]s. *)
Definition int_truediv (a b : Z) : exn + float :=
  if b =? 0 then inl ZeroDivisionError
  else
    let f := round_quotient (xorb (a <? 0) (b <? 0)) (Z.abs a) (Z.abs b) in
    if is_infinity f then inl OverflowError else inr f.

(** [int(f)] on a [float]: truncation toward zero. *)
Definition int_of_float (f : float) : exn + Z :=
  match Prim2SF f with
  | S754_nan => inl ValueError
  | S754_infinity _ => inl OverflowError
  | S754_zero _ => inr 0
  | S754_finite s m e =>
      let a := if 0 <=? e then Zpos m * 2 ^ e else Zpos m / 2 ^ (- e) in
      inr (if s then - a else a)
  end.

(** [f > z] for a [float] and an [int]: the comparison is exact. *)
Definition float_gt_int (f : float) (z : Z) : bool :=
  match Prim2SF f with
  | S754_nan => false
  | S754_infinity s => negb s
  | S754_zero _ => z <? 0
  | S754_finite s m e =>
      let mz := if s then Zneg m else Zpos m in
      if 0 <=? e then z <? mz * 2 ^ e else z * 2 ^ (- e) <? mz
  end.

(** [bool(f)] *)
Definition float_truthy (f : float) : bool := negb (PrimFloat.eqb f zero).

(** [min(a, b)]: the first argument unless the second is smaller. *)
Definition min (a b : float) : float := if PrimFloat.ltb b a then b else a.

(** The exponent part of a float literal: [e], a sign and a digitpart. *)
Definition exponent (s : string) : option (Z * string) :=
  match s with
  | String c s' =>
      if Ascii.eqb (lower_char c) "e" then
        let (neg, body) := sign s' in
        match digitpart body with
        | Some (v, _, rest) => Some (if neg then - v else v, rest)
        | None => None
        end
      else None
  | EmptyString => None
  end.

(** [number]: [digitpart] with an optional fraction, or a fraction
    alone.  Returns the digits as an integer, the number of fraction
    digits and the rest. *)
Definition number (s : string) : option (Z * nat * string) :=
  match digitpart s with
  | Some (ip, _, String "." s1) =>
      match digitpart_go s1 ip 0%nat false with
      | Some r => Some r
      | None => Some (ip, 0%nat, s1)
      end
  | Some (ip, _, rest) => Some (ip, 0%nat, rest)
  | None =>
      match s with
      | String "." s1 => digitpart s1
      | _ => None
      end
  end.

(** [f"{x:.1f}"]: one decimal, rounded to nearest with ties to even on
    the exact binary value. *)
Definition format_1f (f : float) : string :=
  match Prim2SF f with
  | S754_nan => "nan"
  | S754_infinity s => if s then "-inf" else "inf"
  | S754_zero s => if s then "-0.0" else "0.0"
  | S754_finite s m e =>
      let tenths :=
        if 0 <=? e then Zpos m * 2 ^ e * 10
        else
          let num := Zpos m * 10 in
          let den := 2 ^ (- e) in
          let q := num / den in
          let r := num mod den in
          match 2 * r ?= den with
          | Lt => q
          | Gt => q + 1
          | Eq => if Z.even q then q else q + 1
          end in
      (if s then "-" else "") +:+ str_int (tenths / 10) +:+ "."
        +:+ str_int (tenths mod 10)
  end.

(** [float(s)] on a string. *)
Definition float (s : string) : exn + float :=
  let (neg, body) := sign (skip_blanks s) in
  let word := lower body in
  if String.eqb word "inf" || String.eqb word "infinity"
  then inr (if neg then neg_infinity else infinity)
  else if String.eqb word "nan" then inr nan
  else
    match number body with
    | Some (digits, frac, rest) =>
        let finish (e10 : Z) :=
          let e := e10 - Z.of_nat frac in
          if 0 <=? e then round_quotient neg (digits * 10 ^ e) 1
          else round_quotient neg digits (10 ^ (- e)) in
        match rest with
        | EmptyString => inr (finish 0)
        | _ =>
            match exponent rest with
            | Some (e10, EmptyString) => inr (finish e10)
            | _ => inl ValueError
            end
        end
    | None => inl ValueError
    end.

End Py.

(** ** [posixpath]: the path functions the output-path builders call *)

Module PosixPath.

(** [p.rfind(c)]: the index of the last occurrence, [-1] when absent. *)
Fixpoint rfind_go (c : ascii) (p : string) (i last : Z) : Z :=
  match p with
  | EmptyString => last
  | String d p' => rfind_go c p' (i + 1) (if Ascii.eqb d c then i else last)
  end.

Definition rfind (c : ascii) (p : string) : Z := rfind_go c p 0 (-1).

Definition slice_from (i : Z) (p : string) : string :=
  String.substring (Z.to_nat i) (String.length p - Z.to_nat i) p.

Definition slice_to (i : Z) (p : string) : string :=
  String.substring 0 (Z.to_nat i) p.

(** [os.path.basename]: what follows the last slash. *)
Definition basename (p : string) : string := slice_from (rfind "/" p + 1) p.

(** [range(a, b)] as a list of integers. *)
Definition range (a b : Z) : list Z :=
  List.map (fun k => a + Z.of_nat k) (seq 0 (Z.to_nat (b - a))).

(** [os.path.splitext]: the extension starts at the last dot, unless
    only dots stand between the last slash and it. *)
Definition splitext (p : string) : string * string :=
  let sepIndex := rfind "/" p in
  let dotIndex := rfind "." p in
  if sepIndex <? dotIndex then
    if existsb
         (fun i => negb (String.eqb (String.substring (Z.to_nat i) 1 p) "."))
         (range (sepIndex + 1) dotIndex)
    then (slice_to dotIndex p, slice_from dotIndex p)
    else (p, EmptyString)
  else (p, EmptyString).

Definition endswith_slash (p : string) : bool :=
  rfind "/" p =? Z.of_nat (String.length p) - 1.

(** [os.path.join(a, b)] *)
Definition join (a b : string) : string :=
  if String.prefix "/" b then b
  else if String.eqb a EmptyString || endswith_slash a then a +:+ b
  else a +:+ "/" +:+ b.

End PosixPath.

(** ** The runtime: exceptions, locks, processes and the trace of effects *)

Module Sys.

(** The three registry locks: [manager._lock], [compression_lock] and
    [convert_lock]. *)
Inductive lock := manager_lock | compression_lock | convert_lock.

(** A [subprocess.Popen] object, named by its process identifier. *)
Definition process := nat.

(** The effects that leave the interpreter, in the order they occur. *)
Inductive event :=
| Acquire (l : lock)
| Release (l : lock)
| Popen (p : process)
| terminate (p : process)
| wait (p : process) (timeout : option Z)
| kill (p : process)
| join_readers
| run_in_executor (task_id : string)
| callback (task_id : string).

(** The calls of the modelled code that block the calling thread:
    [process.wait], with or without a timeout. *)
Definition blocking (e : event) : bool :=
  match e with
  | wait _ _ => true
  | _ => false
  end.

Definition lock_eqb (a b : lock) : bool :=
  match a, b with
  | manager_lock, manager_lock
  | compression_lock, compression_lock
  | convert_lock, convert_lock => true
  | _, _ => false
  end.

(** Whether some blocking call of the trace runs while a lock of
    [held] or one acquired earlier in the trace is held. *)
Fixpoint blocks_under_lock (held : list lock) (tr : list event) : bool :=
  match tr with
  | [] => false
  | Acquire l :: tr' => blocks_under_lock (l :: held) tr'
  | Release l :: tr' =>
      blocks_under_lock (List.filter (fun h => negb (lock_eqb h l)) held) tr'
  | e :: tr' =>
      (blocking e && negb (match held with [] => true | _ => false end))
      || blocks_under_lock held tr'
  end.

(** How many times the trace acquires the lock [l]. *)
Definition acquisitions (l : lock) (tr : list event) : nat :=
  List.length
    (List.filter (fun e => match e with Acquire l' => lock_eqb l l' | _ => false end) tr).

(** Computations over a state [S]: they return or raise, leave a
    state, and emit events.  What was written before an exception
    stays written. *)
Definition M (S A : Type) : Type := S -> (Py.exn + A) * S * list event.

#[global] Instance M_ret {S} : MRet (M S) := fun A a s => (inr a, s, []).

#[global] Instance M_bind {S} : MBind (M S) := fun A B k m s =>
  match m s with
  | (inr a, s', t1) => let '(r, s'', t2) := k a s' in (r, s'', t1 ++ t2)
  | (inl e, s', t1) => (inl e, s', t1)
  end.

Definition raise {S A} (e : Py.exn) : M S A := fun s => (inl e, s, []).

Definition get {S} : M S S := fun s => (inr s, s, []).

Definition modify {S} (f : S -> S) : M S unit := fun s => (inr tt, f s, []).

Definition emit {S} (e : event) : M S unit := fun s => (inr tt, s, [e]).

(** A pure fallible value, raised or returned. *)
Definition lift {S A} (r : Py.exn + A) : M S A := fun s => (r, s, []).

(** [try: m except Exception: h] *)
Definition try_except {S A} (m : M S A) (h : Py.exn -> M S A) : M S A := fun s =>
  match m s with
  | (inl e, s', t1) => let '(r, s'', t2) := h e s' in (r, s'', t1 ++ t2)
  | r => r
  end.

(** [with l: m]: the lock is released on return and on raise. *)
Definition with_lock {S A} (l : lock) (m : M S A) : M S A := fun s =>
  let '(r, s', t) := m s in (r, s', Acquire l :: t ++ [Release l]).

(** A computation on the second component of a pair of states. *)
Definition on_snd {C W A} (m : M W A) : M (C * W) A := fun s =>
  let '(r, w', t) := m (snd s) in (r, (fst s, w'), t).

(** A computation that owns fresh closure variables [c]. *)
Definition with_cells {C W A} (c : C) (m : M (C * W) A) : M W A := fun w =>
  let '(r, s', t) := m (c, w) in (r, snd s', t).

Definition get_fst {C W} : M (C * W) C := fun s => (inr (fst s), s, []).

Definition modify_fst {C W} (f : C -> C) : M (C * W) unit := fun s =>
  (inr tt, (f (fst s), snd s), []).

(** The three components of a run. *)
Definition outcome {S A} (r : (Py.exn + A) * S * list event) : Py.exn + A := fst (fst r).
Definition final {S A} (r : (Py.exn + A) * S * list event) : S := snd (fst r).
Definition effects {S A} (r : (Py.exn + A) * S * list event) : list event := snd r.

End Sys.

(** ** [downloader.py] *)

Module Downloader.
Import Sys.

Inductive DownloadStatus :=
| PENDING | FETCHING_INFO | DOWNLOADING | PROCESSING | COMPLETED | ERROR.

Definition DownloadStatus_eqb (a b : DownloadStatus) : bool :=
  match a, b with
  | PENDING, PENDING | FETCHING_INFO, FETCHING_INFO | DOWNLOADING, DOWNLOADING
  | PROCESSING, PROCESSING | COMPLETED, COMPLETED | ERROR, ERROR => true
  | _, _ => false
  end.

(** [DownloadStatus.value] *)
Definition value (s : DownloadStatus) : string :=
  match s with
  | PENDING => "pending"
  | FETCHING_INFO => "fetching_info"
  | DOWNLOADING => "downloading"
  | PROCESSING => "processing"
  | COMPLETED => "completed"
  | ERROR => "error"
  end.

Module DownloadTask.
Record t := mk {
  task_id : string;
  url : string;
  status : DownloadStatus;
  progress : float;
  speed : string;
  eta : string;
  filename : string;
  error : option string;
  total_bytes : Z;
  downloaded_bytes : Z;
  title : string;
  thumbnail : string;
}.

(** [DownloadTask(task_id=..., url=..., status=PENDING)] with the
    defaults of the dataclass. *)
Definition new (task_id url : string) : t :=
  mk task_id url PENDING 0 "0 B/s" "N/A" "" None 0 0 "" "".

Definition set_status (v : DownloadStatus) (x : t) : t :=
  mk (task_id x) (url x) v (progress x) (speed x) (eta x) (filename x)
     (error x) (total_bytes x) (downloaded_bytes x) (title x) (thumbnail x).
Definition set_progress (v : float) (x : t) : t :=
  mk (task_id x) (url x) (status x) v (speed x) (eta x) (filename x)
     (error x) (total_bytes x) (downloaded_bytes x) (title x) (thumbnail x).
Definition set_speed (v : string) (x : t) : t :=
  mk (task_id x) (url x) (status x) (progress x) v (eta x) (filename x)
     (error x) (total_bytes x) (downloaded_bytes x) (title x) (thumbnail x).
Definition set_eta (v : string) (x : t) : t :=
  mk (task_id x) (url x) (status x) (progress x) (speed x) v (filename x)
     (error x) (total_bytes x) (downloaded_bytes x) (title x) (thumbnail x).
Definition set_filename (v : string) (x : t) : t :=
  mk (task_id x) (url x) (status x) (progress x) (speed x) (eta x) v
     (error x) (total_bytes x) (downloaded_bytes x) (title x) (thumbnail x).
Definition set_error (v : option string) (x : t) : t :=
  mk (task_id x) (url x) (status x) (progress x) (speed x) (eta x) (filename x)
     v (total_bytes x) (downloaded_bytes x) (title x) (thumbnail x).
Definition set_total_bytes (v : Z) (x : t) : t :=
  mk (task_id x) (url x) (status x) (progress x) (speed x) (eta x) (filename x)
     (error x) v (downloaded_bytes x) (title x) (thumbnail x).
Definition set_downloaded_bytes (v : Z) (x : t) : t :=
  mk (task_id x) (url x) (status x) (progress x) (speed x) (eta x) (filename x)
     (error x) (total_bytes x) v (title x) (thumbnail x).
End DownloadTask.

(** The [DownloadManager] object: its task dictionary and the
    identifiers that have a callback registered. *)
Record DownloadManager := {
  tasks : gmap string DownloadTask.t;
  _callbacks : gset string;
}.

Definition set_tasks (v : gmap string DownloadTask.t) (m : DownloadManager)
  : DownloadManager :=
  {| tasks := v; _callbacks := _callbacks m |}.

(** [task.f = v] on the task object stored at [task_id]. *)
Definition assign (task_id : string) (f : DownloadTask.t -> DownloadTask.t)
  : M DownloadManager unit :=
  modify (fun m => set_tasks (alter f task_id (tasks m)) m).

Fixpoint _format_speed_loop (fuel : nat) (speed : float) (unit_index : nat)
  : float * nat :=
  match fuel with
  | O => (speed, unit_index)
  | S fuel' =>
      if PrimFloat.leb 1024 speed && (unit_index <? 3)%nat
      then _format_speed_loop fuel' (speed / 1024)%float (S unit_index)
      else (speed, unit_index)
  end.

(** [DownloadManager._format_speed] *)
Definition _format_speed (speed : option float) : string :=
  match speed with
  | None => "0 B/s"
  | Some speed =>
      if negb (Py.float_truthy speed) then "0 B/s"
      else
        let units := ["B/s"; "KB/s"; "MB/s"; "GB/s"] in
        let '(speed, unit_index) := _format_speed_loop 3 speed 0 in
        Py.format_1f speed +:+ " " +:+ List.nth unit_index units ""
  end.

(** [DownloadManager._format_eta] *)
Definition _format_eta (eta : option float) : Py.exn + string :=
  match eta with
  | None => inr "N/A"
  | Some eta =>
      if negb (Py.float_truthy eta) then inr "N/A"
      else
        match Py.int_of_float eta with
        | inl e => inl e
        | inr n =>
            let minutes := n / 60 in
            let seconds := n mod 60 in
            let hours := minutes / 60 in
            let minutes := minutes mod 60 in
            if negb (hours =? 0) then
              inr (Py.str_int hours +:+ "h " +:+ Py.str_int minutes +:+ "m "
                   +:+ Py.str_int seconds +:+ "s")
            else if negb (minutes =? 0) then
              inr (Py.str_int minutes +:+ "m " +:+ Py.str_int seconds +:+ "s")
            else inr (Py.str_int seconds +:+ "s")
        end
  end.

(** The dictionary [d] that the engine passes to a progress hook, at
    the keys the hook reads, each key being absent ([None]) or
    holding a value of the type the dataclass declares for the field
    it goes to.  At [status], [total_bytes], [speed] and [eta] the
    value [None] reads as the absent key does.  A dictionary that
    holds [None], or a float for a number of bytes, at another key is
    not represented: there the hook stores the value as it is, and
    the comparison or the division that follows raises [TypeError]
    on [None]. *)
Record hook_dict := {
  d_status : option string;
  d_downloaded_bytes : option Z;
  d_total_bytes : option Z;
  d_total_bytes_estimate : option Z;
  d_speed : option float;
  d_eta : option float;
  d_filename : option string;
  d_error : option string;
}.

(** [DownloadManager._progress_hook] *)
Definition _progress_hook (task_id : string) (d : hook_dict)
  : M DownloadManager unit :=
  found ← with_lock manager_lock (
    m ← get;
    match tasks m !! task_id with
    | None => mret false
    | Some _ =>
        let status := default "" (d_status d) in
        (if String.eqb status "downloading" then
           assign task_id (DownloadTask.set_status DOWNLOADING);;
           let downloaded_bytes := default 0 (d_downloaded_bytes d) in
           assign task_id (DownloadTask.set_downloaded_bytes downloaded_bytes);;
           let total_bytes :=
             match d_total_bytes d with
             | Some n => if n =? 0 then default 0 (d_total_bytes_estimate d) else n
             | None => default 0 (d_total_bytes_estimate d)
             end in
           assign task_id (DownloadTask.set_total_bytes total_bytes);;
           (if 0 <? total_bytes then
              q ← lift (Py.int_truediv downloaded_bytes total_bytes);
              assign task_id (DownloadTask.set_progress (q * 100)%float)
            else mret tt);;
           assign task_id (DownloadTask.set_speed (_format_speed (d_speed d)));;
           eta ← lift (_format_eta (d_eta d));
           assign task_id (DownloadTask.set_eta eta);;
           assign task_id (DownloadTask.set_filename (default "" (d_filename d)))
         else if String.eqb status "finished" then
           assign task_id (DownloadTask.set_status PROCESSING);;
           assign task_id (DownloadTask.set_progress 100);;
           assign task_id (DownloadTask.set_filename (default "" (d_filename d)))
         else if String.eqb status "error" then
           assign task_id (DownloadTask.set_status ERROR);;
           assign task_id
             (DownloadTask.set_error (Some (default "Unknown error" (d_error d))))
         else mret tt);;
        mret true
    end);
  if found : bool then
    m ← get;
    if decide (task_id ∈ _callbacks m) then emit (callback task_id) else mret tt
  else mret tt.

(** [DownloadManager.start_download], with the identifier that
    [uuid4] draws and the URL as [_normalize_url] returns it: the task
    is stored and the worker is submitted. *)
Definition start_download (task_id url : string) (with_callback : bool)
  : M DownloadManager string :=
  with_lock manager_lock (
    modify (fun m =>
      {| tasks := <[task_id := DownloadTask.new task_id url]> (tasks m);
         _callbacks := if with_callback then {[task_id]} ∪ _callbacks m
                       else _callbacks m |}));;
  emit (run_in_executor task_id);;
  mret task_id.

(** [DownloadManager.get_task] *)
Definition get_task (task_id : string) : M DownloadManager (option DownloadTask.t) :=
  with_lock manager_lock (m ← get; mret (tasks m !! task_id)).

(** [DownloadManager.cancel_task] *)
Definition cancel_task (task_id : string) : M DownloadManager bool :=
  with_lock manager_lock (
    m ← get;
    match tasks m !! task_id with
    | Some task =>
        if DownloadStatus_eqb (DownloadTask.status task) PENDING
           || DownloadStatus_eqb (DownloadTask.status task) DOWNLOADING
        then
          assign task_id (DownloadTask.set_status ERROR);;
          assign task_id (DownloadTask.set_error (Some "Cancelled by user"));;
          mret true
        else mret false
    | None => mret false
    end).

(** [re.sub(pattern, repl, s)] for a pattern that is one character
    class: every character of the class is replaced by [repl]. *)
Fixpoint re_sub (class : ascii -> bool) (repl s : string) : string :=
  match s with
  | EmptyString => EmptyString
  | String c s' =>
      if class c then repl +:+ re_sub class repl s'
      else String c (re_sub class repl s')
  end.

(** The class of [invalid_chars], by character code: backslash, slash,
    colon, star, question mark, double quote, angle brackets and bar. *)
Definition invalid_chars (c : ascii) : bool :=
  existsb (Nat.eqb (nat_of_ascii c)) [92; 47; 58; 42; 63; 34; 60; 62; 124]%nat.

(** The class [[\x00-\x1f]]. *)
Definition control_chars (c : ascii) : bool := (nat_of_ascii c <=? 31)%nat.

(** [sanitize_filename] *)
Definition sanitize_filename (filename : string) : string :=
  let sanitized := re_sub invalid_chars "_" filename in
  let sanitized := re_sub control_chars "" sanitized in
  let sanitized :=
    if (200 <? String.length sanitized)%nat
    then String.substring 0 200 sanitized else sanitized in
  Py.strip sanitized.

(** [DownloadManager._detect_platform] *)
Definition _detect_platform (url : string) : string :=
  if Py.contains "youtube.com" url || Py.contains "youtu.be" url then "youtube"
  else if Py.contains "tiktok.com" url then "tiktok"
  else if Py.contains "instagram.com" url then "instagram"
  else if Py.contains "facebook.com" url || Py.contains "fb.watch" url then "facebook"
  else if Py.contains "twitter.com" url || Py.contains "x.com" url then "twitter"
  else if Py.contains "twitch.tv" url then "twitch"
  else "other".

(** One element of [info["formats"]], at the keys [get_video_info]
    reads.  For the two codecs, read with the default ["none"], an
    absent key and the value [None] differ.  The other keys are read
    with [get(key)], where the two give the same [None]. *)
Record format_dict := {
  f_format_id : option string;
  f_height : option Z;
  f_vcodec : Py.item string;
  f_acodec : Py.item string;
  f_ext : option string;
  f_filesize : option Z;
  f_filesize_approx : option Z;
}.

(** One element of the [formats] list that [get_video_info] returns;
    its ["type"] is always ["video"]. *)
Record format_entry := {
  format_id : option string;
  resolution : string;
  height : Z;
  ext : option string;
  has_audio : bool;
  filesize : option Z;
}.

(** [f.get("filesize") or f.get("filesize_approx")] *)
Definition filesize_of (f : format_dict) : option Z :=
  match f_filesize f with
  | Some n => if n =? 0 then f_filesize_approx f else Some n
  | None => f_filesize_approx f
  end.

(** [f.get(key, "none") != "none"] for a codec: an absent key reads
    as ["none"], and [None] is not ["none"]. *)
Definition has_codec (codec : Py.item string) : bool :=
  match codec with
  | Py.Absent => false
  | Py.Null => true
  | Py.Value name => negb (String.eqb name "none")
  end.

(** The dictionary appended for the format [f] of height [height]. *)
Definition entry_of (f : format_dict) (height : Z) : format_entry :=
  {| format_id := f_format_id f;
     resolution := Py.str_int height +:+ "p";
     height := height;
     ext := f_ext f;
     has_audio := has_codec (f_acodec f);
     filesize := filesize_of f |}.

(** [height and vcodec != "none"], with the height when it holds. *)
Definition video_height (f : format_dict) : option Z :=
  match f_height f with
  | Some height =>
      if negb (height =? 0) && has_codec (f_vcodec f)
      then Some height else None
  | None => None
  end.

(** The loop over [info.get("formats", [])], with [seen_resolutions]
    and the list built so far. *)
Fixpoint formats_loop (fs : list format_dict) (seen_resolutions : gset string)
    (formats : list format_entry) : list format_entry :=
  match fs with
  | [] => formats
  | f :: fs' =>
      match video_height f with
      | Some height =>
          let resolution := Py.str_int height +:+ "p" in
          if decide (resolution ∈ seen_resolutions)
          then formats_loop fs' seen_resolutions formats
          else formats_loop fs' ({[resolution]} ∪ seen_resolutions)
                 (formats ++ [entry_of f height])
      | None => formats_loop fs' seen_resolutions formats
      end
  end.

(** [formats.sort(key=height, reverse=True)]: the sort is stable, so
    of two entries of one height the earlier stays first. *)
Fixpoint sort_insert (x : format_entry) (l : list format_entry) : list format_entry :=
  match l with
  | [] => [x]
  | y :: l' => if height x <? height y then y :: sort_insert x l' else x :: l
  end.

Definition sort_by_height (l : list format_entry) : list format_entry :=
  List.fold_right sort_insert [] l.

(** The dictionary [extract_info] returns, at the keys read. *)
Record info_dict := {
  i_id : option string;
  i_title : option string;
  i_thumbnail : option string;
  i_duration : option (Z + PrimFloat.float);
  i_channel : option string;
  i_uploader : option string;
  i_view_count : option Z;
  i_formats : list format_dict;
}.

Record video_info := {
  v_id : option string;
  v_title : option string;
  v_thumbnail : option string;
  v_duration : option Z;
  v_channel : option string;
  v_view_count : option Z;
  v_platform : string;
  v_formats : list format_entry;
}.

(** [DownloadManager.get_video_info], from the URL as [_normalize_url]
    returns it and from what [extract_info] returns for it ([None] for
    a value that is not truthy). *)
Definition get_video_info (url : string) (info : option info_dict)
  : Py.exn + video_info :=
  match info with
  | None => inl Py.ValueError
  | Some info =>
      let formats := sort_by_height (formats_loop (i_formats info) ∅ []) in
      let duration :=
        match i_duration info with
        | Some (inr d) => match Py.int_of_float d with
                          | inl e => inl e
                          | inr n => inr (Some n)
                          end
        | Some (inl n) => inr (Some n)
        | None => inr None
        end in
      match duration with
      | inl e => inl e
      | inr duration =>
          inr {| v_id := i_id info;
                 v_title := i_title info;
                 v_thumbnail := i_thumbnail info;
                 v_duration := duration;
                 v_channel := match i_channel info with
                              | Some c => if String.eqb c "" then i_uploader info else Some c
                              | None => i_uploader info
                              end;
                 v_view_count := i_view_count info;
                 v_platform := _detect_platform url;
                 v_formats := formats |}
      end
  end.

Definition set_title (v : string) (x : DownloadTask.t) : DownloadTask.t :=
  DownloadTask.mk (DownloadTask.task_id x) (DownloadTask.url x) (DownloadTask.status x)
    (DownloadTask.progress x) (DownloadTask.speed x) (DownloadTask.eta x)
    (DownloadTask.filename x) (DownloadTask.error x) (DownloadTask.total_bytes x)
    (DownloadTask.downloaded_bytes x) v (DownloadTask.thumbnail x).

Definition set_thumbnail (v : string) (x : DownloadTask.t) : DownloadTask.t :=
  DownloadTask.mk (DownloadTask.task_id x) (DownloadTask.url x) (DownloadTask.status x)
    (DownloadTask.progress x) (DownloadTask.speed x) (DownloadTask.eta x)
    (DownloadTask.filename x) (DownloadTask.error x) (DownloadTask.total_bytes x)
    (DownloadTask.downloaded_bytes x) (DownloadTask.title x) v.

(** What the worker's [try] block ends with: it completed, an
    exception with the text [str(e)] was caught, or the [KeyError] of
    [self.tasks[task_id]] was. *)
Inductive caught :=
| Done
| Failed (message : string)
| Missing.

(** What the worker meets outside the manager.  [engine] is the call
    [ydl.extract_info(url, download=True)]: it returns the title and
    thumbnail of [info] (with the defaults of [info.get]) or raises an
    exception of text [str(e)], and the registry is changed while it
    runs, by the progress hooks it calls and by other threads. *)
Record worker_env := {
  output_dir : string;
  makedirs : option string;
  pre_title : option string;
  engine : DownloadManager -> (string + string * string) * DownloadManager;
}.

(** [x or default] on an optional string. *)
Definition or_else (x : option string) (d : string) : string :=
  match x with
  | Some v => if String.eqb v "" then d else v
  | None => d
  end.

(** [self.tasks[task_id]] followed by assignments to the task, under
    the lock; [Missing] stands for the [KeyError]. *)
Definition locked_write (task_id : string) (f : DownloadTask.t -> DownloadTask.t)
  : M DownloadManager caught :=
  with_lock manager_lock (
    m ← get;
    match tasks m !! task_id with
    | None => mret Missing
    | Some _ => assign task_id f;; mret Done
    end).

(** The handler [except Exception as e] of the worker. *)
Definition worker_except (task_id message : string) : M DownloadManager unit :=
  with_lock manager_lock (
    m ← get;
    match tasks m !! task_id with
    | None => raise Py.KeyError
    | Some _ =>
        assign task_id (DownloadTask.set_status ERROR);;
        assign task_id (DownloadTask.set_error (Some message))
    end).

(** [DownloadManager._download_worker].  [makedirs e] is [None] when
    [os.makedirs] returns and the text of its exception otherwise;
    [pre_title e] is [pre_info.get('title', 'download')], or [None]
    when the pre-fetch raised. *)
Definition _download_worker (e : worker_env)
    (task_id url format_type quality : string)
    (output_path output_format audio_quality : option string)
  : M DownloadManager unit :=
  result ← (
    started ← locked_write task_id (DownloadTask.set_status FETCHING_INFO);
    match started with
    | Done =>
        let target_dir := or_else output_path (output_dir e) in
        match makedirs e with
        | Some message => mret (Failed message)
        | None =>
            let safe_title :=
              match pre_title e with
              | Some title => sanitize_filename title
              | None => "download_" +:+ task_id
              end in
            let final_ext :=
              if String.eqb format_type "audio" then or_else output_format "mp3"
              else or_else output_format "mp4" in
            info ← (fun m => let '(r, m') := engine e m in (inr r, m', []));
            match info with
            | inl message => mret (Failed message)
            | inr (title, thumbnail) =>
                locked_write task_id (fun task =>
                  DownloadTask.set_filename
                    (PosixPath.join target_dir (safe_title +:+ "." +:+ final_ext))
                    (set_thumbnail thumbnail
                       (set_title title
                          (DownloadTask.set_progress 100
                             (DownloadTask.set_status COMPLETED task)))))
            end
        end
    | other => mret other
    end);
  match result with
  | Done => mret tt
  | Failed message => worker_except task_id message
  | Missing => worker_except task_id ("'" +:+ task_id +:+ "'")
  end;;
  m ← get;
  if decide (task_id ∈ _callbacks m) then
    match tasks m !! task_id with
    | None => raise Py.KeyError
    | Some _ => emit (callback task_id)
    end
  else mret tt.

End Downloader.

(** ** [main.py] *)

Module Main.
Import Sys.

(** The float constants of the handlers: [0.2] and [0.3] are the
    binary64 values nearest to the decimal literals. *)
Definition f0_2 : float := 0x1.999999999999ap-3%float.
Definition f0_3 : float := 0x1.3333333333333p-2%float.

Inductive CompressionStatus := PENDING | COMPRESSING | COMPLETED | ERROR.

Definition CompressionStatus_eqb (a b : CompressionStatus) : bool :=
  match a, b with
  | PENDING, PENDING | COMPRESSING, COMPRESSING
  | COMPLETED, COMPLETED | ERROR, ERROR => true
  | _, _ => false
  end.

(** [CompressionStatus.value] *)
Definition value (s : CompressionStatus) : string :=
  match s with
  | PENDING => "pending"
  | COMPRESSING => "compressing"
  | COMPLETED => "completed"
  | ERROR => "error"
  end.

Module CompressionTask.
(** The dataclass, and the attribute [use_gpu] that
    [start_compression] sets on every instance it creates. *)
Record t := mk {
  task_id : string;
  input_path : string;
  output_path : string;
  status : CompressionStatus;
  progress : float;
  eta : string;
  error : option string;
  process : option Sys.process;
  use_gpu : bool;
}.

Definition new (task_id input_path output_path : string) (use_gpu : bool) : t :=
  mk task_id input_path output_path PENDING 0 "N/A" None None use_gpu.

Definition set_output_path (v : string) (x : t) : t :=
  mk (task_id x) (input_path x) v (status x) (progress x) (eta x) (error x)
     (process x) (use_gpu x).
Definition set_status (v : CompressionStatus) (x : t) : t :=
  mk (task_id x) (input_path x) (output_path x) v (progress x) (eta x) (error x)
     (process x) (use_gpu x).
Definition set_progress (v : float) (x : t) : t :=
  mk (task_id x) (input_path x) (output_path x) (status x) v (eta x) (error x)
     (process x) (use_gpu x).
Definition set_error (v : option string) (x : t) : t :=
  mk (task_id x) (input_path x) (output_path x) (status x) (progress x) (eta x) v
     (process x) (use_gpu x).
Definition set_process (v : option Sys.process) (x : t) : t :=
  mk (task_id x) (input_path x) (output_path x) (status x) (progress x) (eta x)
     (error x) v (use_gpu x).
End CompressionTask.

Module ConvertTask.
(** The dataclass; its status is a plain string. *)
Record t := mk {
  task_id : string;
  input_path : string;
  output_path : string;
  status : string;
  progress : float;
  eta : string;
  error : option string;
  process : option Sys.process;
}.

Definition new (task_id input_path output_path : string) : t :=
  mk task_id input_path output_path "pending" 0 "N/A" None None.

Definition set_output_path (v : string) (x : t) : t :=
  mk (task_id x) (input_path x) v (status x) (progress x) (eta x) (error x)
     (process x).
Definition set_status (v : string) (x : t) : t :=
  mk (task_id x) (input_path x) (output_path x) v (progress x) (eta x) (error x)
     (process x).
Definition set_progress (v : float) (x : t) : t :=
  mk (task_id x) (input_path x) (output_path x) (status x) v (eta x) (error x)
     (process x).
Definition set_error (v : option string) (x : t) : t :=
  mk (task_id x) (input_path x) (output_path x) (status x) (progress x) (eta x) v
     (process x).
Definition set_process (v : option Sys.process) (x : t) : t :=
  mk (task_id x) (input_path x) (output_path x) (status x) (progress x) (eta x)
     (error x) v.
End ConvertTask.

(** The module-level state: [manager], [compression_tasks] and
    [convert_tasks]. *)
Record globals := {
  manager : Downloader.DownloadManager;
  compression_tasks : gmap string CompressionTask.t;
  convert_tasks : gmap string ConvertTask.t;
}.

Definition set_manager (v : Downloader.DownloadManager) (g : globals) : globals :=
  {| manager := v; compression_tasks := compression_tasks g;
     convert_tasks := convert_tasks g |}.
Definition set_compression_tasks (v : gmap string CompressionTask.t) (g : globals)
  : globals :=
  {| manager := manager g; compression_tasks := v; convert_tasks := convert_tasks g |}.
Definition set_convert_tasks (v : gmap string ConvertTask.t) (g : globals) : globals :=
  {| manager := manager g; compression_tasks := compression_tasks g;
     convert_tasks := v |}.

(** A method call on [manager]. *)
Definition on_manager {A} (m : M Downloader.DownloadManager A) : M globals A :=
  fun g => let '(r, m', t) := m (manager g) in (r, set_manager m' g, t).

(** [task.f = v] on the task object stored at [task_id]; nothing when
    the lookup found no task. *)
Definition assign_compression (task_id : string)
    (f : CompressionTask.t -> CompressionTask.t) : M globals unit :=
  modify (fun g => set_compression_tasks (alter f task_id (compression_tasks g)) g).

Definition assign_convert (task_id : string)
    (f : ConvertTask.t -> ConvertTask.t) : M globals unit :=
  modify (fun g => set_convert_tasks (alter f task_id (convert_tasks g)) g).

(** The sentinel that the cancellation endpoints leave in [error]. *)
Definition cancelled : string := "Cancelled by user".

(** ["\n".join(last_error_lines[-5:]) or fallback] *)
Definition stderr_tail (last_error_lines : list string) (fallback : string) : string :=
  let tail := Py.join Py.newline (Py.last_n 5 last_error_lines) in
  if String.eqb tail "" then fallback else tail.

(** [key, value = parts]: exactly two parts, or [ValueError]. *)
Definition unpack2 {S} (parts : list string) : M S (string * string) :=
  match parts with
  | [key; value] => mret (key, value)
  | _ => raise Py.ValueError
  end.

(** The seconds of the [time=H:M:S] token of a log line. *)
Definition time_token_seconds {S} (line : string) : M S float :=
  match List.nth_error (Py.split "time=" line) 1 with
  | None => raise Py.IndexError
  | Some rest =>
      match Py.split_ws rest with
      | [] => raise Py.IndexError
      | time_part :: _ =>
          match Py.split ":" time_part with
          | [h; m; s] =>
              fs ← lift (Py.float s);
              im ← lift (Py.int m);
              fm ← lift (Py.float_of_int (im * 60));
              ih ← lift (Py.int h);
              fh ← lift (Py.float_of_int (ih * 3600));
              mret (fs + fm + fh)%float
          | _ => raise Py.ValueError
          end
      end
  end.

(** [try: raw_value = float(value) except ValueError: return]: the
    continuation runs on the value, a [ValueError] ends the call. *)
Definition float_or_return {S} (value : string)
    (k : float -> M S unit) : M S unit :=
  match Py.float value with
  | inr raw_value => k raw_value
  | inl Py.ValueError => mret tt
  | inl e => raise e
  end.

(** [_get_duration_ms]; [probe] is the standard output of [ffprobe],
    or [None] when the binary was not found or the run failed. *)
Definition _get_duration_ms (probe : option string) : option Z :=
  match probe with
  | None => None
  | Some stdout =>
      match Py.float (Py.strip stdout) with
      | inr duration =>
          match Py.int_of_float (duration * 1000) with
          | inr n => Some n
          | inl _ => None
          end
      | inl _ => None
      end
  end.

(** *** The output-path builders *)

Section OutputPath.
(** [os.path.exists] and [int(time.time())] at the time of the call. *)
Variable exists_ : string -> bool.
Variable now : Z.

Definition build (suffix input_path output_dir output_format : string) : string :=
  let base := fst (PosixPath.splitext (PosixPath.basename input_path)) in
  let safe_base := base +:+ suffix in
  let ext := Py.lower output_format in
  let output_path := PosixPath.join output_dir (safe_base +:+ "." +:+ ext) in
  if negb (exists_ output_path) then output_path
  else
    let candidate (index : Z) :=
      PosixPath.join output_dir
        (safe_base +:+ "-" +:+ Py.str_int index +:+ "." +:+ ext) in
    match List.find (fun index => negb (exists_ (candidate index)))
            (PosixPath.range 2 50) with
    | Some index => candidate index
    | None =>
        PosixPath.join output_dir
          (safe_base +:+ "-" +:+ Py.str_int now +:+ "." +:+ ext)
    end.

Definition _build_output_path : string -> string -> string -> string :=
  build "-compressed".

Definition _build_convert_output_path : string -> string -> string -> string :=
  build "-converted".
End OutputPath.

(** *** [_run_compression] *)

Module RunCompression.

(** The variables that the nested functions share with the runner:
    the [nonlocal]s of [handle_line] and the retained stderr lines. *)
Record cells := {
  out_time_ms : float;
  last_progress : float;
  log_count : Z;
  last_error_lines : list string;
}.

Definition initial : cells :=
  {| out_time_ms := 0; last_progress := 0; log_count := 0; last_error_lines := [] |}.

Definition set_out_time_ms (v : float) (c : cells) : cells :=
  {| out_time_ms := v; last_progress := last_progress c;
     log_count := log_count c; last_error_lines := last_error_lines c |}.
Definition set_last_progress (v : float) (c : cells) : cells :=
  {| out_time_ms := out_time_ms c; last_progress := v;
     log_count := log_count c; last_error_lines := last_error_lines c |}.
Definition set_log_count (v : Z) (c : cells) : cells :=
  {| out_time_ms := out_time_ms c; last_progress := last_progress c;
     log_count := v; last_error_lines := last_error_lines c |}.
Definition set_last_error_lines (v : list string) (c : cells) : cells :=
  {| out_time_ms := out_time_ms c; last_progress := last_progress c;
     log_count := log_count c; last_error_lines := v |}.

Section Closure.
Variable task_id : string.
(** The result of [_get_duration_ms(input_path)]. *)
Variable duration_ms : option Z.

(** [if duration_ms] *)
Definition duration_known : option Z :=
  match duration_ms with
  | Some d => if d =? 0 then None else Some d
  | None => None
  end.

(** [min(100.0, (out_time_ms / duration_ms) * 100)] when the
    duration is known, [min(99.0, last_progress + step)] otherwise. *)
Definition next_progress (step : float) : M (cells * globals) float :=
  c ← get_fst;
  match duration_known with
  | Some d =>
      fd ← lift (Py.float_of_int d);
      mret (Py.min 100 ((out_time_ms c / fd) * 100))%float
  | None => mret (Py.min 99 (last_progress c + step))%float
  end.

(** The write under the lock, then [last_progress = progress]. *)
Definition store_progress (progress : float) : M (cells * globals) unit :=
  on_snd (with_lock compression_lock
            (assign_compression task_id (CompressionTask.set_progress progress)));;
  modify_fst (set_last_progress progress).

Definition logged_keys : list string :=
  ["out_time_ms"; "out_time_us"; "out_time"; "progress"; "total_size"].

(** The first statement of [handle_line]: the [time=] token of a log
    line, under [try ... except Exception: pass]. *)
Definition time_token_update (line : string) : M (cells * globals) unit :=
  if Py.contains "time=" line then
    try_except
      (seconds ← time_token_seconds line;
       modify_fst (set_out_time_ms (seconds * 1000)%float);;
       progress ← next_progress f0_2;
       store_progress progress)
      (fun _ => mret tt)
  else mret tt.

(** The rest of [handle_line]: the [key=value] lines of the progress
    stream. *)
Definition key_value_update (line : string) : M (cells * globals) unit :=
  if negb (Py.contains "=" line) then
    c ← get_fst;
    if log_count c <? 40 then modify_fst (set_log_count (log_count c + 1))
    else mret tt
  else
    kv ← unpack2 (Py.split1 "=" (Py.strip line));
    let key := fst kv in
    let value := snd kv in
    c ← get_fst;
    (if (log_count c <? 20) && existsb (String.eqb key) logged_keys
     then modify_fst (set_log_count (log_count c + 1)) else mret tt);;
    if String.eqb key "out_time_ms" then
      float_or_return value (fun raw_value =>
        modify_fst (set_out_time_ms
          (match duration_known with
           | Some d =>
               if Py.float_gt_int raw_value (d * 10)
               then (raw_value / 1000)%float else raw_value
           | None => raw_value
           end));;
        progress ← next_progress f0_2;
        store_progress progress)
    else if String.eqb key "out_time_us" then
      float_or_return value (fun raw_value =>
        modify_fst (set_out_time_ms (raw_value / 1000)%float);;
        progress ← next_progress f0_2;
        store_progress progress)
    else if String.eqb key "out_time" then
      match Py.split ":" value with
      | [p0; p1; p2] =>
          float_or_return p2 (fun seconds_part =>
          float_or_return p1 (fun minutes_part =>
          float_or_return p0 (fun hours_part =>
            modify_fst (set_out_time_ms
              ((hours_part * 3600 + minutes_part * 60 + seconds_part) * 1000)%float);;
            progress ← next_progress f0_2;
            store_progress progress)))
      | _ => mret tt
      end
    else if String.eqb key "progress" && String.eqb value "continue" then
      match duration_known with
      | Some _ => mret tt
      | None =>
          c ← get_fst;
          store_progress (Py.min 99 (last_progress c + f0_3))%float
      end
    else mret tt.

Definition handle_line (line : string) : M (cells * globals) unit :=
  time_token_update line;; key_value_update line.

(** One line of a pipe, as its reader thread treats it:
    [read_stream] hands the decoded line over, [read_err] strips
    it and retains it first. *)
Definition read_line (from_stderr : bool) (raw : string) : M (cells * globals) unit :=
  if from_stderr then
    let line := Py.strip raw in
    modify_fst (fun c => set_last_error_lines (last_error_lines c ++ [line]) c);;
    handle_line line
  else handle_line raw.

(** The two reader threads over the lines in the order they are
    handled.  An exception that escapes [handle_line] ends the
    thread that read the line: the later lines of that pipe are
    not read. *)
Fixpoint read_streams (lines : list (bool * string)) (out_alive err_alive : bool)
  : M (cells * globals) unit :=
  match lines with
  | [] => mret tt
  | (from_stderr, raw) :: rest =>
      if (if from_stderr then err_alive else out_alive) then
        alive ← try_except (read_line from_stderr raw;; mret true)
                           (fun _ => mret false);
        if alive : bool then read_streams rest out_alive err_alive
        else if from_stderr then read_streams rest out_alive false
        else read_streams rest false err_alive
      else read_streams rest out_alive err_alive
  end.

(** The block that closes the runner, after [process.wait()]. *)
Definition terminal_write (returncode : Z) : M (cells * globals) unit :=
  c ← get_fst;
  on_snd (with_lock compression_lock (
    g ← get;
    match compression_tasks g !! task_id with
    | None => mret tt
    | Some task =>
        if decide (CompressionTask.error task = Some cancelled) then mret tt
        else if returncode =? 0 then
          assign_compression task_id (CompressionTask.set_status COMPLETED);;
          assign_compression task_id (CompressionTask.set_progress 100)
        else
          assign_compression task_id (CompressionTask.set_status ERROR);;
          assign_compression task_id
            (CompressionTask.set_error
               (Some (stderr_tail (last_error_lines c)
                        "Error al comprimir el video.")))
    end)).
End Closure.

(** What the runner finds outside the interpreter. *)
Record env := {
  ffmpeg : option string;           (* the two [_find_binary] lookups *)
  _expand_path : string -> string;
  makedirs : Py.exn + unit;         (* [os.makedirs(output_dir, exist_ok=True)] *)
  exists_ : string -> bool;         (* [os.path.exists] *)
  now : Z;                          (* [int(time.time())] *)
  ffprobe : option string;          (* what [ffprobe] prints for [input_path] *)
  popen : Py.exn + Sys.process;     (* [subprocess.Popen(command, ...)] *)
  lines : list (bool * string);     (* is-stderr flag and decoded line *)
  returncode : Z;                   (* [process.returncode] *)
}.

(** The critical section of [_run_compression] that stores the output
    path and moves the task to COMPRESSING, before the process is
    spawned. *)
Definition mark_compressing (task_id output_path : string) : M globals unit :=
  with_lock compression_lock (
    assign_compression task_id (CompressionTask.set_output_path output_path);;
    assign_compression task_id (CompressionTask.set_status COMPRESSING)).

(** [_run_compression]; the command line, which no registry write
    depends on, is left out, and the lines of the two pipes are
    handled in the order [lines e] gives, before [process.wait()]
    returns. *)
Definition _run_compression (e : env)
    (task_id input_path output_dir output_format preset : string) : M globals unit :=
  match ffmpeg e with
  | None =>
      with_lock compression_lock (
        assign_compression task_id (CompressionTask.set_status ERROR);;
        assign_compression task_id
          (CompressionTask.set_error
             (Some "ffmpeg no encontrado. Instala ffmpeg o configura FFMPEG_PATH.")))
  | Some _ =>
      let input_path := _expand_path e input_path in
      let output_dir := _expand_path e output_dir in
      lift (makedirs e);;
      let output_path :=
        _build_output_path (exists_ e) (now e) input_path output_dir output_format in
      _ ← with_lock compression_lock (
            g ← get;
            mret (match compression_tasks g !! task_id with
                  | Some task => CompressionTask.use_gpu task
                  | None => false
                  end));
      mark_compressing task_id output_path;;
      process ← lift (popen e);
      emit (Popen process);;
      with_lock compression_lock (
        assign_compression task_id (CompressionTask.set_process (Some process)));;
      with_cells initial (
        read_streams task_id (_get_duration_ms (ffprobe e)) (lines e) true true;;
        emit (wait process None);;
        emit join_readers;;
        terminal_write task_id (returncode e))
  end.

(** The readers are daemon threads, and the runner joins each of them
    for 0.2 s only: a reader that has not reached the end of its pipe
    by then handles its remaining lines after the terminal block, with
    the closure variables as they are.  [_run_compression] in such a
    run: [lines e] are the lines handled before the terminal block and
    [late] those that readers still running handle after it. *)
Definition run_with_late_lines (e : env)
    (task_id input_path output_dir output_format preset : string)
    (late : list (bool * string)) : M globals unit :=
  match ffmpeg e with
  | None =>
      with_lock compression_lock (
        assign_compression task_id (CompressionTask.set_status ERROR);;
        assign_compression task_id
          (CompressionTask.set_error
             (Some "ffmpeg no encontrado. Instala ffmpeg o configura FFMPEG_PATH.")))
  | Some _ =>
      let input_path := _expand_path e input_path in
      let output_dir := _expand_path e output_dir in
      lift (makedirs e);;
      let output_path :=
        _build_output_path (exists_ e) (now e) input_path output_dir output_format in
      _ ← with_lock compression_lock (
            g ← get;
            mret (match compression_tasks g !! task_id with
                  | Some task => CompressionTask.use_gpu task
                  | None => false
                  end));
      mark_compressing task_id output_path;;
      process ← lift (popen e);
      emit (Popen process);;
      with_lock compression_lock (
        assign_compression task_id (CompressionTask.set_process (Some process)));;
      with_cells initial (
        (read_streams task_id (_get_duration_ms (ffprobe e)) (lines e) true true;;
         emit (wait process None);;
         emit join_readers;;
         terminal_write task_id (returncode e));;
        read_streams task_id (_get_duration_ms (ffprobe e)) late true true)
  end.

End RunCompression.

(** *** [_run_convert] *)

Module RunConvert.

Record cells := {
  out_time_ms : float;
  last_progress : float;
  last_error_lines : list string;
}.

Definition initial : cells :=
  {| out_time_ms := 0; last_progress := 0; last_error_lines := [] |}.

Definition set_out_time_ms (v : float) (c : cells) : cells :=
  {| out_time_ms := v; last_progress := last_progress c;
     last_error_lines := last_error_lines c |}.
Definition set_last_progress (v : float) (c : cells) : cells :=
  {| out_time_ms := out_time_ms c; last_progress := v;
     last_error_lines := last_error_lines c |}.
Definition set_last_error_lines (v : list string) (c : cells) : cells :=
  {| out_time_ms := out_time_ms c; last_progress := last_progress c;
     last_error_lines := v |}.

Section Closure.
Variable task_id : string.
Variable duration_ms : option Z.

Definition duration_known : option Z :=
  match duration_ms with
  | Some d => if d =? 0 then None else Some d
  | None => None
  end.

Definition next_progress : M (cells * globals) float :=
  c ← get_fst;
  match duration_known with
  | Some d =>
      fd ← lift (Py.float_of_int d);
      mret (Py.min 100 ((out_time_ms c / fd) * 100))%float
  | None => mret (Py.min 99 (last_progress c + f0_2))%float
  end.

Definition store_progress (progress : float) : M (cells * globals) unit :=
  on_snd (with_lock convert_lock
            (assign_convert task_id (ConvertTask.set_progress progress)));;
  modify_fst (set_last_progress progress).

Definition time_token_update (line : string) : M (cells * globals) unit :=
  if Py.contains "time=" line then
    try_except
      (seconds ← time_token_seconds line;
       modify_fst (set_out_time_ms (seconds * 1000)%float);;
       progress ← next_progress;
       store_progress progress)
      (fun _ => mret tt)
  else mret tt.

Definition key_value_update (line : string) : M (cells * globals) unit :=
  if negb (Py.contains "=" line) then mret tt
  else
    kv ← unpack2 (Py.split1 "=" (Py.strip line));
    let key := fst kv in
    let value := snd kv in
    let update :=
      if existsb (String.eqb key) ["out_time_ms"; "out_time_us"; "out_time"] then
        progress ← next_progress;
        store_progress progress
      else mret tt in
    if String.eqb key "out_time_ms" then
      float_or_return value (fun raw_value =>
        modify_fst (set_out_time_ms
          (match duration_known with
           | Some d =>
               if Py.float_gt_int raw_value (d * 10)
               then (raw_value / 1000)%float else raw_value
           | None => raw_value
           end));;
        update)
    else if String.eqb key "out_time_us" then
      float_or_return value (fun raw_value =>
        modify_fst (set_out_time_ms (raw_value / 1000)%float);;
        update)
    else update.

Definition handle_line (line : string) : M (cells * globals) unit :=
  time_token_update line;; key_value_update line.

Definition read_line (from_stderr : bool) (raw : string) : M (cells * globals) unit :=
  if from_stderr then
    let line := Py.strip raw in
    modify_fst (fun c => set_last_error_lines (last_error_lines c ++ [line]) c);;
    handle_line line
  else handle_line raw.

Fixpoint read_streams (lines : list (bool * string)) (out_alive err_alive : bool)
  : M (cells * globals) unit :=
  match lines with
  | [] => mret tt
  | (from_stderr, raw) :: rest =>
      if (if from_stderr then err_alive else out_alive) then
        alive ← try_except (read_line from_stderr raw;; mret true)
                           (fun _ => mret false);
        if alive : bool then read_streams rest out_alive err_alive
        else if from_stderr then read_streams rest out_alive false
        else read_streams rest false err_alive
      else read_streams rest out_alive err_alive
  end.

(** The block that closes the runner, after [process.wait()]. *)
Definition terminal_write (returncode : Z) : M (cells * globals) unit :=
  c ← get_fst;
  on_snd (with_lock convert_lock (
    g ← get;
    match convert_tasks g !! task_id with
    | None => mret tt
    | Some task =>
        if decide (ConvertTask.error task = Some cancelled) then mret tt
        else if returncode =? 0 then
          assign_convert task_id (ConvertTask.set_status "completed");;
          assign_convert task_id (ConvertTask.set_progress 100)
        else
          assign_convert task_id (ConvertTask.set_status "error");;
          assign_convert task_id
            (ConvertTask.set_error
               (Some (stderr_tail (last_error_lines c) "Error al convertir.")))
    end)).
End Closure.

(** [_run_convert], under the conventions of [_run_compression]. *)
Definition _run_convert (e : RunCompression.env)
    (task_id input_path output_dir output_format media_type quality : string)
  : M globals unit :=
  match RunCompression.ffmpeg e with
  | None =>
      with_lock convert_lock (
        assign_convert task_id (ConvertTask.set_status "error");;
        assign_convert task_id (ConvertTask.set_error (Some "ffmpeg no encontrado.")))
  | Some _ =>
      let input_path := RunCompression._expand_path e input_path in
      let output_dir := RunCompression._expand_path e output_dir in
      lift (RunCompression.makedirs e);;
      let output_path :=
        _build_convert_output_path (RunCompression.exists_ e) (RunCompression.now e)
          input_path output_dir output_format in
      with_lock convert_lock (
        assign_convert task_id (ConvertTask.set_output_path output_path);;
        assign_convert task_id (ConvertTask.set_status "processing"));;
      process ← lift (RunCompression.popen e);
      emit (Popen process);;
      with_lock convert_lock (
        assign_convert task_id (ConvertTask.set_process (Some process)));;
      with_cells initial (
        read_streams task_id (_get_duration_ms (RunCompression.ffprobe e))
          (RunCompression.lines e) true true;;
        emit (wait process None);;
        emit join_readers;;
        terminal_write task_id (RunCompression.returncode e))
  end.

(** [_run_convert] in a run in which readers that outlive their join
    handle the lines [late] after the terminal block. *)
Definition run_with_late_lines (e : RunCompression.env)
    (task_id input_path output_dir output_format media_type quality : string)
    (late : list (bool * string)) : M globals unit :=
  match RunCompression.ffmpeg e with
  | None =>
      with_lock convert_lock (
        assign_convert task_id (ConvertTask.set_status "error");;
        assign_convert task_id (ConvertTask.set_error (Some "ffmpeg no encontrado.")))
  | Some _ =>
      let input_path := RunCompression._expand_path e input_path in
      let output_dir := RunCompression._expand_path e output_dir in
      lift (RunCompression.makedirs e);;
      let output_path :=
        _build_convert_output_path (RunCompression.exists_ e) (RunCompression.now e)
          input_path output_dir output_format in
      with_lock convert_lock (
        assign_convert task_id (ConvertTask.set_output_path output_path);;
        assign_convert task_id (ConvertTask.set_status "processing"));;
      process ← lift (RunCompression.popen e);
      emit (Popen process);;
      with_lock convert_lock (
        assign_convert task_id (ConvertTask.set_process (Some process)));;
      with_cells initial (
        (read_streams task_id (_get_duration_ms (RunCompression.ffprobe e))
           (RunCompression.lines e) true true;;
         emit (wait process None);;
         emit join_readers;;
         terminal_write task_id (RunCompression.returncode e));;
        read_streams task_id (_get_duration_ms (RunCompression.ffprobe e)) late true true)
  end.

End RunConvert.

(** *** The endpoints *)

(** The body of a response: [task_id], [status] and, for the
    submissions, [message]. *)
Record reply := {
  reply_task_id : string;
  reply_status : string;
  reply_message : option string;
}.


(** [terminate], [wait(timeout=5)] and, when the wait expires, [kill]. *)
Definition stop_process {S} (process : option Sys.process) (wait_expires : bool)
  : M S unit :=
  match process with
  | Some p =>
      emit (terminate p);;
      emit (wait p (Some 5));;
      if wait_expires then emit (kill p) else mret tt
  | None => mret tt
  end.

(** [DELETE /compress/cancel/{task_id}]; [wait_expires] tells whether
    the process outlives the five seconds. *)
Definition cancel_compression (wait_expires : bool) (task_id : string) : M globals reply :=
  with_lock compression_lock (
    g ← get;
    match compression_tasks g !! task_id with
    | None => raise (Py.HTTPException 404 "Task not found")
    | Some task =>
        if negb (CompressionStatus_eqb (CompressionTask.status task) COMPRESSING)
        then raise (Py.HTTPException 400 "Cannot cancel this task")
        else
          stop_process (CompressionTask.process task) wait_expires;;
          assign_compression task_id (CompressionTask.set_status ERROR);;
          assign_compression task_id (CompressionTask.set_error (Some cancelled))
    end);;
  mret {| reply_task_id := task_id; reply_status := "cancelled"; reply_message := None |}.

(** [DELETE /convert/cancel/{task_id}] *)
Definition cancel_convert (wait_expires : bool) (task_id : string) : M globals reply :=
  with_lock convert_lock (
    g ← get;
    match convert_tasks g !! task_id with
    | None => raise (Py.HTTPException 404 "Task not found")
    | Some task =>
        if negb (String.eqb (ConvertTask.status task) "processing")
        then raise (Py.HTTPException 400 "Cannot cancel this task")
        else
          stop_process (ConvertTask.process task) wait_expires;;
          assign_convert task_id (ConvertTask.set_status "error");;
          assign_convert task_id (ConvertTask.set_error (Some cancelled))
    end);;
  mret {| reply_task_id := task_id; reply_status := "cancelled"; reply_message := None |}.

Record CompressionRequest := {
  input_path : string;
  output_path : option string;
  output_format : option string;
  preset : option string;
  use_gpu : option bool;
}.

Section Submission.
(** [_expand_path], [os.path.isfile] and the eight characters that
    [str(uuid.uuid4())[:8]] yields for this request. *)
Variable _expand_path : string -> string.
Variable isfile : string -> bool.
Variable task_id : string.

(** The first critical section of [start_compression]: the scan. *)
Definition admission_scan : M globals unit :=
  with_lock compression_lock (
    g ← get;
    if existsb
         (fun kv => CompressionStatus_eqb (CompressionTask.status (snd kv)) COMPRESSING)
         (map_to_list (compression_tasks g))
    then raise (Py.HTTPException 409 "Ya hay una compresion en curso")
    else mret tt).

(** The second critical section: the new record. *)
Definition admission_create (input_path : string) (use_gpu : bool) : M globals unit :=
  with_lock compression_lock (
    modify (fun g =>
      set_compression_tasks
        (<[task_id := CompressionTask.new task_id input_path "" use_gpu]>
           (compression_tasks g)) g)).

(** [POST /compress] *)
Definition start_compression (request : CompressionRequest) : M globals reply :=
  let input_path := _expand_path (input_path request) in
  if negb (isfile input_path)
  then raise (Py.HTTPException 400 "Archivo de entrada no encontrado")
  else
    admission_scan;;
    admission_create input_path (default false (use_gpu request));;
    emit (run_in_executor task_id);;
    mret {| reply_task_id := task_id; reply_status := "started";
            reply_message :=
              Some "Compression initiated. Track with /compress/status/{task_id}" |}.

(** [POST /convert] *)
Definition start_convert (input_path : string) : M globals reply :=
  let input_path := _expand_path input_path in
  if negb (isfile input_path)
  then raise (Py.HTTPException 400 "Archivo de entrada no encontrado")
  else
    with_lock convert_lock (
      modify (fun g =>
        set_convert_tasks
          (<[task_id := ConvertTask.new task_id input_path ""]> (convert_tasks g)) g));;
    emit (run_in_executor task_id);;
    mret {| reply_task_id := task_id; reply_status := "started";
            reply_message :=
              Some "Conversion initiated. Track with /convert/status/{task_id}" |}.
End Submission.

(** *** The event streams *)

(** The [data] dictionary of one event; [speed], [filename] and
    [title] are those of a download, [output_path] that of a
    transcoding task. *)
Record snapshot := {
  snap_task_id : string;
  snap_status : string;
  snap_progress : float;
  snap_speed : option string;
  snap_eta : string;
  snap_filename : option string;
  snap_title : option string;
  snap_output_path : option string;
  snap_error : option string;
}.

Section EventGenerator.
Context {T : Type}.
(** The lookup at the head of the loop. *)
Variable poll : globals -> option T.
(** The dictionary that is yielded. *)
Variable data : T -> snapshot.
(** [task.status in [...]], read on the task object when the
    generator is resumed after the [yield]. *)
Variable finished : globals -> T -> bool.

(** One turn of the loop per tick.  A tick gives the state of the
    module when the loop polls and builds [data], and the state when
    the consumer resumes the generator after the [yield]; between
    two ticks lies [asyncio.sleep(0.5)].  The result lists the
    events yielded, in order. *)
Fixpoint event_generator (ticks : list (globals * globals)) : list snapshot :=
  match ticks with
  | [] => []
  | (at_poll, at_resume) :: later =>
      match poll at_poll with
      | None => []
      | Some task =>
          data task ::
          (if finished at_resume task then [] else event_generator later)
      end
  end.

(** The endpoint: [404] when the task is not there at the request. *)
Definition events (at_request : globals) (ticks : list (globals * globals))
  : Py.exn + list snapshot :=
  match poll at_request with
  | None => inl (Py.HTTPException 404 "Task not found")
  | Some _ => inr (event_generator ticks)
  end.
End EventGenerator.

(** The task object is the one stored at its identifier: its status
    on resumption is the status stored there, or the one it had when
    polled if the identifier has left the registry. *)
Definition download_finished (task_id : string) (g : globals)
    (task : Downloader.DownloadTask.t) : bool :=
  let status :=
    match Downloader.tasks (manager g) !! task_id with
    | Some live => Downloader.DownloadTask.status live
    | None => Downloader.DownloadTask.status task
    end in
  Downloader.DownloadStatus_eqb status Downloader.COMPLETED
  || Downloader.DownloadStatus_eqb status Downloader.ERROR.

Definition download_data (task : Downloader.DownloadTask.t) : snapshot :=
  {| snap_task_id := Downloader.DownloadTask.task_id task;
     snap_status := Downloader.value (Downloader.DownloadTask.status task);
     snap_progress := Downloader.DownloadTask.progress task;
     snap_speed := Some (Downloader.DownloadTask.speed task);
     snap_eta := Downloader.DownloadTask.eta task;
     snap_filename := Some (Downloader.DownloadTask.filename task);
     snap_title := Some (Downloader.DownloadTask.title task);
     snap_output_path := None;
     snap_error := Downloader.DownloadTask.error task |}.

(** [GET /events/{task_id}] *)
Definition task_events (task_id : string) :=
  events (fun g => Downloader.tasks (manager g) !! task_id)
         download_data (download_finished task_id).

Definition compression_finished (task_id : string) (g : globals)
    (task : CompressionTask.t) : bool :=
  let status :=
    match compression_tasks g !! task_id with
    | Some live => CompressionTask.status live
    | None => CompressionTask.status task
    end in
  CompressionStatus_eqb status COMPLETED || CompressionStatus_eqb status ERROR.

Definition compression_data (task : CompressionTask.t) : snapshot :=
  {| snap_task_id := CompressionTask.task_id task;
     snap_status := value (CompressionTask.status task);
     snap_progress := CompressionTask.progress task;
     snap_speed := None;
     snap_eta := CompressionTask.eta task;
     snap_filename := None;
     snap_title := None;
     snap_output_path := Some (CompressionTask.output_path task);
     snap_error := CompressionTask.error task |}.

(** [GET /compress/events/{task_id}] *)
Definition compression_events (task_id : string) :=
  events (fun g => compression_tasks g !! task_id)
         compression_data (compression_finished task_id).

Definition convert_finished (task_id : string) (g : globals) (task : ConvertTask.t)
  : bool :=
  let status :=
    match convert_tasks g !! task_id with
    | Some live => ConvertTask.status live
    | None => ConvertTask.status task
    end in
  String.eqb status "completed" || String.eqb status "error".

Definition convert_data (task : ConvertTask.t) : snapshot :=
  {| snap_task_id := ConvertTask.task_id task;
     snap_status := ConvertTask.status task;
     snap_progress := ConvertTask.progress task;
     snap_speed := None;
     snap_eta := ConvertTask.eta task;
     snap_filename := None;
     snap_title := None;
     snap_output_path := Some (ConvertTask.output_path task);
     snap_error := ConvertTask.error task |}.

(** [GET /convert/events/{task_id}] *)
Definition convert_events (task_id : string) :=
  events (fun g => convert_tasks g !! task_id) convert_data (convert_finished task_id).

(** *** The hardware encoders *)

(** The dictionary [compression_encoders]. *)
Record encoders := {
  available : bool;
  best : option string;
  all : list string;
}.

(** Its value when the module is loaded. *)
Definition compression_encoders : encoders :=
  {| available := false; best := None; all := [] |}.

(** The encoders looked for, in order of preference. *)
Definition encoder_names : list string := ["h264_nvenc"; "h264_qsv"; "h264_amf"].

(** [_detect_encoders], on the dictionary it updates.  [ffmpeg] is the
    result of the two [_find_binary] lookups and [run] the standard
    output of [ffmpeg -encoders], [None] when the run raised. *)
Definition _detect_encoders (ffmpeg run : option string) (current : encoders)
  : encoders :=
  match ffmpeg with
  | None => current
  | Some _ =>
      match run with
      | None => current
      | Some output =>
          let available :=
            List.filter (fun encoder => Py.contains encoder output) encoder_names in
          let best :=
            List.find (fun encoder => existsb (String.eqb encoder) available)
              encoder_names in
          {| available := match available with [] => false | _ => true end;
             best := best;
             all := available |}
      end
  end.

(** [GET /compress/encoders]: the dictionary after the call, which is
    also the response. *)
Definition get_compression_encoders (ffmpeg run : option string) (current : encoders)
  : encoders :=
  match all current with
  | [] => _detect_encoders ffmpeg run current
  | _ => current
  end.

(** *** The status endpoints *)

Record TaskStatusResponse := {
  ts_task_id : string;
  ts_status : string;
  ts_progress : float;
  ts_speed : string;
  ts_eta : string;
  ts_filename : string;
  ts_title : string;
  ts_thumbnail : string;
  ts_error : option string;
}.

(** The fields of [CompressionStatusResponse] and of
    [ConvertStatusResponse]. *)
Record StatusResponse := {
  st_task_id : string;
  st_status : string;
  st_progress : float;
  st_eta : string;
  st_output_path : string;
  st_error : option string;
}.

(** [GET /status/{task_id}] *)
Definition get_task_status (task_id : string) : M globals TaskStatusResponse :=
  task ← on_manager (Downloader.get_task task_id);
  match task with
  | None => raise (Py.HTTPException 404 "Task not found")
  | Some task =>
      mret {| ts_task_id := Downloader.DownloadTask.task_id task;
              ts_status := Downloader.value (Downloader.DownloadTask.status task);
              ts_progress := Downloader.DownloadTask.progress task;
              ts_speed := Downloader.DownloadTask.speed task;
              ts_eta := Downloader.DownloadTask.eta task;
              ts_filename := Downloader.DownloadTask.filename task;
              ts_title := Downloader.DownloadTask.title task;
              ts_thumbnail := Downloader.DownloadTask.thumbnail task;
              ts_error := Downloader.DownloadTask.error task |}
  end.

(** [GET /compress/status/{task_id}] *)
Definition get_compression_status (task_id : string) : M globals StatusResponse :=
  task ← with_lock compression_lock (g ← get; mret (compression_tasks g !! task_id));
  match task with
  | None => raise (Py.HTTPException 404 "Task not found")
  | Some task =>
      mret {| st_task_id := CompressionTask.task_id task;
              st_status := value (CompressionTask.status task);
              st_progress := CompressionTask.progress task;
              st_eta := CompressionTask.eta task;
              st_output_path := CompressionTask.output_path task;
              st_error := CompressionTask.error task |}
  end.

(** [GET /convert/status/{task_id}] *)
Definition get_convert_status (task_id : string) : M globals StatusResponse :=
  task ← with_lock convert_lock (g ← get; mret (convert_tasks g !! task_id));
  match task with
  | None => raise (Py.HTTPException 404 "Task not found")
  | Some task =>
      mret {| st_task_id := ConvertTask.task_id task;
              st_status := ConvertTask.status task;
              st_progress := ConvertTask.progress task;
              st_eta := ConvertTask.eta task;
              st_output_path := ConvertTask.output_path task;
              st_error := ConvertTask.error task |}
  end.

(** *** Locating a binary *)

(** What [_find_binary] reads of the host: the environment, the file
    system, the directory of a frozen build, the working directory,
    the directories of this module and of the interpreter, and the
    search path. *)
Record host := {
  environ : string -> option string;
  isfile : string -> bool;
  _MEIPASS : option string;
  getcwd : string;
  module_dir : string;
  executable_dir : string;
  which : string -> option string;
}.

(** The candidate paths, in the order they are tried. *)
Definition candidates (h : host) (binary_name : string) : list string :=
  match _MEIPASS h with
  | Some base_dir =>
      if String.eqb base_dir "" then [] else [PosixPath.join base_dir binary_name]
  | None => []
  end
  ++ [PosixPath.join (getcwd h) binary_name;
      PosixPath.join (module_dir h) binary_name;
      PosixPath.join (executable_dir h) binary_name;
      PosixPath.join (PosixPath.join (executable_dir h) "ffmpeg") binary_name;
      PosixPath.join (PosixPath.join (PosixPath.join (executable_dir h) "..") "ffmpeg")
        binary_name].

(** [_find_binary], the function of [main.py] and the method of the
    same text in [downloader.py]. *)
Definition _find_binary (h : host) (binary_name env_key : string) : option string :=
  let env_path := environ h env_key in
  if match env_path with
     | Some path => negb (String.eqb path "") && isfile h path
     | None => false
     end
  then env_path
  else
    match List.find (isfile h) (candidates h binary_name) with
    | Some path => Some path
    | None => which h binary_name
    end.

(** [_find_binary("ffmpeg.exe", "FFMPEG_PATH") or
    _find_binary("ffmpeg", "FFMPEG_PATH")] *)
Definition find_ffmpeg (h : host) : option string :=
  match _find_binary h "ffmpeg.exe" "FFMPEG_PATH" with
  | Some path =>
      if String.eqb path "" then _find_binary h "ffmpeg" "FFMPEG_PATH" else Some path
  | None => _find_binary h "ffmpeg" "FFMPEG_PATH"
  end.

End Main.

(** ** Vocabulary of the statements *)

(** The states in which [cancel_task] accepts a download. *)
Definition cancellable (s : Downloader.DownloadStatus) : bool :=
  Downloader.DownloadStatus_eqb s Downloader.PENDING
  || Downloader.DownloadStatus_eqb s Downloader.DOWNLOADING.

(** Sample registries for the concrete runs. *)
Definition no_downloads : Downloader.DownloadManager :=
  {| Downloader.tasks := ∅; Downloader._callbacks := ∅ |}.

Definition download_task (status : Downloader.DownloadStatus) (progress : float)
    (error : option string) : Downloader.DownloadTask.t :=
  Downloader.DownloadTask.mk "d0wn10ad" "https://example.org/v" status progress
    "0 B/s" "N/A" "" error 0 0 "" "".

Definition one_download (task : Downloader.DownloadTask.t) : Main.globals :=
  {| Main.manager := {| Downloader.tasks := {[ "d0wn10ad" := task ]};
                        Downloader._callbacks := ∅ |};
     Main.compression_tasks := ∅;
     Main.convert_tasks := ∅ |}.

Definition compress_task (status : Main.CompressionStatus) (error : option string)
    (process : option Sys.process) : Main.CompressionTask.t :=
  Main.CompressionTask.mk "c0ffee01" "/videos/clip.mov" "/videos/clip-compressed.mp4"
    status 0x1.9p+5 "N/A" error process false.

Definition convert_task (status : string) (error : option string)
    (process : option Sys.process) : Main.ConvertTask.t :=
  Main.ConvertTask.mk "c0ffee02" "/videos/clip.mov" "/videos/clip-converted.mkv"
    status 0x1.9p+5 "N/A" error process.

(** A hook dictionary of a download in progress whose total is the
    engine's estimate. *)
Definition estimate_overrun : Downloader.hook_dict :=
  {| Downloader.d_status := Some "downloading";
     Downloader.d_downloaded_bytes := Some 150;
     Downloader.d_total_bytes := None;
     Downloader.d_total_bytes_estimate := Some 100;
     Downloader.d_speed := Some 0x1p+20%float;
     Downloader.d_eta := None;
     Downloader.d_filename := Some "/downloads/v.mp4";
     Downloader.d_error := None |}.

Definition one_compress (task : Main.CompressionTask.t) : Main.globals :=
  {| Main.manager := no_downloads;
     Main.compression_tasks := {[ "c0ffee01" := task ]};
     Main.convert_tasks := ∅ |}.

Definition one_convert (task : Main.ConvertTask.t) : Main.globals :=
  {| Main.manager := no_downloads;
     Main.compression_tasks := ∅;
     Main.convert_tasks := {[ "c0ffee02" := task ]} |}.

(** The output-path convention, for a builder and its suffix: the plain
    name when it is free; otherwise the first free numbered name, the
    numbers running from 2 to 49; the name stamped with the time when
    none of those is free; and, for a request whose plain name was free
    at a first call and is taken at a second one, the plain name and
    then the name numbered 2, which differ. *)
Definition follows_convention
    (builder : (string -> bool) -> Z -> string -> string -> string -> string)
    (suffix : string) : Prop :=
  forall (exists_ : string -> bool) (now : Z) (input_path output_dir output_format : string),
    let base := fst (PosixPath.splitext (PosixPath.basename input_path)) in
    let ext := Py.lower output_format in
    let plain := PosixPath.join output_dir ((base +:+ suffix) +:+ "." +:+ ext) in
    let numbered (i : Z) :=
      PosixPath.join output_dir ((base +:+ suffix) +:+ "-" +:+ Py.str_int i +:+ "." +:+ ext) in
    let path := builder exists_ now input_path output_dir output_format in
    (exists_ plain = false -> path = plain)
    /\ (forall i, exists_ plain = true -> 2 <= i < 50 -> exists_ (numbered i) = false ->
                  (forall j, 2 <= j < i -> exists_ (numbered j) = true) ->
                  path = numbered i)
    /\ (exists_ plain = true -> (forall j, 2 <= j < 50 -> exists_ (numbered j) = true) ->
        path = numbered now)
    /\ (exists_ plain = false ->
        forall (exists_later : string -> bool) (later : Z),
          exists_later plain = true -> exists_later (numbered 2) = false ->
          path = plain
          /\ builder exists_later later input_path output_dir output_format = numbered 2
          /\ numbered 2 <> plain).










(** A duration that converts to a float. *)
Definition in_float_range (duration_ms : option Z) : Prop :=
  forall d, duration_ms = Some d -> exists fd, Py.float_of_int d = inr fd.

(** A computation of a closure whose final module state is related by
    [R] to the one it starts from. *)
Definition keeps {C W A} (R : W -> W -> Prop) (m : Sys.M (C * W) A) : Prop :=
  forall c w, R w (snd (Sys.final (m (c, w)))).

(** An entry of a registry after writes that set at most the progress
    of the task. *)
Definition progress_written {T} (set_progress : float -> T -> T)
    (before after : option T) : Prop :=
  after = before \/ exists p, after = set_progress p <$> before.

(** A computation of a closure that leaves the module state as it is,
    from every state that satisfies [P]; and one that, besides, returns. *)
Definition unchanged {C W A} (P : W -> Prop) (m : Sys.M (C * W) A) : Prop :=
  forall c w, P w -> snd (Sys.final (m (c, w))) = w.

Definition returns_unchanged {C W A} (P : W -> Prop) (m : Sys.M (C * W) A) : Prop :=
  forall c w, P w ->
    snd (Sys.final (m (c, w))) = w /\ exists a, Sys.outcome (m (c, w)) = inr a.

(** A trace that, run while no lock is held, holds no blocking call
    under a lock and leaves no lock held; a computation all of whose
    traces are such; and a computation that emits nothing. *)
Definition transparent (tr : list Sys.event) : Prop :=
  forall rest, Sys.blocks_under_lock [] (tr ++ rest) = Sys.blocks_under_lock [] rest.

Definition lock_free {S A} (m : Sys.M S A) : Prop :=
  forall s, transparent (Sys.effects (m s)).

Definition silent {S A} (m : Sys.M S A) : Prop := forall s, Sys.effects (m s) = [].

(** Whether every character of [s] satisfies [p]. *)
Fixpoint every_char (p : ascii -> bool) (s : string) : bool :=
  match s with
  | EmptyString => true
  | String c s' => p c && every_char p s'
  end.

(** A character that is neither of [invalid_chars] nor a control
    character. *)
Definition filename_char (c : ascii) : bool :=
  negb (Downloader.invalid_chars c) && negb (Downloader.control_chars c).

(** A name [sanitize_filename] has nothing to do on: only filename
    characters, at most 200 of them, no white space at either end. *)
Definition safe_name (s : string) : bool :=
  every_char filename_char s && (String.length s <=? 200)%nat
  && String.eqb (Py.strip s) s.

(** Whether the heights of the entries never increase along the list. *)
Fixpoint descending (l : list Downloader.format_entry) : bool :=
  match l with
  | [] => true
  | x :: l' =>
      forallb (fun y => Downloader.height y <=? Downloader.height x) l'
      && descending l'
  end.

(** [x] is the entry of the first video format of [fs] that has its
    resolution. *)
Definition first_of_resolution (fs : list Downloader.format_dict)
    (x : Downloader.format_entry) : Prop :=
  exists l1 f l2,
    fs = l1 ++ f :: l2 /\
    Downloader.video_height f = Some (Downloader.height x) /\
    x = Downloader.entry_of f (Downloader.height x) /\
    forall g h, In g l1 -> Downloader.video_height g = Some h ->
      Py.str_int h +:+ "p" <> Downloader.resolution x.

(** A computation whose final state is always related by [R] to the
    state it started in, whether it returns or raises. *)
Definition within {S A} (R : S -> S -> Prop) (m : Sys.M S A) : Prop :=
  forall s, R s (Sys.final (m s)).

(** The fields that identify a download. *)
Definition same_identity (t t' : Downloader.DownloadTask.t) : Prop :=
  Downloader.DownloadTask.task_id t' = Downloader.DownloadTask.task_id t /\
  Downloader.DownloadTask.url t' = Downloader.DownloadTask.url t /\
  Downloader.DownloadTask.title t' = Downloader.DownloadTask.title t /\
  Downloader.DownloadTask.thumbnail t' = Downloader.DownloadTask.thumbnail t.

(** What a progress hook for [task_id] leaves of the manager: the
    callbacks, the identifiers in use, every other task, and the
    identity of the task itself. *)
Definition hook_frame (task_id : string) (m m' : Downloader.DownloadManager) : Prop :=
  Downloader._callbacks m' = Downloader._callbacks m /\
  forall k,
    match Downloader.tasks m !! k, Downloader.tasks m' !! k with
    | Some t, Some t' => (k <> task_id -> t' = t) /\ same_identity t t'
    | None, None => True
    | _, _ => False
    end.

(** A download that is cancelled while it runs: the engine reports
    progress through the hook, the user cancels, and the engine then
    returns the title and the thumbnail. *)
Definition cancelled_while_downloading (task_id : string) (d : Downloader.hook_dict)
    (title thumbnail : string) (m : Downloader.DownloadManager)
  : (string + string * string) * Downloader.DownloadManager :=
  let reported := Sys.final (Downloader._progress_hook task_id d m) in
  (inr (title, thumbnail), Sys.final (Downloader.cancel_task task_id reported)).

(** A run of the worker in which the engine returns at once. *)
Definition sample_worker_env : Downloader.worker_env :=
  {| Downloader.output_dir := "/home/u/Downloads/GravityDown";
     Downloader.makedirs := None;
     Downloader.pre_title := Some "A title: part 1/2";
     Downloader.engine := fun m => (inr ("A title", "https://example.org/t.jpg"), m) |}.

(** What the worker leaves on the task, by what it met: the text of
    the exception of [os.makedirs] or of the engine, or the title and
    thumbnail the engine returned. *)
Definition worker_verdict (e : Downloader.worker_env)
    (task_id format_type : string) (output_path output_format : option string)
    (engine_result : string + string * string) (t' : Downloader.DownloadTask.t) : Prop :=
  match Downloader.makedirs e, engine_result with
  | Some message, _ | None, inl message =>
      Downloader.DownloadTask.status t' = Downloader.ERROR /\
      Downloader.DownloadTask.error t' = Some message
  | None, inr (title, thumbnail) =>
      Downloader.DownloadTask.status t' = Downloader.COMPLETED /\
      Downloader.DownloadTask.progress t' = 100%float /\
      Downloader.DownloadTask.title t' = title /\
      Downloader.DownloadTask.thumbnail t' = thumbnail /\
      Downloader.DownloadTask.filename t' =
        PosixPath.join (Downloader.or_else output_path (Downloader.output_dir e))
          (match Downloader.pre_title e with
           | Some title => Downloader.sanitize_filename title
           | None => "download_" +:+ task_id
           end
           +:+ "." +:+
           (if String.eqb format_type "audio"
            then Downloader.or_else output_format "mp3"
            else Downloader.or_else output_format "mp4"))
  end.

(** A progress value that is not above [bound]. *)
Definition at_most (bound p : float) : Prop := PrimFloat.ltb bound p = false.

(** What a write of a bounded progress leaves of an entry: [o'] is
    [o], or [o] with a progress that is not above [bound]. *)
Definition bounded_progress_written {T} (bound : float)
    (set_progress : float -> T -> T) (o o' : option T) : Prop :=
  o' = o \/ exists p, at_most bound p /\ o' = set_progress p <$> o.

(** What the line handler of the compression [task_id] leaves of the
    retained stderr lines and of the module state, when the progress
    values it stores are not above [bound]. *)
Definition compression_line_frame (bound : float) (task_id : string)
    (s s' : Main.RunCompression.cells * Main.globals) : Prop :=
  Main.RunCompression.last_error_lines (fst s') =
    Main.RunCompression.last_error_lines (fst s) /\
  Main.manager (snd s') = Main.manager (snd s) /\
  Main.convert_tasks (snd s') = Main.convert_tasks (snd s) /\
  (forall k, k <> task_id ->
     Main.compression_tasks (snd s') !! k = Main.compression_tasks (snd s) !! k) /\
  bounded_progress_written bound Main.CompressionTask.set_progress
    (Main.compression_tasks (snd s) !! task_id)
    (Main.compression_tasks (snd s') !! task_id).

Definition convert_line_frame (bound : float) (task_id : string)
    (s s' : Main.RunConvert.cells * Main.globals) : Prop :=
  Main.RunConvert.last_error_lines (fst s') =
    Main.RunConvert.last_error_lines (fst s) /\
  Main.manager (snd s') = Main.manager (snd s) /\
  Main.compression_tasks (snd s') = Main.compression_tasks (snd s) /\
  (forall k, k <> task_id ->
     Main.convert_tasks (snd s') !! k = Main.convert_tasks (snd s) !! k) /\
  bounded_progress_written bound Main.ConvertTask.set_progress
    (Main.convert_tasks (snd s) !! task_id)
    (Main.convert_tasks (snd s') !! task_id).

(** A computation that returns from every state. *)
Definition returns {S A} (m : Sys.M S A) : Prop :=
  forall s, exists a, Sys.outcome (m s) = inr a.

(** The lines that [read_err] retains: those of standard error,
    stripped, in the order they are read. *)
Definition stderr_lines (lines : list (bool * string)) : list string :=
  List.map (fun x => Py.strip (snd x)) (List.filter (fun x => fst x) lines).

(** What the reader threads of the compression [task_id] leave: the
    retained lines grow by [extra], and the module state is touched as
    by the line handler. *)
Definition compression_stream_frame (task_id : string) (extra : list string)
    (s s' : Main.RunCompression.cells * Main.globals) : Prop :=
  Main.RunCompression.last_error_lines (fst s') =
    Main.RunCompression.last_error_lines (fst s) ++ extra /\
  Main.manager (snd s') = Main.manager (snd s) /\
  Main.convert_tasks (snd s') = Main.convert_tasks (snd s) /\
  (forall k, k <> task_id ->
     Main.compression_tasks (snd s') !! k = Main.compression_tasks (snd s) !! k) /\
  bounded_progress_written 100 Main.CompressionTask.set_progress
    (Main.compression_tasks (snd s) !! task_id)
    (Main.compression_tasks (snd s') !! task_id).

Definition convert_stream_frame (task_id : string) (extra : list string)
    (s s' : Main.RunConvert.cells * Main.globals) : Prop :=
  Main.RunConvert.last_error_lines (fst s') =
    Main.RunConvert.last_error_lines (fst s) ++ extra /\
  Main.manager (snd s') = Main.manager (snd s) /\
  Main.compression_tasks (snd s') = Main.compression_tasks (snd s) /\
  (forall k, k <> task_id ->
     Main.convert_tasks (snd s') !! k = Main.convert_tasks (snd s) !! k) /\
  bounded_progress_written 100 Main.ConvertTask.set_progress
    (Main.convert_tasks (snd s) !! task_id)
    (Main.convert_tasks (snd s') !! task_id).


(** An output-path builder never hands out a path that exists, except
    in its last resort: when the plain name and the 48 numbered names
    are all taken, it returns the name numbered by the clock, whether
    or not that one exists. *)
Definition never_overwrites
    (builder : (string -> bool) -> Z -> string -> string -> string -> string)
    (suffix : string) : Prop :=
  forall (exists_ : string -> bool) (now : Z) (input_path output_dir output_format : string),
    let base := fst (PosixPath.splitext (PosixPath.basename input_path)) in
    let ext := Py.lower output_format in
    let plain := PosixPath.join output_dir ((base +:+ suffix) +:+ "." +:+ ext) in
    let numbered (i : Z) :=
      PosixPath.join output_dir ((base +:+ suffix) +:+ "-" +:+ Py.str_int i +:+ "." +:+ ext) in
    let path := builder exists_ now input_path output_dir output_format in
    exists_ path = false \/
    (exists_ plain = true /\
     (forall i, 2 <= i < 50 -> exists_ (numbered i) = true) /\
     path = numbered now).

(** An encoder dictionary whose three entries agree: [all] lists
    encoders of [encoder_names] in their order of preference,
    [available] tells whether it is non-empty and [best] is its
    first element. *)
Definition consistent_encoders (d : Main.encoders) : Prop :=
  (Main.available d = true <-> Main.all d <> []) /\
  Main.best d = head (Main.all d) /\
  exists keep, Main.all d = List.filter keep Main.encoder_names.

(** The event that carries what a status response carries. *)
Definition event_of_status (reply : Main.StatusResponse) : Main.snapshot :=
  {| Main.snap_task_id := Main.st_task_id reply;
     Main.snap_status := Main.st_status reply;
     Main.snap_progress := Main.st_progress reply;
     Main.snap_speed := None;
     Main.snap_eta := Main.st_eta reply;
     Main.snap_filename := None;
     Main.snap_title := None;
     Main.snap_output_path := Some (Main.st_output_path reply);
     Main.snap_error := Main.st_error reply |}.

Definition event_of_task_status (reply : Main.TaskStatusResponse) : Main.snapshot :=
  {| Main.snap_task_id := Main.ts_task_id reply;
     Main.snap_status := Main.ts_status reply;
     Main.snap_progress := Main.ts_progress reply;
     Main.snap_speed := Some (Main.ts_speed reply);
     Main.snap_eta := Main.ts_eta reply;
     Main.snap_filename := Some (Main.ts_filename reply);
     Main.snap_title := Some (Main.ts_title reply);
     Main.snap_output_path := None;
     Main.snap_error := Main.ts_error reply |}.

(** What a status endpoint and the event stream of the same kind say
    of one state [g]: both raise 404, or the first event of the stream
    carries the fields of the status response; and the status endpoint
    leaves the state as it is. *)
Definition status_matches_stream {R}
    (status : Sys.M Main.globals R) (event_of : R -> Main.snapshot)
    (endpoint : Main.globals -> list (Main.globals * Main.globals)
                -> Py.exn + list Main.snapshot)
    (g : Main.globals) : Prop :=
  Sys.final (status g) = g /\
  match Sys.outcome (status g) with
  | inr reply =>
      forall resumed later, exists rest,
        endpoint g ((g, resumed) :: later) = inr (event_of reply :: rest)
  | inl e =>
      e = Py.HTTPException 404 "Task not found" /\
      forall ticks, endpoint g ticks = inl e
  end.

(** Sample formats: two of 720 lines, one of 1080, one without video,
    one whose video codec is [None] and one without the key. *)
Definition sample_format (format_id : string) (height : option Z)
    (vcodec : Py.item string) : Downloader.format_dict :=
  {| Downloader.f_format_id := Some format_id;
     Downloader.f_height := height;
     Downloader.f_vcodec := vcodec;
     Downloader.f_acodec := Py.Absent;
     Downloader.f_ext := Some "mp4";
     Downloader.f_filesize := None;
     Downloader.f_filesize_approx := Some 1000 |}.

Definition sample_info : Downloader.info_dict :=
  {| Downloader.i_id := Some "abc";
     Downloader.i_title := Some "A title";
     Downloader.i_thumbnail := None;
     Downloader.i_duration := Some (inl 12);
     Downloader.i_channel := None;
     Downloader.i_uploader := Some "someone";
     Downloader.i_view_count := None;
     Downloader.i_formats :=
       [sample_format "18" (Some 720) (Py.Value "avc1");
        sample_format "140" None (Py.Value "none");
        sample_format "137" (Some 1080) (Py.Value "avc1");
        sample_format "22" (Some 720) (Py.Value "vp9");
        sample_format "135" (Some 480) Py.Null;
        sample_format "139" (Some 360) Py.Absent] |}.

Definition sample_video : Downloader.video_info :=
  {| Downloader.v_id := Some "abc";
     Downloader.v_title := Some "A title";
     Downloader.v_thumbnail := None;
     Downloader.v_duration := Some 12;
     Downloader.v_channel := Some "someone";
     Downloader.v_view_count := None;
     Downloader.v_platform := "youtube";
     Downloader.v_formats :=
       [Downloader.entry_of (sample_format "137" (Some 1080) (Py.Value "avc1")) 1080;
        Downloader.entry_of (sample_format "18" (Some 720) (Py.Value "avc1")) 720;
        Downloader.entry_of (sample_format "135" (Some 480) Py.Null) 480] |}.

(** A progress dictionary of a download half way. *)
Definition sample_progress : Downloader.hook_dict :=
  {| Downloader.d_status := Some "downloading";
     Downloader.d_downloaded_bytes := Some 50;
     Downloader.d_total_bytes := Some 100;
     Downloader.d_total_bytes_estimate := None;
     Downloader.d_speed := None;
     Downloader.d_eta := None;
     Downloader.d_filename := Some "/tmp/a.part";
     Downloader.d_error := None |}.

(** A manager that holds one download just submitted. *)
Definition one_pending_download : Downloader.DownloadManager :=
  {| Downloader.tasks :=
       {[ "d0wn10ad" := Downloader.DownloadTask.new "d0wn10ad" "https://example.org/v" ]};
     Downloader._callbacks := ∅ |}.

(** The sample run when the process cannot be spawned. *)
Definition failing_spawn_env : Main.RunCompression.env :=
  {| Main.RunCompression.ffmpeg := Some "/usr/bin/ffmpeg";
     Main.RunCompression._expand_path := fun p => p;
     Main.RunCompression.makedirs := inr tt;
     Main.RunCompression.exists_ := fun _ => false;
     Main.RunCompression.now := 1700000000;
     Main.RunCompression.ffprobe := Some "10.0";
     Main.RunCompression.popen := inl Py.OSError;
     Main.RunCompression.lines := [];
     Main.RunCompression.returncode := 0 |}.

Definition sample_request : Main.CompressionRequest :=
  {| Main.input_path := "/videos/b.mov"; Main.output_path := None;
     Main.output_format := None; Main.preset := None; Main.use_gpu := None |}.

(** What a cancel endpoint does with the task that [lookup] finds in
    the state [g]: 404 when there is none and 400 when it is not in
    progress, the state staying as it is and the lock [l] being taken
    and released; otherwise it returns, and cancelling once more
    raises 400. *)
Definition cancel_contract {T} (lookup : Main.globals -> option T)
    (in_progress : T -> bool) (l : Sys.lock)
    (cancel : Sys.M Main.globals Main.reply) (g : Main.globals) : Prop :=
  match lookup g with
  | None =>
      cancel g = (inl (Py.HTTPException 404 "Task not found"), g,
                  [Sys.Acquire l; Sys.Release l])
  | Some task =>
      if in_progress task then
        (exists reply, Sys.outcome (cancel g) = inr reply) /\
        cancel (Sys.final (cancel g))
        = (inl (Py.HTTPException 400 "Cannot cancel this task"), Sys.final (cancel g),
           [Sys.Acquire l; Sys.Release l])
      else
        cancel g = (inl (Py.HTTPException 400 "Cannot cancel this task"), g,
                    [Sys.Acquire l; Sys.Release l])
  end.



(** * Properties *)

Import Sys.

(** ** Registry updates *)

Section Alter.
Context {V : Type}.
Implicit Types (m : gmap string V) (f g : V -> V).

Lemma alter_present m k f x : m !! k = Some x -> alter f k m = <[k := f x]> m.
Proof.
  intros Hk. apply map_eq. intros j.
  rewrite lookup_alter, lookup_insert.
  destruct (decide (k = j)) as [->|]; [now rewrite Hk | reflexivity].
Qed.

Lemma alter_absent m k f : m !! k = None -> alter f k m = m.
Proof.
  intros Hk. apply map_eq. intros j.
  rewrite lookup_alter.
  destruct (decide (k = j)) as [->|]; [now rewrite Hk | reflexivity].
Qed.

Lemma alter_twice m k f g x :
  m !! k = Some x -> alter f k (alter g k m) = <[k := f (g x)]> m.
Proof.
  intros Hk. rewrite (alter_present m k g x Hk).
  rewrite (alter_present _ k f (g x)) by apply lookup_insert_eq.
  apply insert_insert_eq.
Qed.
End Alter.

(** ** Cancellation of a download *)


Lemma cancel_task_run (m : Downloader.DownloadManager) (task_id : string) :
  Downloader.cancel_task task_id m =
  match Downloader.tasks m !! task_id with
  | Some task =>
      if cancellable (Downloader.DownloadTask.status task)
      then (inr true,
            Downloader.set_tasks
              (<[task_id := Downloader.DownloadTask.set_error (Some "Cancelled by user")
                              (Downloader.DownloadTask.set_status Downloader.ERROR task)]>
                 (Downloader.tasks m)) m,
            [Acquire manager_lock; Release manager_lock])
      else (inr false, m, [Acquire manager_lock; Release manager_lock])
  | None => (inr false, m, [Acquire manager_lock; Release manager_lock])
  end.
Proof.
  unfold Downloader.cancel_task, cancellable, with_lock, get, mbind, M_bind.
  destruct (Downloader.tasks m !! task_id) as [task|] eqn:Hl; [|reflexivity].
  destruct (_ || _); [|reflexivity].
  cbn. rewrite (alter_twice _ _ _ _ _ Hl). reflexivity.
Qed.


(** ** The terminal write of the runners *)

Lemma compression_terminal_write_run task_id returncode c g :
  Main.RunCompression.terminal_write task_id returncode (c, g) =
  (inr tt,
   (c,
    match Main.compression_tasks g !! task_id with
    | None => g
    | Some task =>
        if decide (Main.CompressionTask.error task = Some Main.cancelled) then g
        else
          Main.set_compression_tasks
            (<[task_id :=
                 if returncode =? 0 then
                   Main.CompressionTask.set_progress 100
                     (Main.CompressionTask.set_status Main.COMPLETED task)
                 else
                   Main.CompressionTask.set_error
                     (Some (Main.stderr_tail (Main.RunCompression.last_error_lines c)
                              "Error al comprimir el video."))
                     (Main.CompressionTask.set_status Main.ERROR task)]>
               (Main.compression_tasks g)) g
    end),
   [Acquire compression_lock; Release compression_lock]).
Proof.
  unfold Main.RunCompression.terminal_write, get_fst, on_snd, with_lock, get, mbind, M_bind.
  cbn [fst snd].
  destruct (Main.compression_tasks g !! task_id) as [task|] eqn:Hl; [|reflexivity].
  destruct (decide _); [reflexivity|].
  destruct (returncode =? 0); cbn; rewrite (alter_twice _ _ _ _ _ Hl); reflexivity.
Qed.

Lemma convert_terminal_write_run task_id returncode c g :
  Main.RunConvert.terminal_write task_id returncode (c, g) =
  (inr tt,
   (c,
    match Main.convert_tasks g !! task_id with
    | None => g
    | Some task =>
        if decide (Main.ConvertTask.error task = Some Main.cancelled) then g
        else
          Main.set_convert_tasks
            (<[task_id :=
                 if returncode =? 0 then
                   Main.ConvertTask.set_progress 100
                     (Main.ConvertTask.set_status "completed" task)
                 else
                   Main.ConvertTask.set_error
                     (Some (Main.stderr_tail (Main.RunConvert.last_error_lines c)
                              "Error al convertir."))
                     (Main.ConvertTask.set_status "error" task)]>
               (Main.convert_tasks g)) g
    end),
   [Acquire convert_lock; Release convert_lock]).
Proof.
  unfold Main.RunConvert.terminal_write, get_fst, on_snd, with_lock, get, mbind, M_bind.
  cbn [fst snd].
  destruct (Main.convert_tasks g !! task_id) as [task|] eqn:Hl; [|reflexivity].
  destruct (decide _); [reflexivity|].
  destruct (returncode =? 0); cbn; rewrite (alter_twice _ _ _ _ _ Hl); reflexivity.
Qed.

(** C3. When the error of a compress or convert task is the sentinel
    "Cancelled by user", the terminal write of its runner returns and
    leaves the whole module state as it found it, whatever the exit
    code: the error and the status of the task stay. *)
Theorem cancelled_survives_terminal_write :
  (forall task_id returncode c g task,
      Main.compression_tasks g !! task_id = Some task ->
      Main.CompressionTask.error task = Some "Cancelled by user" ->
      let r := Main.RunCompression.terminal_write task_id returncode (c, g) in
      outcome r = inr tt /\ snd (final r) = g)
  /\ (forall task_id returncode c g task,
         Main.convert_tasks g !! task_id = Some task ->
         Main.ConvertTask.error task = Some "Cancelled by user" ->
         let r := Main.RunConvert.terminal_write task_id returncode (c, g) in
         outcome r = inr tt /\ snd (final r) = g).
Proof.
  split; intros task_id returncode c g task Hl He r; subst r.
  - rewrite compression_terminal_write_run, Hl. cbn.
    destruct (decide _) as [_|Hn]; [easy | now destruct Hn].
  - rewrite convert_terminal_write_run, Hl. cbn.
    destruct (decide _) as [_|Hn]; [easy | now destruct Hn].
Qed.

Lemma cancelled_survives_terminal_write_witness :
  (forall returncode,
      let g := one_compress (compress_task Main.ERROR (Some "Cancelled by user") (Some 7%nat)) in
      let r := Main.RunCompression.terminal_write "c0ffee01" returncode
                 (Main.RunCompression.initial, g) in
      outcome r = inr tt /\ snd (final r) = g)
  /\ (forall returncode,
         let g := one_convert (convert_task "error" (Some "Cancelled by user") (Some 7%nat)) in
         let r := Main.RunConvert.terminal_write "c0ffee02" returncode
                    (Main.RunConvert.initial, g) in
         outcome r = inr tt /\ snd (final r) = g).
Proof.
  split; intros returncode.
  - apply (proj1 cancelled_survives_terminal_write "c0ffee01" returncode _ _
             (compress_task Main.ERROR (Some "Cancelled by user") (Some 7%nat)));
      reflexivity.
  - apply (proj2 cancelled_survives_terminal_write "c0ffee02" returncode _ _
             (convert_task "error" (Some "Cancelled by user") (Some 7%nat)));
      reflexivity.
Defined.

Lemma stderr_tail_nil fallback : Main.stderr_tail [] fallback = fallback.
Proof. reflexivity. Qed.

(** The terminal block alone, whatever the state it finds: for a
    compress or convert task that does not carry the cancellation
    sentinel, the terminal write returns and stores: on
    exit code 0, status COMPLETED and progress 100.0; on any other exit
    code, status ERROR and as error the last five retained stderr
    lines joined by line feeds, or the default diagnostic when that
    text is empty, which is the case when no line was retained.  In
    both cases a stored status COMPLETED comes with progress 100.0. *)
Lemma terminal_write_outcome :
  (forall task_id returncode c g task,
      Main.compression_tasks g !! task_id = Some task ->
      Main.CompressionTask.error task <> Some "Cancelled by user" ->
      let r := Main.RunCompression.terminal_write task_id returncode (c, g) in
      let lines := Main.RunCompression.last_error_lines c in
      let tail := Py.join Py.newline (Py.last_n 5 lines) in
      outcome r = inr tt
      /\ exists task',
          Main.compression_tasks (snd (final r)) !! task_id = Some task'
          /\ (returncode = 0 ->
              task' = Main.CompressionTask.set_progress 100
                        (Main.CompressionTask.set_status Main.COMPLETED task))
          /\ (returncode <> 0 ->
              task' = Main.CompressionTask.set_error
                        (Some (if String.eqb tail "" then "Error al comprimir el video."
                               else tail))
                        (Main.CompressionTask.set_status Main.ERROR task)
              /\ (lines = [] ->
                  Main.CompressionTask.error task' = Some "Error al comprimir el video."))
          /\ (Main.CompressionTask.status task' = Main.COMPLETED ->
              Main.CompressionTask.progress task' = 100%float))
  /\ (forall task_id returncode c g task,
         Main.convert_tasks g !! task_id = Some task ->
         Main.ConvertTask.error task <> Some "Cancelled by user" ->
         let r := Main.RunConvert.terminal_write task_id returncode (c, g) in
         let lines := Main.RunConvert.last_error_lines c in
         let tail := Py.join Py.newline (Py.last_n 5 lines) in
         outcome r = inr tt
         /\ exists task',
             Main.convert_tasks (snd (final r)) !! task_id = Some task'
             /\ (returncode = 0 ->
                 task' = Main.ConvertTask.set_progress 100
                           (Main.ConvertTask.set_status "completed" task))
             /\ (returncode <> 0 ->
                 task' = Main.ConvertTask.set_error
                           (Some (if String.eqb tail "" then "Error al convertir." else tail))
                           (Main.ConvertTask.set_status "error" task)
                 /\ (lines = [] -> Main.ConvertTask.error task' = Some "Error al convertir."))
             /\ (Main.ConvertTask.status task' = "completed" ->
                 Main.ConvertTask.progress task' = 100%float)).
Proof.
  split; intros task_id returncode c g task Hl He r lines tail; subst r lines tail.
  - rewrite compression_terminal_write_run, Hl.
    destruct (decide _) as [Hs|_]; [now destruct He|].
    split; [reflexivity|]. cbn [final snd fst Main.compression_tasks Main.set_compression_tasks].
    eexists. split; [apply lookup_insert_eq|].
    destruct (Z.eqb_spec returncode 0) as [->|Hrc].
    + split; [reflexivity|]. split; [easy|]. reflexivity.
    + split; [easy|]. split; [|discriminate].
      intros _. split; [reflexivity|]. intros ->. reflexivity.
  - rewrite convert_terminal_write_run, Hl.
    destruct (decide _) as [Hs|_]; [now destruct He|].
    split; [reflexivity|]. cbn [final snd fst Main.convert_tasks Main.set_convert_tasks].
    eexists. split; [apply lookup_insert_eq|].
    destruct (Z.eqb_spec returncode 0) as [->|Hrc].
    + split; [reflexivity|]. split; [easy|]. reflexivity.
    + split; [easy|]. split; [|discriminate].
      intros _. split; [reflexivity|]. intros ->. reflexivity.
Qed.

(** ** The output paths *)

Lemma range_cons a b : a < b -> PosixPath.range a b = a :: PosixPath.range (a + 1) b.
Proof.
  intros Hab. unfold PosixPath.range.
  replace (Z.to_nat (b - a)) with (S (Z.to_nat (b - (a + 1)))) by lia.
  cbn [seq List.map]. rewrite <- seq_shift, List.map_map.
  f_equal; [lia|]. apply List.map_ext. intros k. lia.
Qed.

Lemma range_nil a b : b <= a -> PosixPath.range a b = [].
Proof.
  intros Hab. unfold PosixPath.range. replace (Z.to_nat (b - a)) with 0%nat by lia.
  reflexivity.
Qed.

Lemma find_range_first (f : Z -> bool) (n : nat) : forall a b i,
  Z.to_nat (i - a) = n -> a <= i < b -> f i = true ->
  (forall j, a <= j < i -> f j = false) ->
  List.find f (PosixPath.range a b) = Some i.
Proof.
  induction n as [|n IH]; intros a b i Hn Hi Hfi Hbefore.
  - assert (i = a) as -> by lia.
    rewrite range_cons by lia. cbn. now rewrite Hfi.
  - rewrite range_cons by lia. cbn.
    rewrite (Hbefore a) by lia.
    apply IH; [lia | lia | assumption | intros j Hj; apply Hbefore; lia].
Qed.

Lemma find_range_none (f : Z -> bool) (n : nat) : forall a b,
  Z.to_nat (b - a) = n -> (forall j, a <= j < b -> f j = false) ->
  List.find f (PosixPath.range a b) = None.
Proof.
  induction n as [|n IH]; intros a b Hn Hall.
  - now rewrite range_nil by lia.
  - rewrite range_cons by lia. cbn. rewrite (Hall a) by lia.
    apply IH; [lia | intros j Hj; apply Hall; lia].
Qed.

Lemma build_follows_convention suffix :
  follows_convention (fun exists_ now => Main.build exists_ now suffix) suffix.
Proof.
  intros exists_ now input_path output_dir output_format base ext plain numbered path.
  assert (Hfirst : forall ex t i,
             ex plain = true -> 2 <= i < 50 -> ex (numbered i) = false ->
             (forall j, 2 <= j < i -> ex (numbered j) = true) ->
             Main.build ex t suffix input_path output_dir output_format = numbered i).
  { intros ex t i Hp Hi Hfree Htaken. unfold Main.build.
    fold base ext plain. rewrite Hp. cbn [negb].
    rewrite (find_range_first _ (Z.to_nat (i - 2)) 2 50 i);
      [reflexivity | reflexivity | exact Hi | |].
    - fold (numbered i). now rewrite Hfree.
    - intros j Hj. fold (numbered j). now rewrite (Htaken j Hj). }
  assert (Hplain : exists_ plain = false -> path = plain).
  { intros Hp. subst path. unfold Main.build. fold base ext plain. now rewrite Hp. }
  split; [exact Hplain|].
  split; [intros i; apply Hfirst|].
  split.
  - intros Hp Hall. subst path. unfold Main.build. fold base ext plain.
    rewrite Hp. cbn [negb].
    rewrite (find_range_none _ 48 2 50); [reflexivity | reflexivity |].
    intros j Hj. fold (numbered j). now rewrite (Hall j Hj).
  - intros Hp exists_later later Hl H2.
    split; [now apply Hplain|].
    split; [apply Hfirst; try easy; intros j Hj; lia|].
    intros Heq. rewrite Heq in H2. congruence.
Qed.

(** C7. [_build_output_path] and [_build_convert_output_path] follow
    the output-path convention with the suffixes "-compressed" and
    "-converted": base name, suffix and lowercased extension when that
    path is free; otherwise the first free candidate numbered 2 to 49;
    beyond that bound the path stamped with the time; and a request
    whose plain path has come to exist between two calls gets the
    plain path and then the path numbered 2, two distinct paths. *)
Theorem output_path_convention :
  follows_convention Main._build_output_path "-compressed"
  /\ follows_convention Main._build_convert_output_path "-converted".
Proof.
  split; [apply (build_follows_convention "-compressed")
         | apply (build_follows_convention "-converted")].
Qed.

Lemma output_path_convention_witness :
  let nothing (p : string) := false in
  let then_ (p : string) := String.eqb p "/videos/clip-compressed.mp4" in
  Main._build_output_path nothing 1700000000 "/home/u/clip.final.MOV" "/videos" "MP4"
    = "/videos/clip.final-compressed.mp4"
  /\ Main._build_output_path nothing 1700000000 "/home/u/clip.mov" "/videos" "MP4"
     = "/videos/clip-compressed.mp4"
  /\ Main._build_output_path then_ 1700000060 "/home/u/clip.mov" "/videos" "MP4"
     = "/videos/clip-compressed-2.mp4"
  /\ Main._build_convert_output_path (fun _ => true) 1700000060 "clip.mov" "" "mkv"
     = "clip-converted-1700000060.mkv".
Proof.
  intros nothing then_.
  split; [exact (proj1 (proj1 output_path_convention nothing 1700000000
                          "/home/u/clip.final.MOV" "/videos" "MP4") eq_refl)|].
  destruct (proj2 (proj2 (proj2 (proj1 output_path_convention nothing 1700000000
                                   "/home/u/clip.mov" "/videos" "MP4")))
              eq_refl then_ 1700000060 eq_refl eq_refl) as (H1 & H2 & _).
  split; [exact H1|]. split; [exact H2|].
  apply (proj1 (proj2 (proj2 (proj2 output_path_convention (fun _ => true) 1700000060
                                "clip.mov" "" "mkv")))); reflexivity.
Defined.

(** ** The event streams *)

Section Streams.
Context {T : Type}.
Variable poll : Main.globals -> option T.
Variable data : T -> Main.snapshot.
Variable finished : Main.globals -> T -> bool.



End Streams.








(** The status that ends a stream is read on the task object after the
    [yield]: a write that lands between the two reads ends the stream
    on an event that still shows the earlier status. *)
Example event_stream_ends_on_earlier_snapshot :
  let pending := download_task Downloader.PENDING 0 None in
  let downloading := download_task Downloader.DOWNLOADING 0x1.9p+5 None in
  let completed := download_task Downloader.COMPLETED 100 None in
  Main.task_events "d0wn10ad" (one_download pending)
    [(one_download pending, one_download pending);
     (one_download downloading, one_download completed);
     (one_download completed, one_download completed)]
  = inr [Main.download_data pending; Main.download_data downloading].
Proof. reflexivity. Qed.

(** ** Strings: the [=] sign survives [strip] and splits a line in two *)

Lemma prefix_empty s : String.prefix "" s = true.
Proof. now destruct s. Qed.

Lemma contains_char_cons c d s :
  Py.contains (String c "") (String d s) = Ascii.eqb d c || Py.contains (String c "") s.
Proof.
  cbn. destruct (ascii_dec c d) as [->|Hn].
  - now rewrite prefix_empty, Ascii.eqb_refl.
  - destruct (Ascii.eqb_spec d c) as [->|_]; [now destruct Hn | reflexivity].
Qed.

Lemma contains_char_nil c : Py.contains (String c "") "" = false.
Proof. reflexivity. Qed.

Lemma contains_eq_lstrip s : Py.contains "=" (Py.lstrip s) = Py.contains "=" s.
Proof.
  induction s as [|d s IH]; [reflexivity|].
  cbn [Py.lstrip]. destruct (Py.is_space d) eqn:Hd; [|reflexivity].
  rewrite IH, contains_char_cons.
  destruct (Ascii.eqb_spec d "="%char) as [->|_]; [discriminate Hd | reflexivity].
Qed.

Lemma contains_eq_rstrip s : Py.contains "=" (Py.rstrip s) = Py.contains "=" s.
Proof.
  induction s as [|d s IH]; [reflexivity|].
  cbn [Py.rstrip]. rewrite contains_char_cons, <- IH.
  destruct (Py.rstrip s) as [|e r] eqn:Hr.
  - destruct (Py.is_space d) eqn:Hd.
    + destruct (Ascii.eqb_spec d "="%char) as [->|_]; [discriminate Hd | reflexivity].
    + now rewrite contains_char_cons.
  - now rewrite (contains_char_cons _ d).
Qed.

Lemma contains_eq_strip s : Py.contains "=" (Py.strip s) = Py.contains "=" s.
Proof. unfold Py.strip. now rewrite contains_eq_rstrip, contains_eq_lstrip. Qed.

Lemma split1_go_two c s : forall cur,
  Py.contains (String c "") s = true ->
  exists key value, Py.split1_go c s cur = [key; value].
Proof.
  induction s as [|d s IH]; intros cur; [discriminate|].
  rewrite contains_char_cons. cbn [Py.split1_go].
  destruct (Ascii.eqb d c); [eauto | apply IH].
Qed.


Lemma split_eq_two line :
  Py.contains "=" line = true ->
  exists key value, Py.split1 "=" (Py.strip line) = [key; value].
Proof. intros H. apply split1_go_two. now rewrite contains_eq_strip. Qed.


(** ** Computations that keep a relation between the module states *)

Section Keeps.
Context {C W : Type} (R : W -> W -> Prop).
Hypothesis R_refl : forall w, R w w.
Hypothesis R_trans : forall w1 w2 w3, R w1 w2 -> R w2 w3 -> R w1 w3.

Lemma keeps_ret {A} (a : A) : keeps R (mret a : M (C * W) A).
Proof. intros c w. apply R_refl. Qed.

Lemma keeps_lift {A} (r : Py.exn + A) : keeps R (lift r : M (C * W) A).
Proof. intros c w. apply R_refl. Qed.

Lemma keeps_raise {A} (e : Py.exn) : keeps R (raise e : M (C * W) A).
Proof. intros c w. apply R_refl. Qed.

Lemma keeps_get_fst : keeps R (get_fst : M (C * W) C).
Proof. intros c w. apply R_refl. Qed.

Lemma keeps_modify_fst (f : C -> C) : keeps R (modify_fst f : M (C * W) unit).
Proof. intros c w. apply R_refl. Qed.

Lemma keeps_bind {A B} (m : M (C * W) A) (k : A -> M (C * W) B) :
  keeps R m -> (forall a, keeps R (k a)) -> keeps R (m ≫= k).
Proof.
  intros Hm Hk c w. specialize (Hm c w). unfold mbind, M_bind.
  destruct (m (c, w)) as [[[e|a] [c' w']] t]; cbn in Hm; [exact Hm|].
  specialize (Hk a c' w'). destruct (k a (c', w')) as [[r' [c'' w'']] t'].
  cbn in *. eauto.
Qed.

Lemma keeps_try {A} (m : M (C * W) A) (h : Py.exn -> M (C * W) A) :
  keeps R m -> (forall e, keeps R (h e)) -> keeps R (try_except m h).
Proof.
  intros Hm Hh c w. specialize (Hm c w). unfold try_except.
  destruct (m (c, w)) as [[[e|a] [c' w']] t]; cbn in Hm; [|exact Hm].
  specialize (Hh e c' w'). destruct (h e (c', w')) as [[r' [c'' w'']] t'].
  cbn in *. eauto.
Qed.
End Keeps.

Ltac keeps_split :=
  match goal with
  | |- keeps _ (if ?b then _ else _) => destruct b eqn:?
  | |- keeps _ (match ?x with _ => _ end) => destruct x eqn:?
  end.

(** [keeps_step refl trans] takes one step through a computation, for
    a relation with the proofs [refl] and [trans] of its two laws. *)
Ltac keeps_step refl trans :=
  first
    [ apply (keeps_ret _ refl) | apply (keeps_lift _ refl) | apply (keeps_raise _ refl)
    | apply (keeps_get_fst _ refl) | apply (keeps_modify_fst _ refl)
    | apply (keeps_bind _ trans) | apply (keeps_try _ trans)
    | progress intros | keeps_split ].





(** ** The line handlers on the time keys of the progress stream *)


Section CompressionLines.
Variable task_id : string.
Variable duration_ms : option Z.

(** The [time=] statement writes at most the progress of the task. *)
Let R (g g' : Main.globals) : Prop :=
  progress_written Main.CompressionTask.set_progress
    (Main.compression_tasks g !! task_id) (Main.compression_tasks g' !! task_id).








End CompressionLines.

Section ConvertLines.
Variable task_id : string.
Variable duration_ms : option Z.

Let R (g g' : Main.globals) : Prop :=
  progress_written Main.ConvertTask.set_progress
    (Main.convert_tasks g !! task_id) (Main.convert_tasks g' !! task_id).








End ConvertLines.









(** ** Progress signals for a task that is not in the registry *)

Section Frame.
Context {C W : Type} (P : W -> Prop).

Lemma ru_unchanged {A} (m : M (C * W) A) : returns_unchanged P m -> unchanged P m.
Proof. intros H c w Hw. exact (proj1 (H c w Hw)). Qed.

Lemma ru_ret {A} (a : A) : returns_unchanged P (mret a : M (C * W) A).
Proof. intros c w _. cbn. eauto. Qed.

Lemma ru_bind {A B} (m : M (C * W) A) (k : A -> M (C * W) B) :
  returns_unchanged P m -> (forall a, returns_unchanged P (k a)) ->
  returns_unchanged P (m ≫= k).
Proof.
  intros Hm Hk c w Hw. destruct (Hm c w Hw) as [Hs [a Ha]].
  unfold mbind, M_bind. destruct (m (c, w)) as [[r [c' w']] t].
  cbn in Hs, Ha. subst r w'.
  destruct (Hk a c' w Hw) as [Hs' [b Hb]].
  destruct (k a (c', w)) as [[r' [c'' w'']] t']. cbn in *. eauto.
Qed.

Lemma un_bind {A B} (m : M (C * W) A) (k : A -> M (C * W) B) :
  unchanged P m -> (forall a, unchanged P (k a)) -> unchanged P (m ≫= k).
Proof.
  intros Hm Hk c w Hw. specialize (Hm c w Hw).
  unfold mbind, M_bind. destruct (m (c, w)) as [[[e|a] [c' w']] t]; cbn in Hm; subst w'.
  - reflexivity.
  - specialize (Hk a c' w Hw). destruct (k a (c', w)) as [[r' [c'' w'']] t']. exact Hk.
Qed.

Lemma ru_try {A} (m : M (C * W) A) (h : Py.exn -> M (C * W) A) :
  unchanged P m -> (forall e, returns_unchanged P (h e)) ->
  returns_unchanged P (try_except m h).
Proof.
  intros Hm Hh c w Hw. specialize (Hm c w Hw). unfold try_except.
  destruct (m (c, w)) as [[[e|a] [c' w']] t]; cbn in Hm; subst w'.
  - destruct (Hh e c' w Hw) as [Hs [a Ha]].
    destruct (h e (c', w)) as [[r' [c'' w'']] t']. cbn in *. eauto.
  - cbn. eauto.
Qed.

Lemma un_try {A} (m : M (C * W) A) (h : Py.exn -> M (C * W) A) :
  unchanged P m -> (forall e, unchanged P (h e)) -> unchanged P (try_except m h).
Proof.
  intros Hm Hh c w Hw. specialize (Hm c w Hw). unfold try_except.
  destruct (m (c, w)) as [[[e|a] [c' w']] t]; cbn in Hm; subst w'.
  - specialize (Hh e c' w Hw). destruct (h e (c', w)) as [[r' [c'' w'']] t']. exact Hh.
  - reflexivity.
Qed.

Lemma un_lift {A} (r : Py.exn + A) : unchanged P (lift r : M (C * W) A).
Proof. intros c w _. reflexivity. Qed.

Lemma un_raise {A} (e : Py.exn) : unchanged P (raise e : M (C * W) A).
Proof. intros c w _. reflexivity. Qed.

Lemma ru_lift {A} (a : A) : returns_unchanged P (lift (inr a) : M (C * W) A).
Proof. intros c w _. cbn. eauto. Qed.

Lemma ru_get_fst : returns_unchanged P (get_fst : M (C * W) C).
Proof. intros c w _. cbn. eauto. Qed.

Lemma ru_modify_fst (f : C -> C) : returns_unchanged P (modify_fst f : M (C * W) unit).
Proof. intros c w _. cbn. eauto. Qed.
End Frame.

Lemma float_raises s e : Py.float s = inl e -> e = Py.ValueError.
Proof.
  unfold Py.float. destruct (Py.sign (Py.skip_blanks s)) as [neg body].
  repeat match goal with
         | |- context [if ?b then _ else _] => destruct b
         | |- context [match ?x with _ => _ end] => destruct x
         end; congruence.
Qed.

(** [float] skips the blanks only: a string that starts with the
    file separator, which [strip] would remove, is not a number. *)
Example float_keeps_separators :
  Py.float (String (ascii_of_nat 28) "500000") = inl Py.ValueError
  /\ Py.float (String (ascii_of_nat 160) " 5 ") = inr 5%float.
Proof. split; reflexivity. Qed.

Ltac frame_split :=
  match goal with
  | |- returns_unchanged _ (if ?b then _ else _) => destruct b eqn:?
  | |- unchanged _ (if ?b then _ else _) => destruct b eqn:?
  | |- returns_unchanged _ (match ?x with _ => _ end) => destruct x eqn:?
  | |- unchanged _ (match ?x with _ => _ end) => destruct x eqn:?
  end.

Ltac frame_step :=
  first
    [ apply ru_ret | apply ru_get_fst | apply ru_modify_fst | apply ru_lift
    | apply un_lift | apply un_raise
    | apply ru_unchanged; first [apply ru_ret | apply ru_get_fst | apply ru_modify_fst]
    | apply ru_bind | apply un_bind | apply ru_try | apply un_try
    | progress intros | frame_split ].

(** A value that [float] rejects ends the call: the only exception
    that [float] raises on a string is [ValueError]. *)
Ltac frame_float :=
  match goal with
  | |- returns_unchanged _ (match Py.float ?v with _ => _ end) =>
      let H := fresh "Hf" in
      destruct (Py.float v) as [?e|?raw] eqn:H; [rewrite (float_raises _ _ H)|]
  end.

Lemma un_time_token_seconds {C W} (P : W -> Prop) line :
  unchanged P (Main.time_token_seconds line : M (C * W) float).
Proof. unfold Main.time_token_seconds. repeat frame_step. Qed.

Section CompressionFrame.
Variable task_id : string.
Variable duration_ms : option Z.
Let P (g : Main.globals) : Prop := Main.compression_tasks g !! task_id = None.

Lemma ru_compression_store progress :
  returns_unchanged P (Main.RunCompression.store_progress task_id progress).
Proof.
  intros c g Hg. unfold Main.RunCompression.store_progress, Main.assign_compression.
  unfold mbind, M_bind, on_snd, with_lock, modify, modify_fst. cbn [fst snd outcome final].
  rewrite (alter_absent _ _ _ Hg). destruct g; cbn; eauto.
Qed.

Lemma un_compression_next step :
  unchanged P (Main.RunCompression.next_progress duration_ms step).
Proof. unfold Main.RunCompression.next_progress. repeat frame_step. Qed.

Lemma compression_duration_known_some d :
  Main.RunCompression.duration_known duration_ms = Some d -> duration_ms = Some d.
Proof.
  unfold Main.RunCompression.duration_known.
  destruct duration_ms as [z|]; [|discriminate]. destruct (z =? 0); congruence.
Qed.

Lemma ru_compression_next step :
  in_float_range duration_ms ->
  returns_unchanged P (Main.RunCompression.next_progress duration_ms step).
Proof.
  intros Hr. unfold Main.RunCompression.next_progress.
  apply ru_bind; [apply ru_get_fst|]. intros c.
  destruct (Main.RunCompression.duration_known duration_ms) as [d|] eqn:Hd; [|apply ru_ret].
  destruct (Hr d (compression_duration_known_some d Hd)) as [fd ->].
  apply ru_bind; [apply ru_lift | intros; apply ru_ret].
Qed.

Lemma un_compression_time_token line :
  unchanged P
    (try_except
       (seconds ← Main.time_token_seconds line;
        modify_fst (Main.RunCompression.set_out_time_ms (seconds * 1000)%float);;
        progress ← Main.RunCompression.next_progress duration_ms Main.f0_2;
        Main.RunCompression.store_progress task_id progress)
       (fun _ => mret tt)).
Proof.
  apply un_try; [|intros; apply ru_unchanged, ru_ret].
  apply un_bind; [apply un_time_token_seconds|]. intros seconds.
  apply un_bind; [apply ru_unchanged, ru_modify_fst|]. intros _.
  apply un_bind; [apply un_compression_next|]. intros progress.
  apply ru_unchanged, ru_compression_store.
Qed.

Lemma un_compression_handle_line line :
  unchanged P (Main.RunCompression.handle_line task_id duration_ms line).
Proof.
  unfold Main.RunCompression.handle_line, Main.RunCompression.time_token_update,
    Main.RunCompression.key_value_update.
  apply un_bind.
  - destruct (Py.contains "time=" line); [|apply ru_unchanged, ru_ret].
    apply un_compression_time_token.
  - intros _. destruct (negb (Py.contains "=" line)).
    + repeat frame_step.
    + unfold Main.unpack2, Main.float_or_return.
      repeat first [ apply ru_unchanged, ru_compression_store
                   | apply un_compression_next | frame_step ].
Qed.

Lemma ru_compression_handle_line line :
  in_float_range duration_ms ->
  returns_unchanged P (Main.RunCompression.handle_line task_id duration_ms line).
Proof.
  intros Hr.
  unfold Main.RunCompression.handle_line, Main.RunCompression.time_token_update,
    Main.RunCompression.key_value_update.
  apply ru_bind.
  - destruct (Py.contains "time=" line); [|apply ru_ret].
    apply ru_try; [|intros; apply ru_ret].
    apply un_bind; [apply un_time_token_seconds|]. intros seconds.
    apply un_bind; [apply ru_unchanged, ru_modify_fst|]. intros _.
    apply un_bind; [apply un_compression_next|]. intros progress.
    apply ru_unchanged, ru_compression_store.
  - intros _. destruct (Py.contains "=" line) eqn:He; cbn [negb].
    + destruct (split_eq_two line He) as (key & value & ->).
      unfold Main.unpack2, Main.float_or_return.
      repeat first [ apply ru_compression_store | apply (ru_compression_next _ Hr)
                   | frame_float | frame_step ].
    + repeat frame_step.
Qed.
End CompressionFrame.

Section ConvertFrame.
Variable task_id : string.
Variable duration_ms : option Z.
Let P (g : Main.globals) : Prop := Main.convert_tasks g !! task_id = None.

Lemma ru_convert_store progress :
  returns_unchanged P (Main.RunConvert.store_progress task_id progress).
Proof.
  intros c g Hg. unfold Main.RunConvert.store_progress, Main.assign_convert.
  unfold mbind, M_bind, on_snd, with_lock, modify, modify_fst. cbn [fst snd outcome final].
  rewrite (alter_absent _ _ _ Hg). destruct g; cbn; eauto.
Qed.

Lemma un_convert_next : unchanged P (Main.RunConvert.next_progress duration_ms).
Proof. unfold Main.RunConvert.next_progress. repeat frame_step. Qed.

Lemma convert_duration_known_some d :
  Main.RunConvert.duration_known duration_ms = Some d -> duration_ms = Some d.
Proof.
  unfold Main.RunConvert.duration_known.
  destruct duration_ms as [z|]; [|discriminate]. destruct (z =? 0); congruence.
Qed.

Lemma ru_convert_next :
  in_float_range duration_ms ->
  returns_unchanged P (Main.RunConvert.next_progress duration_ms).
Proof.
  intros Hr. unfold Main.RunConvert.next_progress.
  apply ru_bind; [apply ru_get_fst|]. intros c.
  destruct (Main.RunConvert.duration_known duration_ms) as [d|] eqn:Hd; [|apply ru_ret].
  destruct (Hr d (convert_duration_known_some d Hd)) as [fd ->].
  apply ru_bind; [apply ru_lift | intros; apply ru_ret].
Qed.

Lemma un_convert_handle_line line :
  unchanged P (Main.RunConvert.handle_line task_id duration_ms line).
Proof.
  unfold Main.RunConvert.handle_line, Main.RunConvert.time_token_update,
    Main.RunConvert.key_value_update.
  apply un_bind.
  - destruct (Py.contains "time=" line); [|apply ru_unchanged, ru_ret].
    apply un_try; [|intros; apply ru_unchanged, ru_ret].
    apply un_bind; [apply un_time_token_seconds|]. intros seconds.
    apply un_bind; [apply ru_unchanged, ru_modify_fst|]. intros _.
    apply un_bind; [apply un_convert_next|]. intros progress.
    apply ru_unchanged, ru_convert_store.
  - intros _. destruct (negb (Py.contains "=" line)).
    + repeat frame_step.
    + unfold Main.unpack2, Main.float_or_return.
      repeat first [ apply ru_unchanged, ru_convert_store
                   | apply un_convert_next | frame_step ].
Qed.

Lemma ru_convert_handle_line line :
  in_float_range duration_ms ->
  returns_unchanged P (Main.RunConvert.handle_line task_id duration_ms line).
Proof.
  intros Hr.
  unfold Main.RunConvert.handle_line, Main.RunConvert.time_token_update,
    Main.RunConvert.key_value_update.
  apply ru_bind.
  - destruct (Py.contains "time=" line); [|apply ru_ret].
    apply ru_try; [|intros; apply ru_ret].
    apply un_bind; [apply un_time_token_seconds|]. intros seconds.
    apply un_bind; [apply ru_unchanged, ru_modify_fst|]. intros _.
    apply un_bind; [apply un_convert_next|]. intros progress.
    apply ru_unchanged, ru_convert_store.
  - intros _. destruct (Py.contains "=" line) eqn:He; cbn [negb].
    + destruct (split_eq_two line He) as (key & value & ->).
      unfold Main.unpack2, Main.float_or_return.
      repeat first [ apply ru_convert_store | apply (ru_convert_next Hr)
                   | frame_float | frame_step ].
    + repeat frame_step.
Qed.
End ConvertFrame.

Lemma progress_hook_unknown task_id d m :
  Downloader.tasks m !! task_id = None ->
  Downloader._progress_hook task_id d m
  = (inr tt, m, [Acquire manager_lock; Release manager_lock]).
Proof.
  intros Hl. unfold Downloader._progress_hook, with_lock, get, mbind, M_bind.
  rewrite Hl. reflexivity.
Qed.

Lemma digits2_pos_bound m : Zpos m < 2 ^ Zpos (digits2_pos m).
Proof.
  induction m as [m IH|m IH|]; cbn [digits2_pos]; [| |reflexivity];
    rewrite Pos2Z.inj_succ, Z.pow_succ_r by lia; lia.
Qed.

(** The integer part of a float is below the limit of [float_of_int]:
    a finite float has at most 53 digits and an exponent of at most 971. *)
Lemma int_of_float_bound f z : Py.int_of_float f = inr z -> Z.abs z < Py.float_limit.
Proof.
  unfold Py.int_of_float. pose proof (Prim2SF_valid f) as Hv.
  destruct (Prim2SF f) as [s|s| |s m e]; try discriminate.
  - intros [= <-]. reflexivity.
  - intros [= <-]. cbn in Hv. unfold bounded, canonical_mantissa, fexp in Hv.
    apply andb_prop in Hv. destruct Hv as [Hc He].
    apply Z.eqb_eq in Hc. apply Z.leb_le in He.
    pose proof (digits2_pos_bound m) as Hm.
    set (d := Z.pos (digits2_pos m)) in *.
    assert (Hd : d <= 53) by (unfold prec, emax in *; lia).
    assert (Hm53 : Zpos m < 2 ^ 53).
    { eapply Z.lt_le_trans; [exact Hm|]. apply Z.pow_le_mono_r; lia. }
    assert (Ha : 0 <= (if 0 <=? e then Z.pos m * 2 ^ e else Z.pos m / 2 ^ (- e))
                 < Py.float_limit).
    { destruct (Z.leb_spec 0 e) as [He0|He0].
      - assert (2 ^ e <= 2 ^ 971)
          by (apply Z.pow_le_mono_r; unfold prec, emax in *; lia).
        assert (0 < 2 ^ e) by (apply Z.pow_pos_nonneg; lia).
        unfold Py.float_limit.
        replace (2 ^ 1024) with (2 ^ 53 * 2 ^ 971)
          by (rewrite <- Z.pow_add_r by lia; reflexivity).
        assert (0 < 2 ^ 970) by (apply Z.pow_pos_nonneg; lia).
        assert (2 ^ 971 = 2 * 2 ^ 970) by (rewrite <- Z.pow_succ_r by lia; reflexivity).
        nia.
      - assert (0 < 2 ^ (- e)) by (apply Z.pow_pos_nonneg; lia).
        split; [apply Z.div_pos; lia|].
        eapply Z.le_lt_trans;
          [apply Z.div_le_upper_bound with (q := Z.pos m); [lia | nia]|].
        eapply Z.lt_trans; [exact Hm53|]. reflexivity. }
    destruct s; lia.
Qed.

(** Whatever [ffprobe] prints, the duration that the runners obtain
    converts back to a float. *)
Lemma get_duration_in_float_range probe : in_float_range (Main._get_duration_ms probe).
Proof.
  intros d. unfold Main._get_duration_ms.
  destruct probe as [stdout|]; [|discriminate].
  destruct (Py.float (Py.strip stdout)) as [|duration]; [discriminate|].
  destruct (Py.int_of_float (duration * 1000)) as [|n] eqn:Hn; [discriminate|].
  intros [= <-]. apply int_of_float_bound in Hn.
  unfold Py.float_of_int. destruct (Z.leb_spec Py.float_limit (Z.abs n)); [lia | eauto].
Qed.

(** C10. A progress signal for an identifier that is not in the
    registry changes nothing: the download hook returns with the
    manager as it was; and the line handlers of the two runners leave
    the module state as it was, on every line and for every duration,
    and return when the duration is one that [_get_duration_ms]
    computes, as the duration of the runners is. *)
Theorem unknown_task_progress_is_noop :
  (forall task_id d m,
      Downloader.tasks m !! task_id = None ->
      let r := Downloader._progress_hook task_id d m in
      outcome r = inr tt /\ final r = m)
  /\ (forall task_id duration_ms line c g,
         Main.compression_tasks g !! task_id = None ->
         let r := Main.RunCompression.handle_line task_id duration_ms line (c, g) in
         snd (final r) = g
         /\ (forall probe, duration_ms = Main._get_duration_ms probe -> outcome r = inr tt))
  /\ (forall task_id duration_ms line c g,
         Main.convert_tasks g !! task_id = None ->
         let r := Main.RunConvert.handle_line task_id duration_ms line (c, g) in
         snd (final r) = g
         /\ (forall probe, duration_ms = Main._get_duration_ms probe -> outcome r = inr tt)).
Proof.
  split; [|split].
  - intros task_id d m Hl r. subst r. now rewrite (progress_hook_unknown _ _ _ Hl).
  - intros task_id duration_ms line c g Hl r. subst r. split.
    + exact (un_compression_handle_line task_id duration_ms line c g Hl).
    + intros probe ->.
      destruct (ru_compression_handle_line task_id _ line
                  (get_duration_in_float_range probe) c g Hl) as [_ [[] Ha]].
      exact Ha.
  - intros task_id duration_ms line c g Hl r. subst r. split.
    + exact (un_convert_handle_line task_id duration_ms line c g Hl).
    + intros probe ->.
      destruct (ru_convert_handle_line task_id _ line
                  (get_duration_in_float_range probe) c g Hl) as [_ [[] Ha]].
      exact Ha.
Qed.

Lemma unknown_task_progress_is_noop_witness :
  let m := Main.manager (one_download (download_task Downloader.DOWNLOADING 0 None)) in
  let g := one_compress (compress_task Main.COMPRESSING None (Some 7%nat)) in
  let r := Downloader._progress_hook "0ther000" estimate_overrun m in
  let r' := Main.RunCompression.handle_line "0ther000" (Some 10000) "out_time_ms=5000"
              (Main.RunCompression.initial, g) in
  (outcome r = inr tt /\ final r = m) /\ (snd (final r') = g /\ outcome r' = inr tt).
Proof.
  intros m g r r'. split.
  - exact (proj1 unknown_task_progress_is_noop "0ther000" estimate_overrun m eq_refl).
  - destruct (proj1 (proj2 unknown_task_progress_is_noop) "0ther000" (Some 10000)
                "out_time_ms=5000" Main.RunCompression.initial g eq_refl) as [Hs Ho].
    split; [exact Hs | exact (Ho (Some "10.000000") eq_refl)].
Defined.

(** ** Progress outside the interval from 0 to 100 *)

(** C4, at a failing input.  The download hook stores
    [downloaded_bytes / total_bytes * 100] as it comes: with 150 bytes
    downloaded against an estimated total of 100, the progress of the
    task is 150.0.  And the line handlers bound the progress from above
    only: the line [out_time_ms=-9223372036854775808], with a duration
    of 10000 ms, leaves a negative progress. *)
Theorem progress_leaves_the_interval :
  (let task := download_task Downloader.DOWNLOADING 0x1.9p+5 None in
   let r := Downloader._progress_hook "d0wn10ad" estimate_overrun
              (Main.manager (one_download task)) in
   outcome r = inr tt
   /\ exists task',
       Downloader.tasks (final r) !! "d0wn10ad" = Some task'
       /\ Downloader.DownloadTask.progress task' = 150%float
       /\ PrimFloat.ltb 100 (Downloader.DownloadTask.progress task') = true)
  /\ (let g := one_compress (compress_task Main.COMPRESSING None (Some 7%nat)) in
      let r := Main.RunCompression.handle_line "c0ffee01" (Some 10000)
                 "out_time_ms=-9223372036854775808" (Main.RunCompression.initial, g) in
      outcome r = inr tt
      /\ exists task',
          Main.compression_tasks (snd (final r)) !! "c0ffee01" = Some task'
          /\ PrimFloat.ltb (Main.CompressionTask.progress task') 0 = true).
Proof.
  split.
  - split; [reflexivity|]. eexists. split; [reflexivity|]. split; reflexivity.
  - split; [reflexivity|]. eexists. split; [reflexivity|]. reflexivity.
Qed.

(** ** Admission of a compress job *)

Lemma compressing_exists (m : gmap string Main.CompressionTask.t) :
  existsb (fun kv => Main.CompressionStatus_eqb (Main.CompressionTask.status (snd kv))
                       Main.COMPRESSING) (map_to_list m) = true
  <-> exists task_id task,
      m !! task_id = Some task /\ Main.CompressionTask.status task = Main.COMPRESSING.
Proof.
  rewrite existsb_exists. split.
  - intros [[task_id task] [Hin Hs]]. exists task_id, task.
    apply list_elem_of_In, elem_of_map_to_list in Hin. split; [exact Hin|].
    cbn in Hs. now destruct (Main.CompressionTask.status task).
  - intros (task_id & task & Hl & Hs). exists (task_id, task). split.
    + now apply list_elem_of_In, elem_of_map_to_list.
    + cbn. now rewrite Hs.
Qed.

(** Taken alone, the scan rejects exactly when some task is COMPRESSING. *)
Lemma admission_scan_rejects g :
  outcome (Main.admission_scan g) = inl (Py.HTTPException 409 "Ya hay una compresion en curso")
  <-> exists task_id task,
      Main.compression_tasks g !! task_id = Some task
      /\ Main.CompressionTask.status task = Main.COMPRESSING.
Proof.
  rewrite <- compressing_exists. unfold Main.admission_scan, with_lock, get, mbind, M_bind.
  destruct (existsb _ _); cbn; [tauto|]. split; discriminate.
Qed.

(** Run without interference, a submission for an existing file is
    rejected with 409 and changes nothing when some task is
    COMPRESSING, and stores a PENDING task otherwise. *)
Lemma start_compression_alone _expand_path isfile task_id request g :
  isfile (_expand_path (Main.input_path request)) = true ->
  let r := Main.start_compression _expand_path isfile task_id request g in
  if existsb (fun kv => Main.CompressionStatus_eqb
                          (Main.CompressionTask.status (snd kv)) Main.COMPRESSING)
       (map_to_list (Main.compression_tasks g))
  then outcome r = inl (Py.HTTPException 409 "Ya hay una compresion en curso")
       /\ final r = g
  else (exists reply, outcome r = inr reply /\ Main.reply_task_id reply = task_id)
       /\ Main.compression_tasks (final r)
          = <[task_id := Main.CompressionTask.new task_id
                           (_expand_path (Main.input_path request)) ""
                           (default false (Main.use_gpu request))]>
              (Main.compression_tasks g).
Proof.
  intros Hfile r. subst r.
  unfold Main.start_compression, Main.admission_scan, Main.admission_create,
    with_lock, get, modify, emit, raise, mbind, mret, M_bind, M_ret.
  rewrite Hfile. cbn [negb].
  destruct (existsb _ _); cbn; [split; reflexivity|].
  split; [eexists; split; reflexivity | reflexivity].
Qed.

(** C1, at a failing schedule.  The scan and the creation of
    [start_compression] are two critical sections: an admitted
    submission acquires the lock twice.  With a first job admitted and
    still PENDING, the scan of a second submission passes; the runner of
    the first job then moves it to COMPRESSING; the second submission
    then creates its record, although a scan at that moment rejects
    with 409; and once its runner has started, two tasks are
    COMPRESSING at once. *)
Theorem compress_admission_is_not_atomic :
  let request :=
    {| Main.input_path := "/videos/b.mov"; Main.output_path := None;
       Main.output_format := None; Main.preset := None; Main.use_gpu := None |} in
  let g0 := one_compress (compress_task Main.PENDING None None) in
  let scan := Main.admission_scan g0 in
  let first_runs :=
    Main.RunCompression.mark_compressing "c0ffee01" "/videos/clip-compressed.mp4"
      (final scan) in
  let create := Main.admission_create "c0ffee02" "/videos/b.mov" false (final first_runs) in
  let second_runs :=
    Main.RunCompression.mark_compressing "c0ffee02" "/videos/b-compressed.mp4"
      (final create) in
  let status_of g task_id :=
    Main.CompressionTask.status <$> (Main.compression_tasks g !! task_id) in
  acquisitions compression_lock
    (effects (Main.start_compression (fun p => p) (fun _ => true) "c0ffee02" request g0)) = 2%nat
  /\ outcome scan = inr tt
  /\ status_of (final first_runs) "c0ffee01" = Some Main.COMPRESSING
  /\ outcome (Main.admission_scan (final first_runs))
     = inl (Py.HTTPException 409 "Ya hay una compresion en curso")
  /\ outcome create = inr tt
  /\ status_of (final create) "c0ffee02" = Some Main.PENDING
  /\ status_of (final second_runs) "c0ffee01" = Some Main.COMPRESSING
  /\ status_of (final second_runs) "c0ffee02" = Some Main.COMPRESSING.
Proof. cbv zeta. repeat split; vm_compute; reflexivity. Qed.

(** ** Cancellation of a transcoding job *)

Lemma cancel_compression_run wait_expires task_id g task p :
  Main.compression_tasks g !! task_id = Some task ->
  Main.CompressionTask.status task = Main.COMPRESSING ->
  Main.CompressionTask.process task = Some p ->
  Main.cancel_compression wait_expires task_id g
  = (inr {| Main.reply_task_id := task_id; Main.reply_status := "cancelled";
            Main.reply_message := None |},
     Main.set_compression_tasks
       (<[task_id := Main.CompressionTask.set_error (Some "Cancelled by user")
                       (Main.CompressionTask.set_status Main.ERROR task)]>
          (Main.compression_tasks g)) g,
     [Acquire compression_lock; terminate p; wait p (Some 5)]
       ++ (if wait_expires then [kill p] else []) ++ [Release compression_lock]).
Proof.
  intros Hl Hs Hp.
  unfold Main.cancel_compression, Main.stop_process, Main.assign_compression,
    with_lock, get, modify, emit, mbind, mret, M_bind, M_ret.
  rewrite Hl, Hs, Hp. cbn [Main.CompressionStatus_eqb negb].
  destruct wait_expires; cbn; rewrite (alter_twice _ _ _ _ _ Hl); reflexivity.
Qed.

Lemma cancel_convert_run wait_expires task_id g task p :
  Main.convert_tasks g !! task_id = Some task ->
  Main.ConvertTask.status task = "processing" ->
  Main.ConvertTask.process task = Some p ->
  Main.cancel_convert wait_expires task_id g
  = (inr {| Main.reply_task_id := task_id; Main.reply_status := "cancelled";
            Main.reply_message := None |},
     Main.set_convert_tasks
       (<[task_id := Main.ConvertTask.set_error (Some "Cancelled by user")
                       (Main.ConvertTask.set_status "error" task)]>
          (Main.convert_tasks g)) g,
     [Acquire convert_lock; terminate p; wait p (Some 5)]
       ++ (if wait_expires then [kill p] else []) ++ [Release convert_lock]).
Proof.
  intros Hl Hs Hp.
  unfold Main.cancel_convert, Main.stop_process, Main.assign_convert,
    with_lock, get, modify, emit, mbind, mret, M_bind, M_ret.
  rewrite Hl, Hs, Hp. cbn [String.eqb Ascii.eqb Bool.eqb negb andb].
  destruct wait_expires; cbn; rewrite (alter_twice _ _ _ _ _ Hl); reflexivity.
Qed.

(** C9, at the failing path.  Cancelling a compress or convert job
    that is in progress and owns a process runs [terminate], the wait
    of up to five seconds and, when it expires, [kill], all between the
    acquisition and the release of the registry lock of its kind: a
    blocking call runs while the lock is held. *)
Theorem cancel_waits_under_the_lock :
  (forall wait_expires task_id g task p,
      Main.compression_tasks g !! task_id = Some task ->
      Main.CompressionTask.status task = Main.COMPRESSING ->
      Main.CompressionTask.process task = Some p ->
      let trace := effects (Main.cancel_compression wait_expires task_id g) in
      trace = [Acquire compression_lock; terminate p; wait p (Some 5)]
                ++ (if wait_expires then [kill p] else []) ++ [Release compression_lock]
      /\ blocks_under_lock [] trace = true)
  /\ (forall wait_expires task_id g task p,
         Main.convert_tasks g !! task_id = Some task ->
         Main.ConvertTask.status task = "processing" ->
         Main.ConvertTask.process task = Some p ->
         let trace := effects (Main.cancel_convert wait_expires task_id g) in
         trace = [Acquire convert_lock; terminate p; wait p (Some 5)]
                   ++ (if wait_expires then [kill p] else []) ++ [Release convert_lock]
         /\ blocks_under_lock [] trace = true).
Proof.
  split; intros wait_expires task_id g task p Hl Hs Hp trace; subst trace.
  - rewrite (cancel_compression_run _ _ _ _ _ Hl Hs Hp). split; [reflexivity|].
    now destruct wait_expires.
  - rewrite (cancel_convert_run _ _ _ _ _ Hl Hs Hp). split; [reflexivity|].
    now destruct wait_expires.
Qed.

Lemma cancel_waits_under_the_lock_witness :
  blocks_under_lock []
    (effects (Main.cancel_compression true "c0ffee01"
                (one_compress (compress_task Main.COMPRESSING None (Some 7%nat))))) = true
  /\ blocks_under_lock []
       (effects (Main.cancel_convert false "c0ffee02"
                   (one_convert (convert_task "processing" None (Some 7%nat))))) = true.
Proof.
  split.
  - exact (proj2 (proj1 cancel_waits_under_the_lock true "c0ffee01"
                    (one_compress (compress_task Main.COMPRESSING None (Some 7%nat)))
                    (compress_task Main.COMPRESSING None (Some 7%nat)) 7%nat
                    eq_refl eq_refl eq_refl)).
  - exact (proj2 (proj2 cancel_waits_under_the_lock false "c0ffee02"
                    (one_convert (convert_task "processing" None (Some 7%nat)))
                    (convert_task "processing" None (Some 7%nat)) 7%nat
                    eq_refl eq_refl eq_refl)).
Defined.

(** ** The lock discipline of the runners *)

Lemma transparent_nil : transparent [].
Proof. intros rest. reflexivity. Qed.

Lemma transparent_app t1 t2 : transparent t1 -> transparent t2 -> transparent (t1 ++ t2).
Proof. intros H1 H2 rest. now rewrite <- app_assoc, H1, H2. Qed.

Lemma transparent_lock l : transparent [Acquire l; Release l].
Proof. intros rest. cbn. now destruct l. Qed.

Lemma transparent_event e :
  match e with Acquire _ | Release _ => False | _ => True end -> transparent [e].
Proof. intros He rest. destruct e; try contradiction; reflexivity. Qed.

Section Effects.
Context {S : Type}.

Lemma silent_ret {A} (a : A) : silent (mret a : M S A).
Proof. intros s. reflexivity. Qed.
Lemma silent_lift {A} (r : Py.exn + A) : silent (lift r : M S A).
Proof. intros s. reflexivity. Qed.
Lemma silent_raise {A} e : silent (raise e : M S A).
Proof. intros s. reflexivity. Qed.
Lemma silent_get : silent (get : M S S).
Proof. intros s. reflexivity. Qed.
Lemma silent_modify f : silent (modify f : M S unit).
Proof. intros s. reflexivity. Qed.
Lemma silent_bind {A B} (m : M S A) (k : A -> M S B) :
  silent m -> (forall a, silent (k a)) -> silent (m ≫= k).
Proof.
  intros Hm Hk s. specialize (Hm s). unfold mbind, M_bind.
  destruct (m s) as [[[e|a] s'] t]; cbn in Hm; subst t; [reflexivity|].
  specialize (Hk a s'). destruct (k a s') as [[r s''] t']. exact Hk.
Qed.

Lemma lf_silent {A} (m : M S A) : silent m -> lock_free m.
Proof. intros H s. rewrite H. apply transparent_nil. Qed.
Lemma lf_bind {A B} (m : M S A) (k : A -> M S B) :
  lock_free m -> (forall a, lock_free (k a)) -> lock_free (m ≫= k).
Proof.
  intros Hm Hk s. specialize (Hm s). unfold mbind, M_bind.
  destruct (m s) as [[[e|a] s'] t]; cbn in Hm; [exact Hm|].
  specialize (Hk a s'). destruct (k a s') as [[r s''] t']. cbn in *.
  now apply transparent_app.
Qed.
Lemma lf_try {A} (m : M S A) (h : Py.exn -> M S A) :
  lock_free m -> (forall e, lock_free (h e)) -> lock_free (try_except m h).
Proof.
  intros Hm Hh s. specialize (Hm s). unfold try_except.
  destruct (m s) as [[[e|a] s'] t]; cbn in Hm; [|exact Hm].
  specialize (Hh e s'). destruct (h e s') as [[r s''] t']. cbn in *.
  now apply transparent_app.
Qed.
Lemma lf_with_lock {A} l (m : M S A) : silent m -> lock_free (with_lock l m).
Proof.
  intros Hm s. specialize (Hm s). unfold with_lock.
  destruct (m s) as [[r s'] t]. cbn in *. subst t. apply transparent_lock.
Qed.
Lemma lf_emit e :
  match e with Acquire _ | Release _ => False | _ => True end -> lock_free (emit e : M S unit).
Proof. intros He s. now apply transparent_event. Qed.
End Effects.

Lemma lf_on_snd {C W A} (m : M W A) : lock_free m -> lock_free (on_snd m : M (C * W) A).
Proof.
  intros Hm [c w]. specialize (Hm w). unfold on_snd. cbn [snd fst].
  destruct (m w) as [[r w'] t]. exact Hm.
Qed.
Lemma lf_with_cells {C W A} (c : C) (m : M (C * W) A) :
  lock_free m -> lock_free (with_cells c m).
Proof.
  intros Hm w. specialize (Hm (c, w)). unfold with_cells.
  destruct (m (c, w)) as [[r s'] t]. exact Hm.
Qed.
Lemma silent_get_fst {C W} : silent (get_fst : M (C * W) C).
Proof. intros s. reflexivity. Qed.
Lemma silent_modify_fst {C W} f : silent (modify_fst f : M (C * W) unit).
Proof. intros s. reflexivity. Qed.

Ltac effects_split :=
  match goal with
  | |- lock_free (if ?b then _ else _) => destruct b eqn:?
  | |- silent (if ?b then _ else _) => destruct b eqn:?
  | |- lock_free (match ?x with _ => _ end) => destruct x eqn:?
  | |- silent (match ?x with _ => _ end) => destruct x eqn:?
  end.
Ltac silent_step :=
  first [ apply silent_ret | apply silent_lift | apply silent_raise | apply silent_get
        | apply silent_modify | apply silent_get_fst | apply silent_modify_fst
        | apply silent_bind | progress intros | effects_split ].
Ltac lf_step :=
  first [ apply lf_silent; first [ apply silent_ret | apply silent_lift | apply silent_raise
                                 | apply silent_get | apply silent_modify
                                 | apply silent_get_fst | apply silent_modify_fst ]
        | apply lf_bind | apply lf_try | apply lf_on_snd | apply lf_with_cells
        | apply lf_with_lock; unfold Main.assign_compression, Main.assign_convert;
          repeat silent_step
        | apply lf_emit; exact I
        | progress intros | effects_split ].

Lemma lf_compression_handle_line task_id duration_ms line :
  lock_free (Main.RunCompression.handle_line task_id duration_ms line).
Proof.
  unfold Main.RunCompression.handle_line, Main.RunCompression.time_token_update,
    Main.RunCompression.key_value_update, Main.time_token_seconds, Main.unpack2,
    Main.float_or_return, Main.RunCompression.next_progress,
    Main.RunCompression.store_progress.
  repeat lf_step.
Qed.

Lemma lf_compression_read_streams task_id duration_ms lines : forall out_alive err_alive,
  lock_free (Main.RunCompression.read_streams task_id duration_ms lines out_alive err_alive).
Proof.
  induction lines as [|[from_stderr raw] rest IH]; intros out_alive err_alive;
    cbn [Main.RunCompression.read_streams].
  - repeat lf_step.
  - destruct (if from_stderr then err_alive else out_alive); [|apply IH].
    apply lf_bind.
    + apply lf_try; [|repeat lf_step]. apply lf_bind; [|repeat lf_step].
      unfold Main.RunCompression.read_line. destruct from_stderr.
      * apply lf_bind; [repeat lf_step|]. intros. apply lf_compression_handle_line.
      * apply lf_compression_handle_line.
    + intros [|]; [apply IH|]. destruct from_stderr; apply IH.
Qed.

Lemma lf_run_compression e task_id input_path output_dir output_format preset :
  lock_free
    (Main.RunCompression._run_compression e task_id input_path output_dir output_format
       preset).
Proof.
  unfold Main.RunCompression._run_compression, Main.RunCompression.mark_compressing,
    Main.RunCompression.terminal_write.
  destruct (Main.RunCompression.ffmpeg e); [|repeat lf_step].
  repeat first [ apply lf_compression_read_streams | lf_step ].
Qed.

Lemma lf_convert_handle_line task_id duration_ms line :
  lock_free (Main.RunConvert.handle_line task_id duration_ms line).
Proof.
  unfold Main.RunConvert.handle_line, Main.RunConvert.time_token_update,
    Main.RunConvert.key_value_update, Main.time_token_seconds, Main.unpack2,
    Main.float_or_return, Main.RunConvert.next_progress, Main.RunConvert.store_progress.
  repeat lf_step.
Qed.

Lemma lf_convert_read_streams task_id duration_ms lines : forall out_alive err_alive,
  lock_free (Main.RunConvert.read_streams task_id duration_ms lines out_alive err_alive).
Proof.
  induction lines as [|[from_stderr raw] rest IH]; intros out_alive err_alive;
    cbn [Main.RunConvert.read_streams].
  - repeat lf_step.
  - destruct (if from_stderr then err_alive else out_alive); [|apply IH].
    apply lf_bind.
    + apply lf_try; [|repeat lf_step]. apply lf_bind; [|repeat lf_step].
      unfold Main.RunConvert.read_line. destruct from_stderr.
      * apply lf_bind; [repeat lf_step|]. intros. apply lf_convert_handle_line.
      * apply lf_convert_handle_line.
    + intros [|]; [apply IH|]. destruct from_stderr; apply IH.
Qed.

Lemma lf_run_convert e task_id input_path output_dir output_format media_type quality :
  lock_free
    (Main.RunConvert._run_convert e task_id input_path output_dir output_format media_type
       quality).
Proof.
  unfold Main.RunConvert._run_convert, Main.RunConvert.terminal_write.
  destruct (Main.RunCompression.ffmpeg e); [|repeat lf_step].
  repeat first [ apply lf_convert_read_streams | lf_step ].
Qed.

(** The runners keep the rule that the cancellation endpoints break:
    whatever they find, no blocking call of [_run_compression] or of
    [_run_convert] runs while a registry lock is held; their
    [process.wait()] comes between two critical sections. *)
Lemma runners_never_block_under_lock e task_id input_path output_dir output_format a b g :
  blocks_under_lock []
    (effects (Main.RunCompression._run_compression e task_id input_path output_dir
                output_format a g)) = false
  /\ blocks_under_lock []
       (effects (Main.RunConvert._run_convert e task_id input_path output_dir
                   output_format a b g)) = false.
Proof.
  split.
  - pose proof (lf_run_compression e task_id input_path output_dir output_format a g [])
      as H. now rewrite app_nil_r in H.
  - pose proof (lf_run_convert e task_id input_path output_dir output_format a b g [])
      as H. now rewrite app_nil_r in H.
Qed.

(** ** File names *)

Section Sanitize.
Implicit Types (s : string) (p : ascii -> bool).

Lemma every_char_weaken p q s :
  (forall c, p c = true -> q c = true) -> every_char p s = true -> every_char q s = true.
Proof.
  intros H. induction s as [|c s IH]; cbn; [easy|].
  rewrite !andb_true_iff. intros [Hc Hs]. auto.
Qed.

Lemma every_char_sub_invalid s :
  every_char (fun c => negb (Downloader.invalid_chars c))
    (Downloader.re_sub Downloader.invalid_chars "_" s) = true.
Proof.
  induction s as [|c s IH]; cbn [Downloader.re_sub]; [reflexivity|].
  destruct (Downloader.invalid_chars c) eqn:Hc.
  - change ("_" +:+ ?x) with (String "_" x). cbn [every_char]. now rewrite IH.
  - cbn [every_char]. now rewrite Hc, IH.
Qed.

Lemma every_char_drop_control p s :
  every_char p s = true ->
  every_char (fun c => p c && negb (Downloader.control_chars c))
    (Downloader.re_sub Downloader.control_chars "" s) = true.
Proof.
  induction s as [|c s IH]; cbn [Downloader.re_sub every_char]; [reflexivity|].
  rewrite andb_true_iff. intros [Hc Hs].
  destruct (Downloader.control_chars c) eqn:Hk.
  - change ("" +:+ ?x) with x. now apply IH.
  - cbn [every_char]. now rewrite Hc, Hk, IH.
Qed.

Lemma every_char_substring p s n :
  every_char p s = true -> every_char p (String.substring 0 n s) = true.
Proof.
  revert n. induction s as [|c s IH]; intros [|n]; cbn; try easy.
  rewrite !andb_true_iff. intros [Hc Hs]. auto.
Qed.

Lemma length_substring s n : (String.length (String.substring 0 n s) <= n)%nat.
Proof.
  revert n. induction s as [|c s IH]; intros [|n]; cbn; try lia.
  specialize (IH n). lia.
Qed.

Lemma every_char_lstrip p s : every_char p s = true -> every_char p (Py.lstrip s) = true.
Proof.
  induction s as [|c s IH]; cbn; [easy|].
  destruct (Py.is_space c); [|easy].
  rewrite andb_true_iff. intros [_ Hs]. auto.
Qed.

Lemma every_char_rstrip p s : every_char p s = true -> every_char p (Py.rstrip s) = true.
Proof.
  induction s as [|c s IH]; cbn; [easy|].
  rewrite andb_true_iff. intros [Hc Hs]. specialize (IH Hs).
  destruct (Py.rstrip s) eqn:Hr.
  - destruct (Py.is_space c); cbn; [easy|]. now rewrite Hc.
  - change (p c && every_char p (String a s0) = true). now rewrite Hc, IH.
Qed.

Lemma length_lstrip s : (String.length (Py.lstrip s) <= String.length s)%nat.
Proof.
  induction s as [|c s IH]; cbn; [lia|]. destruct (Py.is_space c); cbn; lia.
Qed.

Lemma length_rstrip s : (String.length (Py.rstrip s) <= String.length s)%nat.
Proof.
  induction s as [|c s IH]; cbn; [lia|].
  destruct (Py.rstrip s); [destruct (Py.is_space c)|]; cbn in *; lia.
Qed.

Lemma rstrip_cons c s :
  Py.rstrip (String c s) =
  match Py.rstrip s with
  | EmptyString => if Py.is_space c then EmptyString else String c EmptyString
  | r => String c r
  end.
Proof. reflexivity. Qed.

Lemma rstrip_idempotent s : Py.rstrip (Py.rstrip s) = Py.rstrip s.
Proof.
  induction s as [|c s IH]; [reflexivity|].
  rewrite rstrip_cons.
  destruct (Py.rstrip s) as [|d r] eqn:Hr.
  - destruct (Py.is_space c) eqn:Hc; [reflexivity|].
    rewrite rstrip_cons. cbn. now rewrite Hc.
  - rewrite rstrip_cons, IH. reflexivity.
Qed.

(** A string that does not start with a space still does not once
    its right end is stripped. *)
Lemma lstrip_rstrip_lstrip s : Py.lstrip (Py.rstrip (Py.lstrip s)) = Py.rstrip (Py.lstrip s).
Proof.
  induction s as [|c s IH]; cbn [Py.lstrip]; [reflexivity|].
  destruct (Py.is_space c) eqn:Hc; [exact IH|].
  rewrite rstrip_cons. destruct (Py.rstrip s); rewrite ?Hc; cbn [Py.lstrip]; now rewrite Hc.
Qed.

Lemma strip_idempotent s : Py.strip (Py.strip s) = Py.strip s.
Proof.
  unfold Py.strip. rewrite lstrip_rstrip_lstrip. apply rstrip_idempotent.
Qed.

Lemma re_sub_unchanged p r s :
  every_char (fun c => negb (p c)) s = true -> Downloader.re_sub p r s = s.
Proof.
  induction s as [|c s IH]; cbn; [easy|].
  rewrite andb_true_iff, negb_true_iff. intros [-> Hs]. now rewrite IH.
Qed.
End Sanitize.

(** X1. Whatever the title, [sanitize_filename] returns a safe name:
    none of the characters invalid in a file name, no control
    character, at most 200 characters and no white space, the
    no-break space and NEL included, at either end. *)
Theorem sanitize_filename_safe (filename : string) :
  safe_name (Downloader.sanitize_filename filename) = true.
Proof.
  unfold safe_name, Downloader.sanitize_filename.
  set (a := Downloader.re_sub Downloader.invalid_chars "_" filename).
  set (b := Downloader.re_sub Downloader.control_chars "" a).
  set (c := if (200 <? String.length b)%nat then String.substring 0 200 b else b).
  assert (Hb : every_char filename_char b = true).
  { apply (every_char_drop_control _ a), every_char_sub_invalid. }
  assert (Hc : every_char filename_char c = true).
  { unfold c. destruct (200 <? String.length b)%nat; [now apply every_char_substring | exact Hb]. }
  assert (Hl : (String.length c <= 200)%nat).
  { unfold c. destruct (200 <? String.length b)%nat eqn:Hlt.
    - apply length_substring.
    - apply Nat.ltb_ge in Hlt. exact Hlt. }
  rewrite !andb_true_iff. repeat split.
  - unfold Py.strip. now apply every_char_rstrip, every_char_lstrip.
  - apply Nat.leb_le. unfold Py.strip.
    pose proof (length_rstrip (Py.lstrip c)). pose proof (length_lstrip c). lia.
  - rewrite strip_idempotent. apply String.eqb_refl.
Qed.

(** X2. [sanitize_filename] returns a name that is already safe as it
    is. *)
Theorem sanitize_filename_keeps_safe_names (s : string) :
  safe_name s = true -> Downloader.sanitize_filename s = s.
Proof.
  unfold safe_name. rewrite !andb_true_iff. intros [[Hc Hl] Hs].
  apply String.eqb_eq in Hs. apply Nat.leb_le in Hl.
  unfold Downloader.sanitize_filename.
  rewrite (re_sub_unchanged Downloader.invalid_chars).
  2:{ revert Hc. apply every_char_weaken. intros c. unfold filename_char.
      now rewrite andb_true_iff. }
  rewrite (re_sub_unchanged Downloader.control_chars).
  2:{ revert Hc. apply every_char_weaken. intros c. unfold filename_char.
      now rewrite andb_true_iff. }
  destruct (200 <? String.length s)%nat eqn:Hlt; [apply Nat.ltb_lt in Hlt; lia|].
  exact Hs.
Qed.

Lemma sanitize_filename_keeps_safe_names_witness :
  safe_name "My video (2024) - part 1.mp4" = true /\
  Downloader.sanitize_filename "My video (2024) - part 1.mp4" = "My video (2024) - part 1.mp4".
Proof.
  split; [reflexivity | apply sanitize_filename_keeps_safe_names; reflexivity].
Defined.

(** A name that ends with a no-break space is not safe, and
    [sanitize_filename] removes the space. *)
Example sanitize_filename_strips_no_break_space :
  let name := String "a" (String (ascii_of_nat 160) "") in
  safe_name name = false /\ Downloader.sanitize_filename name = "a".
Proof. split; reflexivity. Qed.

(** ** The formats of [get_video_info] *)

Section Formats.
Import Downloader.
Implicit Types (fs : list format_dict) (acc : list format_entry).

Lemma sort_insert_perm x (l : list format_entry) : Permutation (sort_insert x l) (x :: l).
Proof.
  induction l as [|y l IH]; cbn; [reflexivity|].
  destruct (height x <? height y); [|reflexivity].
  rewrite IH. apply perm_swap.
Qed.

Lemma sort_by_height_perm (l : list format_entry) : Permutation (sort_by_height l) l.
Proof.
  induction l as [|x l IH]; cbn; [reflexivity|].
  rewrite sort_insert_perm. now constructor.
Qed.

Lemma forallb_perm {A} (p : A -> bool) (l l' : list A) :
  Permutation l l' -> forallb p l = forallb p l'.
Proof.
  induction 1; cbn; try congruence.
  destruct (p x), (p y); reflexivity.
Qed.

Lemma sort_insert_descending x (l : list format_entry) :
  descending l = true -> descending (sort_insert x l) = true.
Proof.
  induction l as [|y l IH]; cbn [sort_insert descending]; [easy|].
  rewrite andb_true_iff. intros [Hy Hl].
  destruct (height x <? height y) eqn:Hxy.
  - cbn [descending]. rewrite (forallb_perm _ _ _ (sort_insert_perm x l)).
    cbn [forallb]. rewrite Hy, (IH Hl).
    apply Z.ltb_lt in Hxy. rewrite andb_true_r, andb_true_iff. split; [|reflexivity].
    apply Z.leb_le. lia.
  - cbn [descending forallb]. rewrite Hy, Hl, !andb_true_r.
    apply Z.ltb_ge in Hxy. rewrite andb_true_iff. split; [apply Z.leb_le; lia|].
    rewrite forallb_forall in Hy |- *. intros z Hz. specialize (Hy z Hz).
    apply Z.leb_le in Hy. apply Z.leb_le. lia.
Qed.

Lemma sort_by_height_descending (l : list format_entry) : descending (sort_by_height l) = true.
Proof.
  induction l as [|x l IH]; cbn; [reflexivity|]. now apply sort_insert_descending.
Qed.

Lemma formats_loop_spec fs : forall (seen : gset string) acc,
  (forall x, In x acc -> (resolution x) ∈ seen) ->
  NoDup (List.map resolution acc) ->
  NoDup (List.map resolution (formats_loop fs seen acc)) /\
  forall x, In x (formats_loop fs seen acc) ->
    In x acc \/
    ((resolution x ∉ seen) /\
     exists l1 f l2,
       fs = l1 ++ f :: l2 /\
       video_height f = Some (height x) /\
       x = entry_of f (height x) /\
       forall g h, In g l1 -> video_height g = Some h ->
         Py.str_int h +:+ "p" <> resolution x).
Proof.
  induction fs as [|f fs IH]; intros seen acc Hseen Hnd; cbn [formats_loop].
  - split; [exact Hnd | now left].
  - assert (Hskip :
      NoDup (List.map resolution (formats_loop fs seen acc)) /\
      forall x, In x (formats_loop fs seen acc) ->
        (forall h, video_height f = Some h -> (Py.str_int h +:+ "p") ∈ seen) ->
        In x acc \/
        ((resolution x ∉ seen) /\
         exists l1 f0 l2,
           f :: fs = l1 ++ f0 :: l2 /\
           video_height f0 = Some (height x) /\
           x = entry_of f0 (height x) /\
           forall g h, In g l1 -> video_height g = Some h ->
             Py.str_int h +:+ "p" <> resolution x)).
    { destruct (IH seen acc Hseen Hnd) as [H1 H2]. split; [exact H1|].
      intros x Hx Hf. destruct (H2 x Hx) as [|[Hns (l1 & f0 & l2 & -> & Hv & He & Hfirst)]];
        [now left|right].
      split; [exact Hns|]. exists (f :: l1), f0, l2. repeat split; try assumption.
      intros g h [<-|Hg] Hgh; [|now apply (Hfirst g h)].
      intros Heq. apply Hns. rewrite <- Heq. now apply Hf. }
    destruct (video_height f) as [h|] eqn:Hvh.
    + destruct (decide ((Py.str_int h +:+ "p") ∈ seen)) as [Hin|Hnin].
      * destruct Hskip as [H1 H2]. split; [exact H1|].
        intros x Hx. apply (H2 x Hx). now intros h' [= <-].
      * destruct (IH ({[Py.str_int h +:+ "p"]} ∪ seen) (acc ++ [entry_of f h]))
          as [H1 H2].
        { intros x Hx. apply in_app_or in Hx. destruct Hx as [Hx|[<-|[]]].
          - apply elem_of_union_r. now apply Hseen.
          - apply elem_of_union_l, elem_of_singleton. reflexivity. }
        { rewrite map_app.
          change (List.map resolution [entry_of f h]) with [Py.str_int h +:+ "p"].
          apply NoDup_app. repeat split.
          - exact Hnd.
          - intros r Hr [<-|[]]%list_elem_of_In. apply Hnin.
            apply list_elem_of_In, in_map_iff in Hr. destruct Hr as (x & <- & Hx).
            now apply Hseen.
          - apply NoDup_singleton. }
        split; [exact H1|].
        intros x Hx. destruct (H2 x Hx) as [Hacc|[Hns (l1 & f0 & l2 & -> & Hv & He & Hfirst)]].
        -- apply in_app_or in Hacc. destruct Hacc as [Hacc|[<-|[]]]; [now left|right].
           split; [exact Hnin|]. exists [], f, fs. repeat split; try assumption.
           now intros g h' [].
        -- right. split; [intros Hc; apply Hns; now apply elem_of_union_r|].
           exists (f :: l1), f0, l2. repeat split; try assumption.
           intros g h' [<-|Hg] Hgh; [|now apply (Hfirst g h')].
           rewrite Hvh in Hgh. injection Hgh as <-.
           intros Heq. apply Hns. rewrite <- Heq.
           apply elem_of_union_l, elem_of_singleton. reflexivity.
    + destruct Hskip as [H1 H2]. split; [exact H1|].
      intros x Hx. apply (H2 x Hx). intros h' [=].
Qed.

Lemma formats_loop_complete fs : forall (seen : gset string) acc f h,
  In f fs -> video_height f = Some h ->
  (Py.str_int h +:+ "p") ∈ seen \/
  In (Py.str_int h +:+ "p") (List.map resolution (formats_loop fs seen acc)).
Proof.
  assert (Hkeep : forall fs (seen : gset string) acc x,
            In x acc -> In x (formats_loop fs seen acc)).
  { clear. induction fs as [|f fs IH]; intros seen acc x Hx; cbn; [exact Hx|].
    destruct (video_height f); [|now apply IH].
    destruct (decide _); apply IH; [exact Hx|]. apply in_or_app. now left. }
  induction fs as [|g fs IH]; intros seen acc f h [] Hv; cbn [formats_loop].
  - subst g. rewrite Hv.
    destruct (decide ((Py.str_int h +:+ "p") ∈ seen)) as [Hin|Hnin]; [now left|right].
    apply (proj2 (List.in_map_iff resolution _ _)). exists (entry_of f h). split; [reflexivity|].
    apply Hkeep, in_or_app. right. now left.
  - destruct (video_height g) as [h'|]; [|now apply (IH _ _ f h)].
    destruct (decide ((Py.str_int h' +:+ "p") ∈ seen)); [now apply (IH _ _ f h)|].
    destruct (IH ({[Py.str_int h' +:+ "p"]} ∪ seen) (acc ++ [entry_of g h']) f h H Hv)
      as [Hin|Hin]; [|now right].
    apply elem_of_union in Hin. destruct Hin as [Hin|Hin]; [|now left].
    apply elem_of_singleton in Hin. right. rewrite Hin.
    apply (proj2 (List.in_map_iff resolution _ _)). exists (entry_of g h'). split; [reflexivity|].
    apply Hkeep, in_or_app. right. now left.
Qed.
End Formats.

(** X3. When [get_video_info] returns, its formats are in order of
    height, highest first; no two have the same resolution; each is
    the entry of the first video format of [info] with that
    resolution; and every video format of [info] has its resolution
    listed. *)
Theorem video_formats_sorted_distinct (url : string) (info : Downloader.info_dict)
    (v : Downloader.video_info) :
  Downloader.get_video_info url (Some info) = inr v ->
  descending (Downloader.v_formats v) = true /\
  NoDup (List.map Downloader.resolution (Downloader.v_formats v)) /\
  (forall x, In x (Downloader.v_formats v) ->
     first_of_resolution (Downloader.i_formats info) x) /\
  (forall f h, In f (Downloader.i_formats info) ->
     Downloader.video_height f = Some h ->
     In (Py.str_int h +:+ "p") (List.map Downloader.resolution (Downloader.v_formats v))).
Proof.
  unfold Downloader.get_video_info. intros H.
  assert (Hv : Downloader.v_formats v =
               Downloader.sort_by_height
                 (Downloader.formats_loop (Downloader.i_formats info) ∅ [])).
  { destruct (Downloader.i_duration info) as [[n|d]|];
      [| destruct (Py.int_of_float d); [discriminate|] |];
      injection H as <-; reflexivity. }
  rewrite Hv. clear H Hv.
  destruct (formats_loop_spec (Downloader.i_formats info) ∅ []) as [Hnd Hfrom];
    [now intros x [] | constructor |].
  pose proof (sort_by_height_perm
                (Downloader.formats_loop (Downloader.i_formats info) ∅ [])) as Hp.
  repeat split.
  - apply sort_by_height_descending.
  - rewrite (Permutation_map Downloader.resolution Hp). exact Hnd.
  - intros x Hx. apply (Permutation_in _ Hp) in Hx.
    destruct (Hfrom x Hx) as [[]|[_ Hex]]. exact Hex.
  - intros f h Hf Hh.
    destruct (formats_loop_complete (Downloader.i_formats info) ∅ [] f h Hf Hh)
      as [Hin|Hin]; [now apply not_elem_of_empty in Hin|].
    eapply Permutation_in; [|exact Hin].
    symmetry. now apply Permutation_map.
Qed.

Lemma video_formats_sorted_distinct_witness :
  Downloader.get_video_info "https://youtu.be/abc" (Some sample_info) = inr sample_video
  /\ descending (Downloader.v_formats sample_video) = true
  /\ NoDup (List.map Downloader.resolution (Downloader.v_formats sample_video)).
Proof.
  assert (H : Downloader.get_video_info "https://youtu.be/abc" (Some sample_info)
              = inr sample_video) by (vm_compute; reflexivity).
  split; [exact H|].
  destruct (video_formats_sorted_distinct "https://youtu.be/abc" sample_info sample_video H)
    as (Hd & Hn & _). split; assumption.
Defined.

(** ** A progress report puts the task in DOWNLOADING *)

Lemma progress_hook_downloading (task_id : string) (d : Downloader.hook_dict)
    (m : Downloader.DownloadManager) t :
  Downloader.tasks m !! task_id = Some t ->
  Downloader.d_status d = Some "downloading" ->
  exists t',
    Downloader.tasks (final (Downloader._progress_hook task_id d m)) !! task_id = Some t' /\
    Downloader.DownloadTask.status t' = Downloader.DOWNLOADING /\
    Downloader.DownloadTask.error t' = Downloader.DownloadTask.error t.
Proof.
  intros Hl Hst.
  unfold Downloader._progress_hook, Downloader.assign, with_lock, get, modify, lift, emit,
    mbind, mret, M_bind, M_ret.
  rewrite Hl, Hst.
  set (total := match Downloader.d_total_bytes d with Some _ => _ | None => _ end).
  cbn [default id String.eqb Ascii.eqb Bool.eqb].
  destruct (0 <? total);
    [destruct (Py.int_truediv _ total)|];
    destruct (Downloader._format_eta (Downloader.d_eta d));
    cbn [final fst snd Downloader.tasks Downloader.set_tasks Downloader._callbacks];
    try destruct (decide _);
    cbn [final fst snd Downloader.tasks Downloader.set_tasks];
    (eexists; split; [rewrite !lookup_alter_eq, Hl; reflexivity | split; reflexivity]).
Qed.

(** ** Computations whose final state stays within a relation *)

Section Within.
Context {S : Type} (R : S -> S -> Prop).
Hypothesis R_refl : forall s, R s s.
Hypothesis R_trans : forall s1 s2 s3, R s1 s2 -> R s2 s3 -> R s1 s3.

Lemma within_ret {A} (a : A) : within R (mret a : M S A).
Proof. intros s. apply R_refl. Qed.

Lemma within_lift {A} (r : Py.exn + A) : within R (lift r : M S A).
Proof. intros s. apply R_refl. Qed.

Lemma within_raise {A} (e : Py.exn) : within R (raise e : M S A).
Proof. intros s. apply R_refl. Qed.

Lemma within_get : within R (get : M S S).
Proof. intros s. apply R_refl. Qed.

Lemma within_emit (e : event) : within R (emit e : M S unit).
Proof. intros s. apply R_refl. Qed.

Lemma within_modify (f : S -> S) : (forall s, R s (f s)) -> within R (modify f).
Proof. intros Hf s. apply Hf. Qed.

Lemma within_bind {A B} (m : M S A) (k : A -> M S B) :
  within R m -> (forall a, within R (k a)) -> within R (m ≫= k).
Proof.
  intros Hm Hk s. specialize (Hm s). unfold mbind, M_bind.
  destruct (m s) as [[[e|a] s'] t]; cbn in Hm; [exact Hm|].
  specialize (Hk a s'). destruct (k a s') as [[r' s''] t'].
  cbn in *. eauto.
Qed.

Lemma within_try {A} (m : M S A) (h : Py.exn -> M S A) :
  within R m -> (forall e, within R (h e)) -> within R (try_except m h).
Proof.
  intros Hm Hh s. specialize (Hm s). unfold try_except.
  destruct (m s) as [[[e|a] s'] t]; cbn in Hm; [|exact Hm].
  specialize (Hh e s'). destruct (h e s') as [[r' s''] t'].
  cbn in *. eauto.
Qed.

Lemma within_with_lock {A} (l : lock) (m : M S A) :
  within R m -> within R (with_lock l m).
Proof.
  intros Hm s. specialize (Hm s). unfold with_lock.
  destruct (m s) as [[r s'] t]. exact Hm.
Qed.
End Within.

Ltac within_split :=
  match goal with
  | |- within _ (if ?b then _ else _) => destruct b eqn:?
  | |- within _ (match ?x with _ => _ end) => destruct x eqn:?
  end.

Ltac within_step refl trans :=
  first
    [ apply (within_ret _ refl) | apply (within_lift _ refl) | apply (within_raise _ refl)
    | apply (within_get _ refl) | apply (within_emit _ refl)
    | apply (within_with_lock _)
    | apply (within_bind _ trans) | apply (within_try _ trans)
    | progress intros | within_split ].

(** ** The progress hook and the rest of the registry *)

Lemma same_identity_refl t : same_identity t t.
Proof. now repeat split. Qed.

Lemma hook_frame_refl task_id m : hook_frame task_id m m.
Proof.
  split; [reflexivity|]. intros k.
  destruct (Downloader.tasks m !! k); [|exact I].
  split; [reflexivity | apply same_identity_refl].
Qed.

Lemma hook_frame_trans task_id m1 m2 m3 :
  hook_frame task_id m1 m2 -> hook_frame task_id m2 m3 -> hook_frame task_id m1 m3.
Proof.
  intros [Hc1 H1] [Hc2 H2]. split; [congruence|]. intros k.
  specialize (H1 k). specialize (H2 k).
  destruct (Downloader.tasks m1 !! k) as [t1|], (Downloader.tasks m2 !! k) as [t2|],
    (Downloader.tasks m3 !! k) as [t3|]; try easy.
  destruct H1 as [Ho1 (Ha1 & Hb1 & Hc1' & Hd1)], H2 as [Ho2 (Ha2 & Hb2 & Hc2' & Hd2)].
  split; [intros Hk; rewrite (Ho2 Hk); now apply Ho1|].
  repeat split; congruence.
Qed.

Lemma hook_frame_assign task_id f :
  (forall t, same_identity t (f t)) ->
  within (hook_frame task_id) (Downloader.assign task_id f).
Proof.
  intros Hf. apply within_modify. intros m. split; [reflexivity|]. intros k.
  cbn [Downloader.tasks Downloader.set_tasks].
  destruct (decide (k = task_id)) as [->|Hk].
  - rewrite lookup_alter_eq. destruct (Downloader.tasks m !! task_id); cbn; [|exact I].
    split; [easy | apply Hf].
  - rewrite lookup_alter_ne by congruence.
    destruct (Downloader.tasks m !! k); [|exact I].
    split; [reflexivity | apply same_identity_refl].
Qed.

(** X4. A progress hook, whether it returns or raises, leaves the
    callbacks, the set of task identifiers and every other task as
    they were, and on its own task never writes the identifier, the
    URL, the title or the thumbnail. *)
Theorem progress_hook_frame (task_id : string) (d : Downloader.hook_dict)
    (m : Downloader.DownloadManager) :
  hook_frame task_id m (final (Downloader._progress_hook task_id d m)).
Proof.
  revert m. change (within (hook_frame task_id) (Downloader._progress_hook task_id d)).
  unfold Downloader._progress_hook.
  repeat first
    [ apply hook_frame_assign; intros ?; now repeat split
    | within_step (hook_frame_refl task_id) (hook_frame_trans task_id) ].
Qed.

(** ** The download worker *)

Lemma locked_write_run m task_id f t :
  Downloader.tasks m !! task_id = Some t ->
  Downloader.locked_write task_id f m =
  (inr Downloader.Done,
   Downloader.set_tasks (<[task_id := f t]> (Downloader.tasks m)) m,
   [Acquire manager_lock; Release manager_lock]).
Proof.
  intros Hl.
  unfold Downloader.locked_write, Downloader.assign, with_lock, get, modify,
    mbind, mret, M_bind, M_ret.
  rewrite Hl. cbn. rewrite (alter_present _ _ _ _ Hl). reflexivity.
Qed.

Lemma worker_except_run m task_id message t :
  Downloader.tasks m !! task_id = Some t ->
  Downloader.worker_except task_id message m =
  (inr tt,
   Downloader.set_tasks
     (<[task_id := Downloader.DownloadTask.set_error (Some message)
                     (Downloader.DownloadTask.set_status Downloader.ERROR t)]>
        (Downloader.tasks m)) m,
   [Acquire manager_lock; Release manager_lock]).
Proof.
  intros Hl.
  unfold Downloader.worker_except, Downloader.assign, with_lock, get, modify,
    mbind, mret, M_bind, M_ret.
  rewrite Hl. cbn. rewrite (alter_twice _ _ _ _ _ Hl). reflexivity.
Qed.

Lemma outcome_bind {S A B} (m : M S A) (k : A -> M S B) s :
  outcome ((m ≫= k) s) =
  match outcome (m s) with
  | inl e => inl e
  | inr a => outcome (k a (final (m s)))
  end.
Proof.
  unfold mbind, M_bind. destruct (m s) as [[[e|a] s'] t]; cbn; [reflexivity|].
  now destruct (k a s') as [[r s''] t'].
Qed.

Lemma final_bind {S A B} (m : M S A) (k : A -> M S B) s :
  final ((m ≫= k) s) =
  match outcome (m s) with
  | inl e => final (m s)
  | inr a => final (k a (final (m s)))
  end.
Proof.
  unfold mbind, M_bind. destruct (m s) as [[[e|a] s'] t]; cbn; [reflexivity|].
  now destruct (k a s') as [[r s''] t'].
Qed.

Lemma ret_run {S A} (a : A) (s : S) : (mret a : M S A) s = (inr a, s, []).
Proof. reflexivity. Qed.

Lemma get_run {S} (s : S) : (get : M S S) s = (inr s, s, []).
Proof. reflexivity. Qed.

Ltac run_binds :=
  repeat (rewrite ?outcome_bind, ?final_bind, ?ret_run, ?get_run;
          cbn [outcome final fst snd]).

Lemma worker_callback_run (m : Downloader.DownloadManager) task_id t :
  Downloader.tasks m !! task_id = Some t ->
  let r := (if decide (task_id ∈ Downloader._callbacks m) then
              match Downloader.tasks m !! task_id with
              | None => raise Py.KeyError
              | Some _ => emit (callback task_id)
              end
            else mret tt) m in
  outcome r = inr tt /\ final r = m.
Proof.
  intros Hl.
  destruct (decide (task_id ∈ Downloader._callbacks m)); [rewrite Hl|]; cbn; eauto.
Qed.

Lemma download_worker_run (e : Downloader.worker_env)
    (task_id url format_type quality : string)
    (output_path output_format audio_quality : option string)
    (m : Downloader.DownloadManager) t :
  Downloader.tasks m !! task_id = Some t ->
  (forall m1, is_Some (Downloader.tasks m1 !! task_id) ->
     is_Some (Downloader.tasks (snd (Downloader.engine e m1)) !! task_id)) ->
  let r := Downloader._download_worker e task_id url format_type quality
             output_path output_format audio_quality m in
  let started :=
    final (Downloader.locked_write task_id
             (Downloader.DownloadTask.set_status Downloader.FETCHING_INFO) m) in
  outcome r = inr tt /\
  match Downloader.makedirs e with
  | Some message =>
      Downloader.tasks (final r) !! task_id =
      Some (Downloader.DownloadTask.set_error (Some message)
              (Downloader.DownloadTask.set_status Downloader.ERROR
                 (Downloader.DownloadTask.set_status Downloader.FETCHING_INFO t)))
  | None =>
      exists t2,
        Downloader.tasks (snd (Downloader.engine e started)) !! task_id = Some t2 /\
        Downloader.tasks (final r) !! task_id =
        Some match fst (Downloader.engine e started) with
             | inl message =>
                 Downloader.DownloadTask.set_error (Some message)
                   (Downloader.DownloadTask.set_status Downloader.ERROR t2)
             | inr (title, thumbnail) =>
                 Downloader.DownloadTask.set_filename
                   (PosixPath.join
                      (Downloader.or_else output_path (Downloader.output_dir e))
                      (match Downloader.pre_title e with
                       | Some title => Downloader.sanitize_filename title
                       | None => "download_" +:+ task_id
                       end
                       +:+ "." +:+
                       (if String.eqb format_type "audio"
                        then Downloader.or_else output_format "mp3"
                        else Downloader.or_else output_format "mp4")))
                   (Downloader.set_thumbnail thumbnail
                      (Downloader.set_title title
                         (Downloader.DownloadTask.set_progress 100
                            (Downloader.DownloadTask.set_status Downloader.COMPLETED t2))))
             end
  end.
Proof.
  intros Hl Hengine. cbv zeta.
  unfold Downloader._download_worker.
  run_binds. rewrite (locked_write_run _ _ _ _ Hl). run_binds.
  set (m1 := Downloader.set_tasks _ m).
  assert (Hl1 : Downloader.tasks m1 !! task_id =
                Some (Downloader.DownloadTask.set_status Downloader.FETCHING_INFO t))
    by apply lookup_insert_eq.
  specialize (Hengine m1 (ex_intro _ _ Hl1)).
  destruct (Downloader.makedirs e) as [message|].
  - run_binds. rewrite (worker_except_run _ _ _ _ Hl1). run_binds.
    set (m2 := Downloader.set_tasks _ m1).
    destruct (worker_callback_run m2 task_id _ (lookup_insert_eq _ _ _)) as [-> ->].
    split; [reflexivity | apply lookup_insert_eq].
  - run_binds.
    destruct (Downloader.engine e m1) as [[message|[title thumbnail]] m2];
      cbn [snd] in Hengine; destruct Hengine as [t2 Hl2]; run_binds.
    + rewrite (worker_except_run _ _ _ _ Hl2). run_binds.
      set (m3 := Downloader.set_tasks _ m2).
      destruct (worker_callback_run m3 task_id _ (lookup_insert_eq _ _ _)) as [-> ->].
      split; [reflexivity|].
      exists t2. split; [exact Hl2 | apply lookup_insert_eq].
    + rewrite (locked_write_run _ _ _ _ Hl2). run_binds.
      set (m3 := Downloader.set_tasks _ m2).
      destruct (worker_callback_run m3 task_id _ (lookup_insert_eq _ _ _)) as [-> ->].
      split; [reflexivity|].
      exists t2. split; [exact Hl2 | apply lookup_insert_eq].
Qed.

(** X5. If the task is registered when the worker starts and still is
    when the engine call ends, the worker returns, whatever the engine
    and the other threads did to the registry meanwhile, and leaves
    the task COMPLETED at 100.0 with the title, the thumbnail and the
    file name built from the sanitised title, or in ERROR with the text
    of the exception that [os.makedirs] or the engine raised. *)
Theorem download_worker_outcome (e : Downloader.worker_env)
    (task_id url format_type quality : string)
    (output_path output_format audio_quality : option string)
    (m : Downloader.DownloadManager) :
  is_Some (Downloader.tasks m !! task_id) ->
  (forall m1, is_Some (Downloader.tasks m1 !! task_id) ->
     is_Some (Downloader.tasks (snd (Downloader.engine e m1)) !! task_id)) ->
  let r := Downloader._download_worker e task_id url format_type quality
             output_path output_format audio_quality m in
  let started :=
    final (Downloader.locked_write task_id
             (Downloader.DownloadTask.set_status Downloader.FETCHING_INFO) m) in
  outcome r = inr tt /\
  exists t', Downloader.tasks (final r) !! task_id = Some t' /\
    worker_verdict e task_id format_type output_path output_format
      (fst (Downloader.engine e started)) t'.
Proof.
  intros [t Hl] Hengine.
  destruct (download_worker_run e task_id url format_type quality output_path
              output_format audio_quality m t Hl Hengine) as [Hout Hfin].
  cbv zeta. split; [exact Hout|]. unfold worker_verdict.
  destruct (Downloader.makedirs e) as [message|].
  - eexists. split; [exact Hfin | now split].
  - destruct Hfin as (t2 & _ & Hfin). eexists. split; [exact Hfin|].
    destruct (fst (Downloader.engine e _)) as [message|[title thumbnail]];
      now repeat split.
Qed.

Lemma download_worker_outcome_witness :
  let m := {| Downloader.tasks := {[ "d0wn10ad" := Downloader.DownloadTask.new "d0wn10ad" "https://example.org/v" ]};
              Downloader._callbacks := ∅ |} in
  let r := Downloader._download_worker sample_worker_env "d0wn10ad"
             "https://example.org/v" "video" "best" None None None m in
  outcome r = inr tt /\
  exists t', Downloader.tasks (final r) !! "d0wn10ad" = Some t' /\
    Downloader.DownloadTask.status t' = Downloader.COMPLETED /\
    Downloader.DownloadTask.filename t' =
      "/home/u/Downloads/GravityDown/A title_ part 1_2.mp4".
Proof.
  cbv zeta.
  destruct (download_worker_outcome sample_worker_env "d0wn10ad"
              "https://example.org/v" "video" "best" None None None
              {| Downloader.tasks := {[ "d0wn10ad" := Downloader.DownloadTask.new "d0wn10ad" "https://example.org/v" ]};
                 Downloader._callbacks := ∅ |})
    as [Hout (t' & Hl & Hv)].
  - eexists. apply lookup_singleton_eq.
  - intros m1 H. exact H.
  - split; [exact Hout|]. exists t'. split; [exact Hl|].
    destruct Hv as (Hs & _ & _ & _ & Hf). split; [exact Hs | exact Hf].
Defined.

(** X6. Cancelling does not stop a download that is running: when the
    engine has reported progress, the cancellation succeeds, and once
    the engine returns the worker stores COMPLETED at 100.0 over it,
    the error text "Cancelled by user" staying on the task. *)
Theorem worker_completes_a_cancelled_download (dir : string) (title0 : option string)
    (task_id url format_type quality : string)
    (output_path output_format audio_quality : option string)
    (d : Downloader.hook_dict) (title thumbnail : string)
    (m : Downloader.DownloadManager) :
  is_Some (Downloader.tasks m !! task_id) ->
  Downloader.d_status d = Some "downloading" ->
  let e := {| Downloader.output_dir := dir;
              Downloader.makedirs := None;
              Downloader.pre_title := title0;
              Downloader.engine :=
                cancelled_while_downloading task_id d title thumbnail |} in
  let started :=
    final (Downloader.locked_write task_id
             (Downloader.DownloadTask.set_status Downloader.FETCHING_INFO) m) in
  outcome (Downloader.cancel_task task_id
             (final (Downloader._progress_hook task_id d started))) = inr true /\
  exists t',
    Downloader.tasks
      (final (Downloader._download_worker e task_id url format_type quality
                output_path output_format audio_quality m)) !! task_id = Some t' /\
    Downloader.DownloadTask.status t' = Downloader.COMPLETED /\
    Downloader.DownloadTask.progress t' = 100%float /\
    Downloader.DownloadTask.error t' = Some "Cancelled by user".
Proof.
  intros [t Hl] Hst. cbv zeta.
  set (e := {| Downloader.output_dir := dir; Downloader.makedirs := None;
               Downloader.pre_title := title0;
               Downloader.engine := cancelled_while_downloading task_id d title thumbnail |}).
  assert (Hcancel : forall m1 t1, Downloader.tasks m1 !! task_id = Some t1 ->
            outcome (Downloader.cancel_task task_id
                       (final (Downloader._progress_hook task_id d m1))) = inr true /\
            exists t2,
              Downloader.tasks (snd (Downloader.engine e m1)) !! task_id = Some t2 /\
              Downloader.DownloadTask.error t2 = Some "Cancelled by user").
  { intros m1 t1 Hl1.
    destruct (progress_hook_downloading task_id d m1 t1 Hl1 Hst) as (t' & Hl' & Hs' & _).
    cbn [e Downloader.engine cancelled_while_downloading snd].
    rewrite cancel_task_run, Hl'. unfold cancellable. rewrite Hs'.
    cbn [Downloader.DownloadStatus_eqb orb outcome final fst snd].
    split; [reflexivity|]. eexists. split; [apply lookup_insert_eq | reflexivity]. }
  destruct (download_worker_run e task_id url format_type quality output_path
              output_format audio_quality m t Hl) as [_ Hfin].
  { intros m1 [t1 Hl1]. destruct (Hcancel m1 t1 Hl1) as (_ & t2 & -> & _). eauto. }
  cbv zeta in Hfin. cbn [e Downloader.makedirs] in Hfin. fold e in Hfin.
  rewrite (locked_write_run _ _ _ _ Hl) in *. cbn [final fst snd] in *.
  set (m1 := Downloader.set_tasks _ m) in *.
  destruct (Hcancel m1 _ (lookup_insert_eq _ _ _)) as (Hout & t2 & Hl2 & Herr).
  split; [exact Hout|].
  destruct Hfin as (t2' & Hl2' & Hfin). rewrite Hl2 in Hl2'. injection Hl2' as <-.
  eexists. split; [exact Hfin|].
  cbn [e Downloader.engine cancelled_while_downloading fst].
  repeat split. exact Herr.
Qed.

Lemma worker_completes_a_cancelled_download_witness :
  let e := {| Downloader.output_dir := "/home/u/Downloads/GravityDown";
              Downloader.makedirs := None;
              Downloader.pre_title := Some "A title";
              Downloader.engine :=
                cancelled_while_downloading "d0wn10ad" sample_progress "A title" "" |} in
  exists t',
    Downloader.tasks
      (final (Downloader._download_worker e "d0wn10ad" "https://example.org/v" "video"
                "best" None None None one_pending_download)) !! "d0wn10ad" = Some t' /\
    Downloader.DownloadTask.status t' = Downloader.COMPLETED /\
    Downloader.DownloadTask.error t' = Some "Cancelled by user".
Proof.
  cbv zeta.
  destruct (worker_completes_a_cancelled_download "/home/u/Downloads/GravityDown"
              (Some "A title") "d0wn10ad" "https://example.org/v" "video" "best"
              None None None sample_progress "A title" "" one_pending_download)
    as (_ & t' & Hl & Hs & _ & He).
  - eexists. apply lookup_singleton_eq.
  - reflexivity.
  - exists t'. split; [exact Hl|]. split; assumption.
Defined.

(** ** Progress values and the bound 100.0 *)

Lemma SFltb_finite_chain (x : spec_float) (ml mh : positive) (e : Z) :
  (ml <= mh)%positive ->
  SFltb x (S754_finite false ml e) = true ->
  SFltb (S754_finite false mh e) x = false.
Proof.
  intros Hm. unfold SFltb.
  destruct x as [s|s| |s m ex]; cbn; try easy; try (destruct s; easy).
  destruct s; [easy|].
  rewrite (Z.compare_antisym ex e).
  destruct (ex ?= e); cbn; try easy.
  change (Pos.compare_cont Eq m ml) with (m ?= ml)%positive.
  change (Pos.compare_cont Eq mh m) with (mh ?= m)%positive.
  destruct (m ?= ml)%positive eqn:H1; try easy. intros _.
  destruct (mh ?= m)%positive eqn:H2; try easy.
  change (m < ml)%positive in H1. change (mh < m)%positive in H2. lia.
Qed.

Lemma min_at_most (bound lo x : float) :
  (lo = 100%float /\ bound = 100%float) \/
  (lo = 99%float /\ (bound = 100%float \/ bound = 99%float)) ->
  at_most bound (Py.min lo x).
Proof.
  intros Hlo. unfold at_most, Py.min.
  destruct (PrimFloat.ltb x lo) eqn:Hx;
    [|now destruct Hlo as [[-> ->]|[-> [->| ->]]]].
  rewrite ltb_spec in Hx |- *.
  destruct Hlo as [[-> ->]|[-> [->| ->]]];
    (eapply SFltb_finite_chain; [|exact Hx]); vm_compute; congruence.
Qed.

(** ** The line handlers and the rest of the module state *)

Section WithinPairs.
Context {C W : Type} (R : C * W -> C * W -> Prop).
Hypothesis R_refl : forall s, R s s.

Lemma within_get_fst : within R (get_fst : M (C * W) C).
Proof. intros s. apply R_refl. Qed.

Lemma within_modify_fst (f : C -> C) :
  (forall c w, R (c, w) (f c, w)) -> within R (modify_fst f).
Proof. intros Hf [c w]. apply Hf. Qed.

Lemma within_pure {A} (m : M (C * W) A) :
  (forall s, final (m s) = s) -> within R m.
Proof. intros Hm s. rewrite Hm. apply R_refl. Qed.
End WithinPairs.

Lemma time_token_seconds_pure {S} (line : string) (s : S) :
  final (Main.time_token_seconds line s) = s.
Proof.
  unfold Main.time_token_seconds.
  destruct (nth_error _ 1) as [rest|]; [|reflexivity].
  destruct (Py.split_ws rest) as [|time_part ?]; [reflexivity|].
  destruct (Py.split ":" time_part) as [|h [|m [|sec [|]]]]; try reflexivity.
  unfold lift.
  repeat first
    [ progress run_binds
    | match goal with
      | |- context [match ?x with _ => _ end] => destruct x
      end ];
    reflexivity.
Qed.

Lemma bounded_progress_written_trans {T} bound (set_progress : float -> T -> T) o1 o2 o3 :
  (forall p q t, set_progress q (set_progress p t) = set_progress q t) ->
  bounded_progress_written bound set_progress o1 o2 ->
  bounded_progress_written bound set_progress o2 o3 ->
  bounded_progress_written bound set_progress o1 o3.
Proof.
  intros Hset [->|(p & Hp & ->)] [->|(q & Hq & ->)];
    [now left | right; eauto | right; eauto |].
  right. exists q. split; [exact Hq|].
  destruct o1; cbn; [now rewrite Hset | reflexivity].
Qed.

Section CompressionLineFrame.
Variable task_id : string.
Variable duration_ms : option Z.
(** The bound is 100.0, or 99.0 when the duration is not known. *)
Variable bound : float.
Hypothesis bound_fits :
  bound = 100%float \/
  (bound = 99%float /\ Main.RunCompression.duration_known duration_ms = None).
Let R := compression_line_frame bound task_id.

Lemma compression_line_frame_refl s : R s s.
Proof. repeat split. now left. Qed.

Lemma compression_line_frame_trans s1 s2 s3 : R s1 s2 -> R s2 s3 -> R s1 s3.
Proof.
  intros (Ha1 & Hb1 & Hc1 & Hd1 & He1) (Ha2 & Hb2 & Hc2 & Hd2 & He2).
  repeat split; try congruence.
  - intros k Hk. rewrite (Hd2 k Hk). now apply Hd1.
  - eapply bounded_progress_written_trans; [|exact He1|exact He2]. reflexivity.
Qed.

Lemma compression_line_frame_cells c c' g :
  Main.RunCompression.last_error_lines c' = Main.RunCompression.last_error_lines c ->
  R (c, g) (c', g).
Proof. intros H. repeat split; [exact H | now left]. Qed.

Lemma compression_store_within progress :
  at_most bound progress ->
  within R (Main.RunCompression.store_progress task_id progress).
Proof.
  intros Hp [c g].
  unfold Main.RunCompression.store_progress, Main.assign_compression,
    mbind, M_bind, on_snd, with_lock, modify, modify_fst.
  cbn [fst snd final]. repeat split.
  - intros k Hk. cbn. now rewrite lookup_alter_ne by congruence.
  - right. exists progress. split; [exact Hp|]. cbn. apply lookup_alter_eq.
Qed.

Lemma compression_next_run step s :
  (exists e, Main.RunCompression.next_progress duration_ms step s = (inl e, s, [])) \/
  (exists p, at_most bound p /\
             Main.RunCompression.next_progress duration_ms step s = (inr p, s, [])).
Proof.
  unfold Main.RunCompression.next_progress, get_fst, lift, mbind, mret, M_bind, M_ret.
  destruct (Main.RunCompression.duration_known duration_ms) as [d|].
  - destruct (Py.float_of_int d) as [e|fd]; [left; eauto|right].
    eexists. split; [|reflexivity]. apply min_at_most. left.
    destruct bound_fits as [->|[_ [=]]]. now split.
  - right. eexists. split; [|reflexivity]. apply min_at_most. right.
    destruct bound_fits as [->|[-> _]]; auto.
Qed.

Lemma compression_next_store_within step :
  within R (progress ← Main.RunCompression.next_progress duration_ms step;
            Main.RunCompression.store_progress task_id progress).
Proof.
  intros s. rewrite final_bind.
  destruct (compression_next_run step s) as [[e ->]|(p & Hp & ->)]; cbn [outcome final fst snd].
  - apply compression_line_frame_refl.
  - now apply compression_store_within.
Qed.

Lemma compression_continue_within :
  within R (c ← get_fst;
            Main.RunCompression.store_progress task_id
              (Py.min 99 (Main.RunCompression.last_progress c + Main.f0_3))%float).
Proof.
  intros s. rewrite final_bind. cbn [get_fst outcome final fst snd].
  apply compression_store_within, min_at_most. right.
  destruct bound_fits as [->|[-> _]]; auto.
Qed.

Ltac line_step :=
  lazymatch goal with
  | |- within _ (mbind _ (Main.RunCompression.next_progress _ _)) =>
      apply compression_next_store_within
  | |- within _ (mbind _ (Main.time_token_seconds _)) =>
      apply (within_bind _ compression_line_frame_trans);
      [apply (within_pure _ compression_line_frame_refl), time_token_seconds_pure | intros ?]
  | |- within _ (mbind (fun c => Main.RunCompression.store_progress _ _) get_fst) =>
      apply compression_continue_within
  | |- within _ (mbind _ _) =>
      apply (within_bind _ compression_line_frame_trans); [|intros ?]
  | |- within _ (try_except _ _) =>
      apply (within_try _ compression_line_frame_trans); [|intros ?]
  | |- within _ (mret _) => apply (within_ret _ compression_line_frame_refl)
  | |- within _ (raise _) => apply (within_raise _ compression_line_frame_refl)
  | |- within _ (lift _) => apply (within_lift _ compression_line_frame_refl)
  | |- within _ get_fst => apply (within_get_fst _ compression_line_frame_refl)
  | |- within _ (modify_fst _) =>
      apply within_modify_fst; intros; apply compression_line_frame_cells; reflexivity
  | |- within _ (if ?b then _ else _) => case b; intros
  | |- within _ (match ?x with _ => _ end) => case x; intros
  end.

Lemma compression_handle_line_within line :
  within R (Main.RunCompression.handle_line task_id duration_ms line).
Proof.
  unfold Main.RunCompression.handle_line, Main.RunCompression.time_token_update,
    Main.RunCompression.key_value_update, Main.unpack2, Main.float_or_return.
  repeat line_step.
Qed.
End CompressionLineFrame.

Section ConvertLineFrame.
Variable task_id : string.
Variable duration_ms : option Z.
Variable bound : float.
Hypothesis bound_fits :
  bound = 100%float \/
  (bound = 99%float /\ Main.RunConvert.duration_known duration_ms = None).
Let R := convert_line_frame bound task_id.

Lemma convert_line_frame_refl s : R s s.
Proof. repeat split. now left. Qed.

Lemma convert_line_frame_trans s1 s2 s3 : R s1 s2 -> R s2 s3 -> R s1 s3.
Proof.
  intros (Ha1 & Hb1 & Hc1 & Hd1 & He1) (Ha2 & Hb2 & Hc2 & Hd2 & He2).
  repeat split; try congruence.
  - intros k Hk. rewrite (Hd2 k Hk). now apply Hd1.
  - eapply bounded_progress_written_trans; [|exact He1|exact He2]. reflexivity.
Qed.

Lemma convert_line_frame_cells c c' g :
  Main.RunConvert.last_error_lines c' = Main.RunConvert.last_error_lines c ->
  R (c, g) (c', g).
Proof. intros H. repeat split; [exact H | now left]. Qed.

Lemma convert_store_within progress :
  at_most bound progress ->
  within R (Main.RunConvert.store_progress task_id progress).
Proof.
  intros Hp [c g].
  unfold Main.RunConvert.store_progress, Main.assign_convert,
    mbind, M_bind, on_snd, with_lock, modify, modify_fst.
  cbn [fst snd final]. repeat split.
  - intros k Hk. cbn. now rewrite lookup_alter_ne by congruence.
  - right. exists progress. split; [exact Hp|]. cbn. apply lookup_alter_eq.
Qed.

Lemma convert_next_run s :
  (exists e, Main.RunConvert.next_progress duration_ms s = (inl e, s, [])) \/
  (exists p, at_most bound p /\
             Main.RunConvert.next_progress duration_ms s = (inr p, s, [])).
Proof.
  unfold Main.RunConvert.next_progress, get_fst, lift, mbind, mret, M_bind, M_ret.
  destruct (Main.RunConvert.duration_known duration_ms) as [d|].
  - destruct (Py.float_of_int d) as [e|fd]; [left; eauto|right].
    eexists. split; [|reflexivity]. apply min_at_most. left.
    destruct bound_fits as [->|[_ [=]]]. now split.
  - right. eexists. split; [|reflexivity]. apply min_at_most. right.
    destruct bound_fits as [->|[-> _]]; auto.
Qed.

Lemma convert_next_store_within :
  within R (progress ← Main.RunConvert.next_progress duration_ms;
            Main.RunConvert.store_progress task_id progress).
Proof.
  intros s. rewrite final_bind.
  destruct (convert_next_run s) as [[e ->]|(p & Hp & ->)]; cbn [outcome final fst snd].
  - apply convert_line_frame_refl.
  - now apply convert_store_within.
Qed.

Ltac convert_line_step :=
  lazymatch goal with
  | |- within _ (mbind _ (Main.RunConvert.next_progress _)) =>
      apply convert_next_store_within
  | |- within _ (mbind _ (Main.time_token_seconds _)) =>
      apply (within_bind _ convert_line_frame_trans);
      [apply (within_pure _ convert_line_frame_refl), time_token_seconds_pure | intros ?]
  | |- within _ (mbind _ _) =>
      apply (within_bind _ convert_line_frame_trans); [|intros ?]
  | |- within _ (try_except _ _) =>
      apply (within_try _ convert_line_frame_trans); [|intros ?]
  | |- within _ (mret _) => apply (within_ret _ convert_line_frame_refl)
  | |- within _ (raise _) => apply (within_raise _ convert_line_frame_refl)
  | |- within _ (lift _) => apply (within_lift _ convert_line_frame_refl)
  | |- within _ get_fst => apply (within_get_fst _ convert_line_frame_refl)
  | |- within _ (modify_fst _) =>
      apply within_modify_fst; intros; apply convert_line_frame_cells; reflexivity
  | |- within _ (if ?b then _ else _) => case b; intros
  | |- within _ (match ?x with _ => _ end) => case x; intros
  end.

Lemma convert_handle_line_within line :
  within R (Main.RunConvert.handle_line task_id duration_ms line).
Proof.
  unfold Main.RunConvert.handle_line, Main.RunConvert.time_token_update,
    Main.RunConvert.key_value_update, Main.unpack2, Main.float_or_return.
  repeat convert_line_step.
Qed.
End ConvertLineFrame.

(** ** Computations that return *)

Section Returns.
Context {S : Type}.

Lemma returns_ret {A} (a : A) : returns (mret a : M S A).
Proof. intros s. now exists a. Qed.

Lemma returns_lift {A} (a : A) : returns (lift (inr a) : M S A).
Proof. intros s. now exists a. Qed.

Lemma returns_bind {A B} (m : M S A) (k : A -> M S B) :
  returns m -> (forall a, returns (k a)) -> returns (m ≫= k).
Proof.
  intros Hm Hk s. rewrite outcome_bind.
  destruct (Hm s) as [a ->]. apply Hk.
Qed.

Lemma returns_try {A} (m : M S A) (h : Py.exn -> M S A) :
  (forall e, returns (h e)) -> returns (try_except m h).
Proof.
  intros Hh s. unfold try_except.
  destruct (m s) as [[[e|a] s'] t]; [|now exists a].
  destruct (Hh e s') as [a Ha]. exists a.
  destruct (h e s') as [[r s''] t']. exact Ha.
Qed.

Lemma returns_float_or_return (value : string) (k : float -> M S unit) :
  (forall raw_value, returns (k raw_value)) ->
  returns (Main.float_or_return value k).
Proof.
  intros Hk. unfold Main.float_or_return.
  destruct (Py.float value) as [e|raw_value] eqn:Hf; [|apply Hk].
  rewrite (float_raises _ _ Hf). apply returns_ret.
Qed.
End Returns.

Lemma returns_get_fst {C W} : returns (get_fst : M (C * W) C).
Proof. intros s. now exists (fst s). Qed.

Lemma returns_modify_fst {C W} (f : C -> C) : returns (modify_fst f : M (C * W) unit).
Proof. intros s. now exists tt. Qed.

Section CompressionReturns.
Variable task_id : string.
Variable duration_ms : option Z.
Hypothesis duration_in_range : in_float_range duration_ms.

Lemma compression_store_returns progress :
  returns (Main.RunCompression.store_progress task_id progress).
Proof. intros s. now exists tt. Qed.

Lemma compression_next_returns step :
  returns (Main.RunCompression.next_progress duration_ms step).
Proof.
  unfold Main.RunCompression.next_progress.
  apply returns_bind; [apply returns_get_fst|]. intros c.
  destruct (Main.RunCompression.duration_known duration_ms) as [d|] eqn:Hd;
    [|apply returns_ret].
  destruct (duration_in_range d (compression_duration_known_some _ d Hd)) as [fd ->].
  apply returns_bind; [apply returns_lift | intros; apply returns_ret].
Qed.

Ltac returns_step :=
  lazymatch goal with
  | |- returns (Main.float_or_return _ _) => apply returns_float_or_return; intros ?
  | |- returns (Main.RunCompression.next_progress _ _) => apply compression_next_returns
  | |- returns (Main.RunCompression.store_progress _ _) => apply compression_store_returns
  | |- returns (mbind _ _) => apply returns_bind; [|intros ?]
  | |- returns (try_except _ _) => apply returns_try; intros ?
  | |- returns (mret _) => apply returns_ret
  | |- returns get_fst => apply returns_get_fst
  | |- returns (modify_fst _) => apply returns_modify_fst
  | |- returns (if ?b then _ else _) => destruct b
  | |- returns (match ?x with _ => _ end) => destruct x
  end.

Lemma compression_handle_line_returns line :
  returns (Main.RunCompression.handle_line task_id duration_ms line).
Proof.
  unfold Main.RunCompression.handle_line, Main.RunCompression.time_token_update,
    Main.RunCompression.key_value_update.
  apply returns_bind.
  - destruct (Py.contains "time=" line); repeat returns_step.
  - intros _. destruct (Py.contains "=" line) eqn:He; cbn [negb].
    + destruct (split_eq_two line He) as (key & value & ->).
      unfold Main.unpack2. repeat returns_step.
    + repeat returns_step.
Qed.
End CompressionReturns.

Section ConvertReturns.
Variable task_id : string.
Variable duration_ms : option Z.
Hypothesis duration_in_range : in_float_range duration_ms.

Lemma convert_store_returns progress :
  returns (Main.RunConvert.store_progress task_id progress).
Proof. intros s. now exists tt. Qed.

Lemma convert_next_returns :
  returns (Main.RunConvert.next_progress duration_ms).
Proof.
  unfold Main.RunConvert.next_progress.
  apply returns_bind; [apply returns_get_fst|]. intros c.
  destruct (Main.RunConvert.duration_known duration_ms) as [d|] eqn:Hd;
    [|apply returns_ret].
  destruct (duration_in_range d (convert_duration_known_some _ d Hd)) as [fd ->].
  apply returns_bind; [apply returns_lift | intros; apply returns_ret].
Qed.

Ltac convert_returns_step :=
  lazymatch goal with
  | |- returns (Main.float_or_return _ _) => apply returns_float_or_return; intros ?
  | |- returns (Main.RunConvert.next_progress _) => apply convert_next_returns
  | |- returns (Main.RunConvert.store_progress _ _) => apply convert_store_returns
  | |- returns (mbind _ _) => apply returns_bind; [|intros ?]
  | |- returns (try_except _ _) => apply returns_try; intros ?
  | |- returns (mret _) => apply returns_ret
  | |- returns get_fst => apply returns_get_fst
  | |- returns (modify_fst _) => apply returns_modify_fst
  | |- returns (if ?b then _ else _) => destruct b
  | |- returns (match ?x with _ => _ end) => destruct x
  end.

Lemma convert_handle_line_returns line :
  returns (Main.RunConvert.handle_line task_id duration_ms line).
Proof.
  unfold Main.RunConvert.handle_line, Main.RunConvert.time_token_update,
    Main.RunConvert.key_value_update.
  apply returns_bind.
  - destruct (Py.contains "time=" line); repeat convert_returns_step.
  - intros _. destruct (Py.contains "=" line) eqn:He; cbn [negb].
    + destruct (split_eq_two line He) as (key & value & ->).
      unfold Main.unpack2. cbv zeta. repeat convert_returns_step.
    + repeat convert_returns_step.
Qed.
End ConvertReturns.


(** X8. Whatever the line and the duration, [handle_line] of the
    compression runner leaves the download manager, the conversion
    registry and every other compression task as they were, and on its
    own task writes nothing but the progress; [handle_line] of the
    conversion runner does the same on its side. *)
Theorem handle_line_writes_progress_only (duration_ms : option Z) (task_id line : string)
    (c : Main.RunCompression.cells) (c' : Main.RunConvert.cells) (g : Main.globals) :
  let g1 := snd (final (Main.RunCompression.handle_line task_id duration_ms line (c, g))) in
  let g2 := snd (final (Main.RunConvert.handle_line task_id duration_ms line (c', g))) in
  (Main.manager g1 = Main.manager g /\
   Main.convert_tasks g1 = Main.convert_tasks g /\
   (forall k, k <> task_id ->
      Main.compression_tasks g1 !! k = Main.compression_tasks g !! k) /\
   progress_written Main.CompressionTask.set_progress
     (Main.compression_tasks g !! task_id) (Main.compression_tasks g1 !! task_id)) /\
  (Main.manager g2 = Main.manager g /\
   Main.compression_tasks g2 = Main.compression_tasks g /\
   (forall k, k <> task_id ->
      Main.convert_tasks g2 !! k = Main.convert_tasks g !! k) /\
   progress_written Main.ConvertTask.set_progress
     (Main.convert_tasks g !! task_id) (Main.convert_tasks g2 !! task_id)).
Proof.
  cbv zeta. split.
  - destruct (compression_handle_line_within task_id duration_ms 100 (or_introl eq_refl)
                line (c, g))
      as (_ & Hm & Hc & Ho & Hp).
    repeat split; try assumption.
    destruct Hp as [->|(p & _ & ->)]; [now left | right; eauto].
  - destruct (convert_handle_line_within task_id duration_ms 100 (or_introl eq_refl)
                line (c', g))
      as (_ & Hm & Hc & Ho & Hp).
    repeat split; try assumption.
    destruct Hp as [->|(p & _ & ->)]; [now left | right; eauto].
Qed.

(** X9. The progress that [handle_line] leaves on the task of either
    runner is the one it found or a value that is not above 100.0. *)
Theorem handle_line_progress_at_most_100 (duration_ms : option Z) (task_id line : string)
    (c : Main.RunCompression.cells) (c' : Main.RunConvert.cells) (g : Main.globals) :
  let g1 := snd (final (Main.RunCompression.handle_line task_id duration_ms line (c, g))) in
  let g2 := snd (final (Main.RunConvert.handle_line task_id duration_ms line (c', g))) in
  (forall t', Main.compression_tasks g1 !! task_id = Some t' ->
     Main.compression_tasks g !! task_id = Some t' \/
     at_most 100 (Main.CompressionTask.progress t')) /\
  (forall t', Main.convert_tasks g2 !! task_id = Some t' ->
     Main.convert_tasks g !! task_id = Some t' \/
     at_most 100 (Main.ConvertTask.progress t')).
Proof.
  cbv zeta. split.
  - destruct (compression_handle_line_within task_id duration_ms 100 (or_introl eq_refl)
                line (c, g))
      as (_ & _ & _ & _ & Hp).
    intros t' Ht'. destruct Hp as [Hp|(p & Hb & Hp)]; rewrite Hp in Ht'; cbn [snd] in Ht'; [now left|right].
    destruct (Main.compression_tasks g !! task_id); [|discriminate].
    cbn in Ht'. injection Ht' as <-. exact Hb.
  - destruct (convert_handle_line_within task_id duration_ms 100 (or_introl eq_refl)
                line (c', g))
      as (_ & _ & _ & _ & Hp).
    intros t' Ht'. destruct Hp as [Hp|(p & Hb & Hp)]; rewrite Hp in Ht'; cbn [snd] in Ht'; [now left|right].
    destruct (Main.convert_tasks g !! task_id); [|discriminate].
    cbn in Ht'. injection Ht' as <-. exact Hb.
Qed.

(** X10. When the duration of the input is not known, because the
    probe gave none or gave zero, the progress that [handle_line] of
    either runner leaves on its task is the one it found or a value
    that is not above 99.0. *)
Theorem unknown_duration_progress_at_most_99 (task_id : string) (duration_ms : option Z)
    (line : string) (c : Main.RunCompression.cells) (c' : Main.RunConvert.cells)
    (g : Main.globals) :
  Main.RunCompression.duration_known duration_ms = None ->
  let g1 :=
    snd (final (Main.RunCompression.handle_line task_id duration_ms line (c, g))) in
  let g2 := snd (final (Main.RunConvert.handle_line task_id duration_ms line (c', g))) in
  (forall t', Main.compression_tasks g1 !! task_id = Some t' ->
     Main.compression_tasks g !! task_id = Some t' \/
     at_most 99 (Main.CompressionTask.progress t')) /\
  (forall t', Main.convert_tasks g2 !! task_id = Some t' ->
     Main.convert_tasks g !! task_id = Some t' \/
     at_most 99 (Main.ConvertTask.progress t')).
Proof.
  intros Hd. cbv zeta. split.
  - destruct (compression_handle_line_within task_id duration_ms 99
                (or_intror (conj eq_refl Hd)) line (c, g))
      as (_ & _ & _ & _ & Hp).
    intros t' Ht'.
    destruct Hp as [Hp|(p & Hb & Hp)]; rewrite Hp in Ht'; cbn [snd] in Ht'; [now left|right].
    destruct (Main.compression_tasks g !! task_id); [|discriminate].
    cbn in Ht'. injection Ht' as <-. exact Hb.
  - destruct (convert_handle_line_within task_id duration_ms 99
                (or_intror (conj eq_refl Hd)) line (c', g))
      as (_ & _ & _ & _ & Hp).
    intros t' Ht'.
    destruct Hp as [Hp|(p & Hb & Hp)]; rewrite Hp in Ht'; cbn [snd] in Ht'; [now left|right].
    destruct (Main.convert_tasks g !! task_id); [|discriminate].
    cbn in Ht'. injection Ht' as <-. exact Hb.
Qed.

Lemma unknown_duration_progress_at_most_99_witness :
  let g := one_compress (compress_task Main.COMPRESSING None (Some 7%nat)) in
  let g1 :=
    snd (final (Main.RunCompression.handle_line "c0ffee01" (Some 0) "progress=continue"
                  (Main.RunCompression.initial, g))) in
  let g2 :=
    snd (final (Main.RunConvert.handle_line "c0ffee01" (Some 0) "progress=continue"
                  (Main.RunConvert.initial, g))) in
  (forall t', Main.compression_tasks g1 !! "c0ffee01" = Some t' ->
     Main.compression_tasks g !! "c0ffee01" = Some t' \/
     at_most 99 (Main.CompressionTask.progress t')) /\
  (forall t', Main.convert_tasks g2 !! "c0ffee01" = Some t' ->
     Main.convert_tasks g !! "c0ffee01" = Some t' \/
     at_most 99 (Main.ConvertTask.progress t')).
Proof.
  exact (unknown_duration_progress_at_most_99 "c0ffee01" (Some 0) "progress=continue"
           Main.RunCompression.initial Main.RunConvert.initial
           (one_compress (compress_task Main.COMPRESSING None (Some 7%nat))) eq_refl).
Defined.

(** ** The runners from start to end *)

Lemma outcome_with_lock {S A} (l : lock) (m : M S A) s :
  outcome (with_lock l m s) = outcome (m s).
Proof. unfold with_lock. now destruct (m s) as [[r s'] t]. Qed.

Lemma final_with_lock {S A} (l : lock) (m : M S A) s :
  final (with_lock l m s) = final (m s).
Proof. unfold with_lock. now destruct (m s) as [[r s'] t]. Qed.

Lemma outcome_with_cells {C W A} (c : C) (m : M (C * W) A) w :
  outcome (with_cells c m w) = outcome (m (c, w)).
Proof. unfold with_cells. now destruct (m (c, w)) as [[r s'] t]. Qed.

Lemma final_with_cells {C W A} (c : C) (m : M (C * W) A) w :
  final (with_cells c m w) = snd (final (m (c, w))).
Proof. unfold with_cells. now destruct (m (c, w)) as [[r s'] t]. Qed.

Lemma try_except_returned {S A} (m : M S A) (h : Py.exn -> M S A) s a :
  outcome (m s) = inr a -> try_except m h s = m s.
Proof.
  unfold try_except. destruct (m s) as [[[e|a'] s'] t]; [discriminate | reflexivity].
Qed.

Ltac run_steps :=
  repeat (rewrite ?outcome_bind, ?final_bind, ?outcome_with_lock, ?final_with_lock,
            ?outcome_with_cells, ?final_with_cells, ?ret_run, ?get_run;
          cbn [outcome final fst snd modify emit lift]).

Section CompressionStreams.
Variable task_id : string.
Variable duration_ms : option Z.
Hypothesis duration_in_range : in_float_range duration_ms.
Let R := compression_stream_frame task_id.

Lemma compression_stream_frame_line s s' :
  compression_line_frame 100 task_id s s' -> R [] s s'.
Proof. intros (Ha & H). split; [now rewrite app_nil_r | exact H]. Qed.

Lemma compression_stream_frame_trans e1 e2 s1 s2 s3 :
  R e1 s1 s2 -> R e2 s2 s3 -> R (e1 ++ e2) s1 s3.
Proof.
  intros (Ha1 & Hb1 & Hc1 & Hd1 & He1) (Ha2 & Hb2 & Hc2 & Hd2 & He2).
  repeat split; try congruence.
  - now rewrite Ha2, Ha1, app_assoc.
  - intros k Hk. rewrite (Hd2 k Hk). now apply Hd1.
  - eapply bounded_progress_written_trans; [|exact He1|exact He2]. reflexivity.
Qed.

Lemma compression_read_line_run from_stderr raw s :
  let r := Main.RunCompression.read_line task_id duration_ms from_stderr raw s in
  outcome r = inr tt /\
  R (if from_stderr : bool then [Py.strip raw] else []) s (final r).
Proof.
  cbv zeta. unfold Main.RunCompression.read_line. destruct from_stderr.
  - rewrite outcome_bind, final_bind. destruct s as [c g].
    cbn [modify_fst outcome final fst snd].
    set (s1 := (Main.RunCompression.set_last_error_lines _ c, g)).
    split.
    + destruct (compression_handle_line_returns task_id duration_ms duration_in_range
                  (Py.strip raw) s1) as [[] H]. exact H.
    + apply (compression_stream_frame_trans [Py.strip raw] [] (c, g) s1).
      * repeat split. now left.
      * apply compression_stream_frame_line, compression_handle_line_within. now left.
  - split.
    + destruct (compression_handle_line_returns task_id duration_ms duration_in_range
                  raw s) as [[] H]. exact H.
    + apply compression_stream_frame_line, compression_handle_line_within. now left.
Qed.

Lemma compression_read_streams_run lines : forall s,
  let r := Main.RunCompression.read_streams task_id duration_ms lines true true s in
  outcome r = inr tt /\ R (stderr_lines lines) s (final r).
Proof.
  induction lines as [|[from_stderr raw] rest IH]; intros s; cbv zeta.
  - split; [reflexivity|]. repeat split; [now rewrite app_nil_r | now left].
  - destruct (compression_read_line_run from_stderr raw s) as [Hout Hrel].
    cbv zeta in Hout, Hrel.
    assert (Hstep :
      Main.RunCompression.read_streams task_id duration_ms ((from_stderr, raw) :: rest)
        true true
      = (alive ← try_except
                   (Main.RunCompression.read_line task_id duration_ms from_stderr raw;;
                    mret true)
                   (fun _ => mret false);
         if alive : bool
         then Main.RunCompression.read_streams task_id duration_ms rest true true
         else if from_stderr
              then Main.RunCompression.read_streams task_id duration_ms rest true false
              else Main.RunCompression.read_streams task_id duration_ms rest false true))
      by now destruct from_stderr.
    rewrite Hstep. clear Hstep.
    assert (Hline :
      outcome ((Main.RunCompression.read_line task_id duration_ms from_stderr raw;;
                mret true) s) = inr true /\
      final ((Main.RunCompression.read_line task_id duration_ms from_stderr raw;;
              mret true) s)
      = final (Main.RunCompression.read_line task_id duration_ms from_stderr raw s)).
    { rewrite outcome_bind, final_bind, Hout. split; reflexivity. }
    destruct Hline as [Hout' Hfin'].
    rewrite outcome_bind, final_bind.
    rewrite (try_except_returned _ _ _ _ Hout'), Hout', Hfin'.
    destruct (IH (final (Main.RunCompression.read_line task_id duration_ms
                           from_stderr raw s))) as [Hout2 Hrel2].
    cbv zeta in Hout2, Hrel2. split; [exact Hout2|].
    replace (stderr_lines ((from_stderr, raw) :: rest))
      with ((if from_stderr then [Py.strip raw] else []) ++ stderr_lines rest)
      by now destruct from_stderr.
    eapply compression_stream_frame_trans; [exact Hrel | exact Hrel2].
Qed.
End CompressionStreams.



Section ConvertStreams.
Variable task_id : string.
Variable duration_ms : option Z.
Hypothesis duration_in_range : in_float_range duration_ms.
Let R := convert_stream_frame task_id.

Lemma convert_stream_frame_line s s' :
  convert_line_frame 100 task_id s s' -> R [] s s'.
Proof. intros (Ha & H). split; [now rewrite app_nil_r | exact H]. Qed.

Lemma convert_stream_frame_trans e1 e2 s1 s2 s3 :
  R e1 s1 s2 -> R e2 s2 s3 -> R (e1 ++ e2) s1 s3.
Proof.
  intros (Ha1 & Hb1 & Hc1 & Hd1 & He1) (Ha2 & Hb2 & Hc2 & Hd2 & He2).
  repeat split; try congruence.
  - now rewrite Ha2, Ha1, app_assoc.
  - intros k Hk. rewrite (Hd2 k Hk). now apply Hd1.
  - eapply bounded_progress_written_trans; [|exact He1|exact He2]. reflexivity.
Qed.

Lemma convert_read_line_run from_stderr raw s :
  let r := Main.RunConvert.read_line task_id duration_ms from_stderr raw s in
  outcome r = inr tt /\
  R (if from_stderr : bool then [Py.strip raw] else []) s (final r).
Proof.
  cbv zeta. unfold Main.RunConvert.read_line. destruct from_stderr.
  - rewrite outcome_bind, final_bind. destruct s as [c g].
    cbn [modify_fst outcome final fst snd].
    set (s1 := (Main.RunConvert.set_last_error_lines _ c, g)).
    split.
    + destruct (convert_handle_line_returns task_id duration_ms duration_in_range
                  (Py.strip raw) s1) as [[] H]. exact H.
    + apply (convert_stream_frame_trans [Py.strip raw] [] (c, g) s1).
      * repeat split. now left.
      * apply convert_stream_frame_line, convert_handle_line_within. now left.
  - split.
    + destruct (convert_handle_line_returns task_id duration_ms duration_in_range
                  raw s) as [[] H]. exact H.
    + apply convert_stream_frame_line, convert_handle_line_within. now left.
Qed.

Lemma convert_read_streams_run lines : forall s,
  let r := Main.RunConvert.read_streams task_id duration_ms lines true true s in
  outcome r = inr tt /\ R (stderr_lines lines) s (final r).
Proof.
  induction lines as [|[from_stderr raw] rest IH]; intros s; cbv zeta.
  - split; [reflexivity|]. repeat split; [now rewrite app_nil_r | now left].
  - destruct (convert_read_line_run from_stderr raw s) as [Hout Hrel].
    cbv zeta in Hout, Hrel.
    assert (Hstep :
      Main.RunConvert.read_streams task_id duration_ms ((from_stderr, raw) :: rest)
        true true
      = (alive ← try_except
                   (Main.RunConvert.read_line task_id duration_ms from_stderr raw;;
                    mret true)
                   (fun _ => mret false);
         if alive : bool
         then Main.RunConvert.read_streams task_id duration_ms rest true true
         else if from_stderr
              then Main.RunConvert.read_streams task_id duration_ms rest true false
              else Main.RunConvert.read_streams task_id duration_ms rest false true))
      by now destruct from_stderr.
    rewrite Hstep. clear Hstep.
    assert (Hline :
      outcome ((Main.RunConvert.read_line task_id duration_ms from_stderr raw;;
                mret true) s) = inr true /\
      final ((Main.RunConvert.read_line task_id duration_ms from_stderr raw;;
              mret true) s)
      = final (Main.RunConvert.read_line task_id duration_ms from_stderr raw s)).
    { rewrite outcome_bind, final_bind, Hout. split; reflexivity. }
    destruct Hline as [Hout' Hfin'].
    rewrite outcome_bind, final_bind.
    rewrite (try_except_returned _ _ _ _ Hout'), Hout', Hfin'.
    destruct (IH (final (Main.RunConvert.read_line task_id duration_ms
                           from_stderr raw s))) as [Hout2 Hrel2].
    cbv zeta in Hout2, Hrel2. split; [exact Hout2|].
    replace (stderr_lines ((from_stderr, raw) :: rest))
      with ((if from_stderr then [Py.strip raw] else []) ++ stderr_lines rest)
      by now destruct from_stderr.
    eapply convert_stream_frame_trans; [exact Hrel | exact Hrel2].
Qed.
End ConvertStreams.



(** ** The exit code, the task and the lines that come late *)






(** ** Failures of the setup and later submissions *)

(** X13. When [subprocess.Popen] raises, the compression runner raises
    the same exception after it has moved the task to COMPRESSING:
    the task stays COMPRESSING, and every later submission for an
    existing file is rejected with 409. *)
Theorem spawn_failure_blocks_admission (e : Main.RunCompression.env)
    (task_id input_path output_dir output_format preset ffmpeg : string)
    (exn : Py.exn) (g : Main.globals) (t : Main.CompressionTask.t)
    (_expand_path : string -> string) (isfile : string -> bool)
    (new_id : string) (request : Main.CompressionRequest) :
  Main.RunCompression.ffmpeg e = Some ffmpeg ->
  Main.RunCompression.makedirs e = inr tt ->
  Main.RunCompression.popen e = inl exn ->
  Main.compression_tasks g !! task_id = Some t ->
  isfile (_expand_path (Main.input_path request)) = true ->
  let r := Main.RunCompression._run_compression e task_id input_path output_dir
             output_format preset g in
  outcome r = inl exn /\
  (exists t', Main.compression_tasks (final r) !! task_id = Some t' /\
              Main.CompressionTask.status t' = Main.COMPRESSING /\
              Main.CompressionTask.process t' = Main.CompressionTask.process t) /\
  outcome (Main.start_compression _expand_path isfile new_id request (final r))
    = inl (Py.HTTPException 409 "Ya hay una compresion en curso").
Proof.
  intros Hff Hmk Hpo Hl Hfile. cbv zeta.
  unfold Main.RunCompression._run_compression, Main.RunCompression.mark_compressing,
    Main.assign_compression.
  rewrite Hff, Hmk, Hpo. run_steps.
  set (g2 := Main.set_compression_tasks _ _).
  assert (Hl2 : exists t', Main.compression_tasks g2 !! task_id = Some t' /\
                  Main.CompressionTask.status t' = Main.COMPRESSING /\
                  Main.CompressionTask.process t' = Main.CompressionTask.process t).
  { eexists. split; [|split].
    - unfold g2. cbn [Main.compression_tasks Main.set_compression_tasks].
      rewrite !lookup_alter_eq, Hl. reflexivity.
    - reflexivity.
    - reflexivity. }
  split; [reflexivity|]. split; [exact Hl2|].
  destruct Hl2 as (t' & Hl2 & Hs2 & _).
  pose proof (start_compression_alone _expand_path isfile new_id request g2 Hfile) as Hadm.
  cbv zeta in Hadm.
  destruct (existsb _ _) eqn:Hex; [exact (proj1 Hadm)|].
  assert (Hex' : existsb
            (fun kv => Main.CompressionStatus_eqb
                         (Main.CompressionTask.status (snd kv)) Main.COMPRESSING)
            (map_to_list (Main.compression_tasks g2)) = true)
    by (apply compressing_exists; eauto).
  congruence.
Qed.

Lemma spawn_failure_blocks_admission_witness :
  let r := Main.RunCompression._run_compression failing_spawn_env "c0ffee01"
             "/videos/clip.mov" "/videos" "mp4" "high"
             (one_compress (compress_task Main.PENDING None None)) in
  outcome r = inl Py.OSError /\
  outcome (Main.start_compression (fun p => p) (fun _ => true) "c0ffee03" sample_request
             (final r))
  = inl (Py.HTTPException 409 "Ya hay una compresion en curso").
Proof.
  cbv zeta.
  destruct (spawn_failure_blocks_admission failing_spawn_env "c0ffee01" "/videos/clip.mov"
              "/videos" "mp4" "high" "/usr/bin/ffmpeg" Py.OSError
              (one_compress (compress_task Main.PENDING None None))
              (compress_task Main.PENDING None None)
              (fun p => p) (fun _ => true) "c0ffee03" sample_request
              eq_refl eq_refl eq_refl eq_refl eq_refl)
    as (Hout & _ & Hadm).
  split; [exact Hout | exact Hadm].
Defined.

(** ** Cancellation and the rest of a run *)

(** X14. Once a compression or a conversion in progress is cancelled,
    its task stays in the error status with the error text
    "Cancelled by user", whatever lines the runner still handles and
    whatever exit code it then finds: only the progress still moves. *)
Theorem cancelled_job_stays_cancelled :
  (forall wait_expires task_id g task p probe lines returncode c,
      Main.compression_tasks g !! task_id = Some task ->
      Main.CompressionTask.status task = Main.COMPRESSING ->
      Main.CompressionTask.process task = Some p ->
      let g1 := final (Main.cancel_compression wait_expires task_id g) in
      let duration_ms := Main._get_duration_ms probe in
      let s' :=
        final ((Main.RunCompression.read_streams task_id duration_ms lines true true;;
                Main.RunCompression.terminal_write task_id returncode) (c, g1)) in
      exists t',
        Main.compression_tasks (snd s') !! task_id = Some t' /\
        Main.CompressionTask.status t' = Main.ERROR /\
        Main.CompressionTask.error t' = Some "Cancelled by user")
  /\ (forall wait_expires task_id g task p probe lines returncode c,
         Main.convert_tasks g !! task_id = Some task ->
         Main.ConvertTask.status task = "processing" ->
         Main.ConvertTask.process task = Some p ->
         let g1 := final (Main.cancel_convert wait_expires task_id g) in
         let duration_ms := Main._get_duration_ms probe in
         let s' :=
           final ((Main.RunConvert.read_streams task_id duration_ms lines true true;;
                   Main.RunConvert.terminal_write task_id returncode) (c, g1)) in
         exists t',
           Main.convert_tasks (snd s') !! task_id = Some t' /\
           Main.ConvertTask.status t' = "error" /\
           Main.ConvertTask.error t' = Some "Cancelled by user").
Proof.
  split; intros wait_expires task_id g task p probe lines returncode c Hl Hs Hp;
    cbv zeta.
  - rewrite (cancel_compression_run _ _ _ _ _ Hl Hs Hp). cbn [final fst snd].
    set (g1 := Main.set_compression_tasks _ g).
    rewrite final_bind.
    destruct (compression_read_streams_run task_id _
                (get_duration_in_float_range probe) lines (c, g1))
      as [Hout (_ & _ & _ & _ & Hw)].
    cbv zeta in Hout, Hw. rewrite Hout.
    destruct (final (Main.RunCompression.read_streams _ _ _ _ _ _)) as [c2 g2].
    cbn [fst snd] in Hw.
    unfold g1 in Hw at 1. cbn [Main.compression_tasks Main.set_compression_tasks] in Hw.
    rewrite lookup_insert_eq in Hw.
    assert (Hl2 : exists t2, Main.compression_tasks g2 !! task_id = Some t2 /\
              Main.CompressionTask.status t2 = Main.ERROR /\
              Main.CompressionTask.error t2 = Some Main.cancelled).
    { destruct Hw as [->|(q & _ & ->)]; eexists; (split; [reflexivity|]); now split. }
    destruct Hl2 as (t2 & Hl2 & Hs2 & He2).
    rewrite compression_terminal_write_run, Hl2.
    destruct (decide _) as [_|Hn]; [|contradiction].
    cbn [final fst snd]. eauto.
  - rewrite (cancel_convert_run _ _ _ _ _ Hl Hs Hp). cbn [final fst snd].
    set (g1 := Main.set_convert_tasks _ g).
    rewrite final_bind.
    destruct (convert_read_streams_run task_id _
                (get_duration_in_float_range probe) lines (c, g1))
      as [Hout (_ & _ & _ & _ & Hw)].
    cbv zeta in Hout, Hw. rewrite Hout.
    destruct (final (Main.RunConvert.read_streams _ _ _ _ _ _)) as [c2 g2].
    cbn [fst snd] in Hw.
    unfold g1 in Hw at 1. cbn [Main.convert_tasks Main.set_convert_tasks] in Hw.
    rewrite lookup_insert_eq in Hw.
    assert (Hl2 : exists t2, Main.convert_tasks g2 !! task_id = Some t2 /\
              Main.ConvertTask.status t2 = "error" /\
              Main.ConvertTask.error t2 = Some Main.cancelled).
    { destruct Hw as [->|(q & _ & ->)]; eexists; (split; [reflexivity|]); now split. }
    destruct Hl2 as (t2 & Hl2 & Hs2 & He2).
    rewrite convert_terminal_write_run, Hl2.
    destruct (decide _) as [_|Hn]; [|contradiction].
    cbn [final fst snd]. eauto.
Qed.

Lemma cancelled_job_stays_cancelled_witness :
  (exists t',
      Main.compression_tasks
        (snd (final
           ((Main.RunCompression.read_streams "c0ffee01" (Main._get_duration_ms (Some "10.0"))
               [(false, "out_time_ms=5000000")] true true;;
             Main.RunCompression.terminal_write "c0ffee01" 0)
              (Main.RunCompression.initial,
               final (Main.cancel_compression false "c0ffee01"
                        (one_compress (compress_task Main.COMPRESSING None (Some 7%nat))))))))
        !! "c0ffee01" = Some t' /\
      Main.CompressionTask.status t' = Main.ERROR /\
      Main.CompressionTask.error t' = Some "Cancelled by user")
  /\ (exists t',
      Main.convert_tasks
        (snd (final
           ((Main.RunConvert.read_streams "c0ffee02" (Main._get_duration_ms (Some "10.0"))
               [(false, "out_time_ms=5000000")] true true;;
             Main.RunConvert.terminal_write "c0ffee02" 0)
              (Main.RunConvert.initial,
               final (Main.cancel_convert false "c0ffee02"
                        (one_convert (convert_task "processing" None (Some 7%nat))))))))
        !! "c0ffee02" = Some t' /\
      Main.ConvertTask.status t' = "error" /\
      Main.ConvertTask.error t' = Some "Cancelled by user").
Proof.
  split.
  - exact (proj1 cancelled_job_stays_cancelled false "c0ffee01"
             (one_compress (compress_task Main.COMPRESSING None (Some 7%nat)))
             (compress_task Main.COMPRESSING None (Some 7%nat)) 7%nat (Some "10.0")
             [(false, "out_time_ms=5000000")] 0 Main.RunCompression.initial
             eq_refl eq_refl eq_refl).
  - exact (proj2 cancelled_job_stays_cancelled false "c0ffee02"
             (one_convert (convert_task "processing" None (Some 7%nat)))
             (convert_task "processing" None (Some 7%nat)) 7%nat (Some "10.0")
             [(false, "out_time_ms=5000000")] 0 Main.RunConvert.initial
             eq_refl eq_refl eq_refl).
Defined.

(** X15. Both cancel endpoints return exactly for a task that is
    known and in progress.  For an unknown identifier they raise 404
    and for any other status 400; in both cases the registries are as
    they were, the lock has been released and no process was touched.
    So a second cancellation of the same task raises 400. *)
Theorem cancel_rejections (wait_expires : bool) (task_id : string) (g : Main.globals) :
  cancel_contract (fun g => Main.compression_tasks g !! task_id)
    (fun task =>
       Main.CompressionStatus_eqb (Main.CompressionTask.status task) Main.COMPRESSING)
    compression_lock (Main.cancel_compression wait_expires task_id) g /\
  cancel_contract (fun g => Main.convert_tasks g !! task_id)
    (fun task => String.eqb (Main.ConvertTask.status task) "processing")
    convert_lock (Main.cancel_convert wait_expires task_id) g.
Proof.
  unfold cancel_contract. split.
  - assert (Hreject : forall g0 task,
              Main.compression_tasks g0 !! task_id = Some task ->
              Main.CompressionStatus_eqb (Main.CompressionTask.status task) Main.COMPRESSING
                = false ->
              Main.cancel_compression wait_expires task_id g0
              = (inl (Py.HTTPException 400 "Cannot cancel this task"), g0,
                 [Acquire compression_lock; Release compression_lock])).
    { intros g0 task Hl Hs.
      unfold Main.cancel_compression, with_lock, get, raise, mbind, M_bind.
      now rewrite Hl, Hs. }
    destruct (Main.compression_tasks g !! task_id) as [task|] eqn:Hl.
    + destruct (Main.CompressionStatus_eqb _ _) eqn:Hs; [|now apply Hreject with task].
      assert (Hrun : exists g1 tr task1,
                Main.cancel_compression wait_expires task_id g
                = (inr {| Main.reply_task_id := task_id; Main.reply_status := "cancelled";
                          Main.reply_message := None |}, g1, tr) /\
                Main.compression_tasks g1 !! task_id = Some task1 /\
                Main.CompressionTask.status task1 = Main.ERROR).
      { unfold Main.cancel_compression, Main.stop_process, Main.assign_compression,
          with_lock, get, modify, emit, mbind, mret, M_bind, M_ret.
        rewrite Hl, Hs. cbn [negb].
        destruct (Main.CompressionTask.process task) as [p|]; [destruct wait_expires|];
          cbn; (do 3 eexists; split; [reflexivity|]);
          rewrite (alter_twice _ _ _ _ _ Hl);
          (split; [apply lookup_insert_eq | reflexivity]). }
      destruct Hrun as (g1 & tr & task1 & -> & Hl1 & Hs1). cbn [outcome final fst snd].
      split; [eauto|]. apply Hreject with task1; [exact Hl1 | now rewrite Hs1].
    + unfold Main.cancel_compression, with_lock, get, raise, mbind, M_bind.
      now rewrite Hl.
  - assert (Hreject : forall g0 task,
              Main.convert_tasks g0 !! task_id = Some task ->
              String.eqb (Main.ConvertTask.status task) "processing" = false ->
              Main.cancel_convert wait_expires task_id g0
              = (inl (Py.HTTPException 400 "Cannot cancel this task"), g0,
                 [Acquire convert_lock; Release convert_lock])).
    { intros g0 task Hl Hs.
      unfold Main.cancel_convert, with_lock, get, raise, mbind, M_bind.
      now rewrite Hl, Hs. }
    destruct (Main.convert_tasks g !! task_id) as [task|] eqn:Hl.
    + destruct (String.eqb _ _) eqn:Hs; [|now apply Hreject with task].
      assert (Hrun : exists g1 tr task1,
                Main.cancel_convert wait_expires task_id g
                = (inr {| Main.reply_task_id := task_id; Main.reply_status := "cancelled";
                          Main.reply_message := None |}, g1, tr) /\
                Main.convert_tasks g1 !! task_id = Some task1 /\
                Main.ConvertTask.status task1 = "error").
      { unfold Main.cancel_convert, Main.stop_process, Main.assign_convert,
          with_lock, get, modify, emit, mbind, mret, M_bind, M_ret.
        rewrite Hl, Hs. cbn [negb].
        destruct (Main.ConvertTask.process task) as [p|]; [destruct wait_expires|];
          cbn; (do 3 eexists; split; [reflexivity|]);
          rewrite (alter_twice _ _ _ _ _ Hl);
          (split; [apply lookup_insert_eq | reflexivity]). }
      destruct Hrun as (g1 & tr & task1 & -> & Hl1 & Hs1). cbn [outcome final fst snd].
      split; [eauto|]. apply Hreject with task1; [exact Hl1 | now rewrite Hs1].
    + unfold Main.cancel_convert, with_lock, get, raise, mbind, M_bind.
      now rewrite Hl.
Qed.

(** ** Admission of a compression, without interference *)

(** X16. Run without interference, a compression submitted for an
    existing file is rejected with 409, the registry staying as it is
    and no runner being scheduled, exactly when some task is
    COMPRESSING; otherwise it is stored as a PENDING task at 0.0 and
    its runner is scheduled.  A submission for a missing file raises
    400 before the lock is taken. *)
Theorem compression_admission_alone (_expand_path : string -> string)
    (isfile : string -> bool) (task_id : string) (request : Main.CompressionRequest)
    (g : Main.globals) :
  let r := Main.start_compression _expand_path isfile task_id request g in
  let path := _expand_path (Main.input_path request) in
  if isfile path then
    ((exists k task, Main.compression_tasks g !! k = Some task /\
                     Main.CompressionTask.status task = Main.COMPRESSING) ->
     outcome r = inl (Py.HTTPException 409 "Ya hay una compresion en curso") /\
     final r = g /\ ~ In (run_in_executor task_id) (effects r)) /\
    (~ (exists k task, Main.compression_tasks g !! k = Some task /\
                       Main.CompressionTask.status task = Main.COMPRESSING) ->
     (exists reply, outcome r = inr reply /\ Main.reply_task_id reply = task_id) /\
     Main.compression_tasks (final r) !! task_id =
       Some (Main.CompressionTask.new task_id path ""
               (default false (Main.use_gpu request))) /\
     (forall k, k <> task_id ->
        Main.compression_tasks (final r) !! k = Main.compression_tasks g !! k) /\
     In (run_in_executor task_id) (effects r))
  else
    r = (inl (Py.HTTPException 400 "Archivo de entrada no encontrado"), g, []).
Proof.
  cbv zeta.
  unfold Main.start_compression, Main.admission_scan, Main.admission_create,
    with_lock, get, modify, emit, raise, mbind, mret, M_bind, M_ret.
  destruct (isfile _); cbn [negb]; [|reflexivity].
  pose proof (compressing_exists (Main.compression_tasks g)) as Hex.
  destruct (existsb _ _); cbn.
  - split.
    + intros _. repeat split. intros [H|[H|[]]]; discriminate.
    + intros Hn. exfalso. apply Hn, Hex. reflexivity.
  - split.
    + intros Hc. apply Hex in Hc. discriminate.
    + intros _. split; [eauto|]. split; [apply lookup_insert_eq|].
      split; [intros k Hk; now rewrite lookup_insert_ne by congruence|].
      repeat first [now left | right].
Qed.

(** ** The output path and the files that exist *)

Lemma build_never_overwrites suffix :
  never_overwrites (fun exists_ now => Main.build exists_ now suffix) suffix.
Proof.
  intros exists_ now input_path output_dir output_format base ext plain numbered path.
  subst path. unfold Main.build. fold base ext plain.
  destruct (exists_ plain) eqn:Hplain; cbn [negb]; [|now left].
  destruct (find _ _) as [i|] eqn:Hfind.
  - left. apply find_some in Hfind. destruct Hfind as [_ Hfree].
    now apply negb_true_iff in Hfree.
  - right. split; [reflexivity|]. split; [|reflexivity].
    intros i Hi. pose proof (find_none _ _ Hfind i) as Hnone. cbv beta in Hnone.
    apply negb_false_iff, Hnone.
    unfold PosixPath.range. apply in_map_iff. exists (Z.to_nat (i - 2)).
    split; [lia|]. apply in_seq. lia.
Qed.

(** X17. The path that [_build_output_path] or
    [_build_convert_output_path] returns does not exist, except when
    the plain name and the 48 numbered names are all taken: then it is
    the name numbered by the clock, whether or not that one exists. *)
Theorem output_path_is_free :
  never_overwrites Main._build_output_path "-compressed"
  /\ never_overwrites Main._build_convert_output_path "-converted".
Proof. split; apply build_never_overwrites. Qed.

(** ** The hardware encoders *)

(** X18. The encoder dictionary is consistent when the module is
    loaded and stays so through [GET /compress/encoders]: [all] lists
    encoders among the three looked for, in order of preference,
    [available] tells whether there is one and [best] is the first.
    A detection that ran lists exactly the encoders named in the
    output of ffmpeg, and a dictionary that lists an encoder is
    returned without a new detection. *)
Theorem encoders_stay_consistent (ffmpeg run : option string) (current : Main.encoders) :
  consistent_encoders Main.compression_encoders
  /\ (consistent_encoders current ->
      consistent_encoders (Main.get_compression_encoders ffmpeg run current))
  /\ (forall binary output encoder,
        In encoder (Main.all (Main._detect_encoders (Some binary) (Some output) current))
        <-> In encoder Main.encoder_names /\ Py.contains encoder output = true)
  /\ (Main.all current <> [] ->
      Main.get_compression_encoders ffmpeg run current = current).
Proof.
  assert (Hdetect : forall output,
            consistent_encoders
              (Main._detect_encoders (Some "") (Some output) current)).
  { intros output. unfold consistent_encoders, Main._detect_encoders, Main.encoder_names.
    cbn [List.filter Main.available Main.best Main.all].
    split; [|split].
    - destruct (Py.contains "h264_nvenc" output), (Py.contains "h264_qsv" output),
        (Py.contains "h264_amf" output); split; intros H; congruence.
    - destruct (Py.contains "h264_nvenc" output), (Py.contains "h264_qsv" output),
        (Py.contains "h264_amf" output); reflexivity.
    - exists (fun encoder => Py.contains encoder output). reflexivity. }
  split; [|split; [|split]].
  - split; [|split].
    + split; [discriminate | intros H; now contradiction H].
    + reflexivity.
    + exists (fun _ => false). reflexivity.
  - intros Hc. unfold Main.get_compression_encoders.
    destruct (Main.all current); [|exact Hc].
    destruct ffmpeg as [binary|]; [|exact Hc].
    destruct run as [output|]; [|exact Hc].
    apply (Hdetect output).
  - intros binary output encoder. cbn [Main._detect_encoders Main.all].
    exact (filter_In (fun name => Py.contains name output) encoder Main.encoder_names).
  - intros Hn. unfold Main.get_compression_encoders.
    destruct (Main.all current); [now contradiction Hn | reflexivity].
Qed.

(** ** The status endpoints and the event streams *)

(** X19. A status endpoint leaves the state as it is, and it agrees
    with the event stream of its kind opened on the same state: both
    raise 404 for an unknown identifier, and otherwise the first event
    of the stream carries the identifier, status, progress, ETA, error
    and the other shared fields of the status response. *)
Theorem status_agrees_with_first_event (task_id : string) (g : Main.globals) :
  status_matches_stream (Main.get_task_status task_id) event_of_task_status
    (Main.task_events task_id) g
  /\ status_matches_stream (Main.get_compression_status task_id) event_of_status
       (Main.compression_events task_id) g
  /\ status_matches_stream (Main.get_convert_status task_id) event_of_status
       (Main.convert_events task_id) g.
Proof.
  unfold status_matches_stream.
  split; [|split].
  - unfold Main.get_task_status, Main.on_manager, Downloader.get_task, Main.task_events,
      Main.events, with_lock, get, raise, mbind, mret, M_bind, M_ret.
    cbn [Main.event_generator].
    destruct (Downloader.tasks (Main.manager g) !! task_id) as [task|];
      cbn [outcome final fst snd].
    + split; [now destruct g|]. intros resumed later. eexists. reflexivity.
    + split; [now destruct g|]. split; reflexivity.
  - unfold Main.get_compression_status, Main.compression_events,
      Main.events, with_lock, get, raise, mbind, mret, M_bind, M_ret.
    cbn [Main.event_generator].
    destruct (Main.compression_tasks g !! task_id) as [task|];
      cbn [outcome final fst snd].
    + split; [reflexivity|]. intros resumed later. eexists. reflexivity.
    + split; [reflexivity|]. split; reflexivity.
  - unfold Main.get_convert_status, Main.convert_events,
      Main.events, with_lock, get, raise, mbind, mret, M_bind, M_ret.
    cbn [Main.event_generator].
    destruct (Main.convert_tasks g !! task_id) as [task|];
      cbn [outcome final fst snd].
    + split; [reflexivity|]. intros resumed later. eexists. reflexivity.
    + split; [reflexivity|]. split; reflexivity.
Qed.

(** ** Cancelling a download twice *)

(** X20. [cancel_task] is idempotent: called again on the state that a
    first call left, whether that call succeeded or not, it returns
    False and changes nothing. *)
Theorem cancel_task_twice (task_id : string) (m : Downloader.DownloadManager) :
  let m1 := final (Downloader.cancel_task task_id m) in
  Downloader.cancel_task task_id m1
  = (inr false, m1, [Acquire manager_lock; Release manager_lock]).
Proof.
  cbv zeta. rewrite (cancel_task_run m).
  destruct (Downloader.tasks m !! task_id) as [task|] eqn:Hl.
  - destruct (cancellable (Downloader.DownloadTask.status task)) eqn:Hc;
      cbn [final fst snd]; rewrite cancel_task_run.
    + cbn [Downloader.tasks Downloader.set_tasks]. rewrite lookup_insert_eq. reflexivity.
    + now rewrite Hl, Hc.
  - cbn [final fst snd]. rewrite cancel_task_run. now rewrite Hl.
Qed.

(** ** A worker without its task *)

(** X21. A worker started for an identifier that is not registered
    raises [KeyError] from its exception handler: the manager is as it
    was, the engine has not been called, no callback is run, and the
    lock has been taken and released twice. *)
Theorem download_worker_unknown_task (e : Downloader.worker_env)
    (task_id url format_type quality : string)
    (output_path output_format audio_quality : option string)
    (m : Downloader.DownloadManager) :
  Downloader.tasks m !! task_id = None ->
  Downloader._download_worker e task_id url format_type quality
    output_path output_format audio_quality m
  = (inl Py.KeyError, m,
     [Acquire manager_lock; Release manager_lock;
      Acquire manager_lock; Release manager_lock]).
Proof.
  intros Hl.
  unfold Downloader._download_worker, Downloader.locked_write, Downloader.worker_except,
    with_lock, get, raise, mbind, mret, M_bind, M_ret.
  rewrite Hl. cbn. rewrite Hl. reflexivity.
Qed.

Lemma download_worker_unknown_task_witness :
  Downloader._download_worker sample_worker_env "d0wn10ad" "https://example.org/v"
    "video" "best" None None None no_downloads
  = (inl Py.KeyError, no_downloads,
     [Acquire manager_lock; Release manager_lock;
      Acquire manager_lock; Release manager_lock]).
Proof.
  apply (download_worker_unknown_task sample_worker_env "d0wn10ad"
           "https://example.org/v" "video" "best" None None None no_downloads).
  reflexivity.
Defined.

(** ** Locating ffmpeg *)

Lemma find_isfile {A} (f : A -> bool) l x : List.find f l = Some x -> f x = true.
Proof. intros H. now apply List.find_some in H. Qed.

Lemma find_binary_cases (h : Main.host) (binary_name env_key : string) :
  match Main._find_binary h binary_name env_key with
  | Some path => Main.isfile h path = true \/ Main.which h binary_name = Some path
  | None =>
      Main.which h binary_name = None /\
      (forall c, In c (Main.candidates h binary_name) -> Main.isfile h c = false) /\
      (forall p, Main.environ h env_key = Some p -> p = "" \/ Main.isfile h p = false)
  end.
Proof.
  unfold Main._find_binary.
  destruct (Main.environ h env_key) as [p|] eqn:He.
  - destruct (String.eqb_spec p "") as [->|Hp]; cbn [negb andb].
    + destruct (List.find _ _) as [c|] eqn:Hf.
      * left. exact (find_isfile _ _ _ Hf).
      * destruct (Main.which h binary_name) as [w|] eqn:Hw; [now right|].
        split; [reflexivity|]. split.
        -- intros c Hc. exact (List.find_none _ _ Hf c Hc).
        -- intros p [= <-]. now left.
    + destruct (Main.isfile h p) eqn:Hi; [now left|].
      destruct (List.find _ _) as [c|] eqn:Hf.
      * left. exact (find_isfile _ _ _ Hf).
      * destruct (Main.which h binary_name) as [w|] eqn:Hw; [now right|].
        split; [reflexivity|]. split.
        -- intros c Hc. exact (List.find_none _ _ Hf c Hc).
        -- intros p' [= <-]. now right.
  - destruct (List.find _ _) as [c|] eqn:Hf.
    + left. exact (find_isfile _ _ _ Hf).
    + destruct (Main.which h binary_name) as [w|] eqn:Hw; [now right|].
      split; [reflexivity|]. split.
      * intros c Hc. exact (List.find_none _ _ Hf c Hc).
      * intros p [=].
Qed.

(** X22. [_find_binary] returns a path only if it is a file or is what
    [shutil.which] found, and it returns [None] only when the variable
    of the environment names no file, no candidate is a file and
    [shutil.which] finds nothing.  The lookup of ffmpeg, which tries
    [ffmpeg.exe] and then [ffmpeg], likewise returns a file or a
    result of [shutil.which], and fails only when [shutil.which]
    finds no [ffmpeg]. *)
Theorem find_binary_sound (h : Main.host) :
  (forall binary_name env_key,
     match Main._find_binary h binary_name env_key with
     | Some path => Main.isfile h path = true \/ Main.which h binary_name = Some path
     | None =>
         Main.which h binary_name = None /\
         (forall c, In c (Main.candidates h binary_name) -> Main.isfile h c = false) /\
         (forall p, Main.environ h env_key = Some p -> p = "" \/ Main.isfile h p = false)
     end) /\
  match Main.find_ffmpeg h with
  | Some path =>
      Main.isfile h path = true \/ Main.which h "ffmpeg.exe" = Some path \/
      Main.which h "ffmpeg" = Some path
  | None => Main.which h "ffmpeg" = None
  end.
Proof.
  split; [exact (find_binary_cases h)|].
  unfold Main.find_ffmpeg.
  pose proof (find_binary_cases h "ffmpeg.exe" "FFMPEG_PATH") as H1.
  pose proof (find_binary_cases h "ffmpeg" "FFMPEG_PATH") as H2.
  destruct (Main._find_binary h "ffmpeg.exe" _) as [p1|].
  - destruct (String.eqb p1 "").
    + destruct (Main._find_binary h "ffmpeg" _) as [p2|]; [tauto | exact (proj1 H2)].
    + tauto.
  - destruct (Main._find_binary h "ffmpeg" _) as [p2|]; [tauto | exact (proj1 H2)].
Qed.
